(** * Context-guided BERT (CGBERT.py): a shallow embedding and its properties

    The development follows [code/model/CGBERT.py], class by class: every
    [nn.Module] is a Rocq module with a record [t] of its submodules and
    parameters and a function [forward].

    - Tensors are nested lists of real numbers, one list level per tensor
      dimension.  The arithmetic is exact real arithmetic ([R]); rounding
      and overflow of the floating-point kernels are not part of the
      model, with one exception: the gates of the self-attention are also
      given as the binary32 numbers the sigmoid kernel returns
      ([round32], [sigmoid32]), since whether a gate can reach 0 or 1
      depends on the rounding.
    - Tensor operations are total on lists; where torch would reject
      operands of mismatched shapes, the statements carry the shapes as
      hypotheses.  Index errors of embedding lookups, of [x[:, 0]] and of
      list indexing are modelled: they are values of [PyError] carried by
      [result].
    - Python integers are [Z]; sizes that index lists are [nat].
    - An [nn.Dropout] submodule is represented by its action on a tensor:
      the identity in evaluation mode, a rescaled random mask in training
      mode.
    - The [device] argument threaded through the [forward] methods is not
      read by any of them and is left out. *)

From Stdlib Require Import Reals Lra Lia List ZArith Bool.
From Stdlib Require String.
Import ListNotations.
Import String.StringSyntax.
Delimit Scope string_scope with string.
Open Scope R_scope.

Set Implicit Arguments.

(** ** Exceptions *)

Inductive PyError : Type :=
| ValueError
| ZeroDivisionError
| IndexError
| RuntimeError.

Inductive result (A : Type) : Type :=
| Ok (a : A)
| Raise (e : PyError).

Arguments Ok {A} a.
Arguments Raise {A} e.

Definition bind {A B : Type} (m : result A) (k : A -> result B) : result B :=
  match m with
  | Ok a => k a
  | Raise e => Raise e
  end.

Notation "x <- m ;; k" := (bind m (fun x => k))
  (at level 61, m at next level, right associativity).

Fixpoint mapM {A B : Type} (f : A -> result B) (l : list A) : result (list B) :=
  match l with
  | [] => Ok []
  | a :: l' => b <- f a ;; bs <- mapM f l' ;; Ok (b :: bs)
  end.

Definition is_ok {A : Type} (m : result A) : bool :=
  match m with Ok _ => true | Raise _ => false end.

(** ** Tensors as nested lists *)

Abbreviation vec := (list R).
Abbreviation tensor2 := (list (list R)).
Abbreviation tensor3 := (list (list (list R))).
Abbreviation tensor4 := (list (list (list (list R)))).

Fixpoint map2 {A B C : Type} (f : A -> B -> C) (l : list A) (l' : list B) : list C :=
  match l, l' with
  | a :: t, b :: t' => f a b :: map2 f t t'
  | _, _ => []
  end.

Definition sum (v : vec) : R := fold_right Rplus 0 v.

Definition dot (a b : vec) : R := sum (map2 Rmult a b).

Definition mean (v : vec) : R := sum v / INR (length v).

(** Element-wise operations on tensors of equal shape. *)
Definition add1 : vec -> vec -> vec := map2 Rplus.
Definition add2 : tensor2 -> tensor2 -> tensor2 := map2 add1.
Definition add3 : tensor3 -> tensor3 -> tensor3 := map2 add2.
Definition add4 : tensor4 -> tensor4 -> tensor4 := map2 add3.

Definition map3 (f : vec -> vec) : tensor3 -> tensor3 := map (map f).
Definition map4 (f : vec -> vec) : tensor4 -> tensor4 := map (map (map f)).

(** [x.transpose(-1, -2)] and the swap of two neighbouring dimensions done
    by [permute(0, 2, 1, 3)]: the list of columns of a list of rows.  A
    list does not record the size of an empty inner dimension, so the
    number of columns is an argument. *)
Definition transpose {A : Type} (d : A) (ncols : nat) (m : list (list A))
  : list (list A) :=
  map (fun j => map (fun row => nth j row d) m) (seq 0 ncols).

(** [torch.matmul] on two matrices, [B] having [ncols] columns. *)
Definition matmul (ncols : nat) (A B : tensor2) : tensor2 :=
  map (fun a => map (fun col => dot a col) (transpose 0 ncols B)) A.

(** [torch.cat([a, b], dim=-1)] on 3-D tensors. *)
Definition cat_last (a b : tensor3) : tensor3 :=
  map2 (map2 (@app R)) a b.

(** Broadcasting read: a dimension of size one is read at every index. *)
Definition bnth {A : Type} (d : A) (l : list A) (i : nat) : A :=
  match l with
  | [x] => x
  | _ => nth i l d
  end.

Fixpoint mapi_from {A B : Type} (i : nat) (f : nat -> A -> B) (l : list A) : list B :=
  match l with
  | [] => []
  | a :: t => f i a :: mapi_from (S i) f t
  end.

Definition mapi {A B : Type} (f : nat -> A -> B) (l : list A) : list B :=
  mapi_from 0 f l.

(** [a + m] where [m] broadcasts to the shape of [a]. *)
Definition badd4 (a m : tensor4) : tensor4 :=
  mapi (fun b ab =>
    mapi (fun h abh =>
      mapi (fun s row =>
        mapi (fun t x =>
          x + bnth 0 (bnth [] (bnth [] (bnth [] m b) h) s) t) row) abh) ab) a.

(** [g * x] where the last dimension of [g] has size one. *)
Definition bmul1 (g x : vec) : vec := map (fun xd => hd 0 g * xd) x.
Definition bmul4 : tensor4 -> tensor4 -> tensor4 := map2 (map2 (map2 bmul1)).

(** [1 - g]. *)
Definition one_minus4 : tensor4 -> tensor4 := map4 (map (fun g => 1 - g)).

Definition get4 (t : tensor4) (b h s d : nat) : R :=
  nth d (nth s (nth h (nth b t []) []) []) 0.

Definition row4 (t : tensor4) (b h s : nat) : vec :=
  nth s (nth h (nth b t []) []) [].

Definition row3 (t : tensor3) (b s : nat) : vec :=
  nth s (nth b t []) [].

(** Shapes. *)
Definition shape1 (n : nat) (v : vec) : Prop := length v = n.
Definition shape2 (n m : nat) (t : tensor2) : Prop :=
  length t = n /\ Forall (shape1 m) t.
Definition shape3 (n m k : nat) (t : tensor3) : Prop :=
  length t = n /\ Forall (shape2 m k) t.
Definition shape4 (n m k l : nat) (t : tensor4) : Prop :=
  length t = n /\ Forall (shape3 m k l) t.

(** ** torch.nn building blocks *)

(** [nn.Linear]: [weight] has one row per output feature. *)
Record Linear : Type := {
  weight : tensor2;
  bias : option vec
}.

Definition Linear_forward1 (l : Linear) (x : vec) : vec :=
  let y := map (fun w => dot x w) (weight l) in
  match bias l with
  | Some b => add1 y b
  | None => y
  end.

Definition Linear_forward3 (l : Linear) : tensor3 -> tensor3 :=
  map3 (Linear_forward1 l).
Definition Linear_forward4 (l : Linear) : tensor4 -> tensor4 :=
  map4 (Linear_forward1 l).

Definition Linear_shape (n_in n_out : nat) (l : Linear) : Prop :=
  shape2 n_out n_in (weight l) /\
  match bias l with Some b => shape1 n_out b | None => True end.

(** [nn.Sigmoid]. *)
Definition sigmoid (x : R) : R := 1 / (1 + exp (- x)).

(** ** Binary32 rounding

    The parameters and activations of the program are binary32 tensors
    (torch's default type; the attention mask is cast by [.float()]).
    [round32 x] is the binary32 number nearest to [x], ties to even: 24
    significant bits in the binade of [x], and the spacing 2^-149 of the
    subnormal numbers below 2^-126.  Overflow to infinity is not
    modelled; the function is used on numbers of magnitude at most 1. *)
Definition Zfloor (x : R) : Z := (up x - 1)%Z.

Definition Znearest (x : R) : Z :=
  let f := Zfloor x in
  if Rlt_dec (x - IZR f) (1 / 2) then f
  else if Rlt_dec (1 / 2) (x - IZR f) then (f + 1)%Z
  else if Z.even f then f else (f + 1)%Z.

Definition exponent32 (x : R) : Z :=
  Z.max (Zfloor (ln (Rabs x) / ln 2)) (-126).

Definition round32 (x : R) : R :=
  if Req_dec_T x 0 then 0
  else
    let e := exponent32 x in
    IZR (Znearest (x * powerRZ 2 (23 - e))) * powerRZ 2 (e - 23).

(** [nn.Sigmoid] on a binary32 number [x]: the binary32 number nearest to
    the exact value. *)
Definition sigmoid32 (x : R) : R := round32 (sigmoid x).

(** [nn.Softmax(dim=-1)] on one row. *)
Definition softmax (v : vec) : vec :=
  let e := map exp v in
  map (fun x => x / sum e) e.

(** [nn.Embedding]: row lookup; an index outside the table raises. *)
Definition Embedding_forward1 (table : tensor2) (i : Z) : result vec :=
  if (i <? 0)%Z then Raise IndexError
  else match nth_error table (Z.to_nat i) with
       | Some row => Ok row
       | None => Raise IndexError
       end.

(** ** BertConfig *)

Module BertConfig.

Record t : Type := {
  vocab_size : Z;
  hidden_size : Z;
  num_hidden_layers : Z;
  num_attention_heads : Z;
  intermediate_size : Z;
  hidden_dropout_prob : R;
  attention_probs_dropout_prob : R;
  max_position_embeddings : Z;
  type_vocab_size : Z;
  initializer_range : R;
  full_pooler : bool
}.

End BertConfig.

(** ** ContextBERTSelfAttention *)

Module ContextBERTSelfAttention.

(** What [__init__] builds: the three sizes, the shape (in_features,
    out_features) of each linear layer and the probability of the dropout
    layer.  The initial weights are drawn at random and are not part of
    the model; neither is the memory they need. *)
Record sizes : Type := {
  init_num_attention_heads : Z;
  init_attention_head_size : Z;
  init_all_head_size : Z;
  init_query : Z * Z;
  init_key : Z * Z;
  init_value : Z * Z;
  init_dropout : R;
  init_context_for_q : Z * Z;
  init_context_for_k : Z * Z;
  init_lambda_q_context_layer : Z * Z;
  init_lambda_q_query_layer : Z * Z;
  init_lambda_k_context_layer : Z * Z;
  init_lambda_k_key_layer : Z * Z
}.

(** [nn.Linear(in_features, out_features)]: the weight of shape
    (out_features, in_features) cannot be allocated with a negative
    size. *)
Definition Linear_init (in_features out_features : Z) : result (Z * Z) :=
  if ((in_features <? 0) || (out_features <? 0))%Z then Raise RuntimeError
  else Ok (in_features, out_features).

(** [nn.Dropout(p)] checks [p < 0 or p > 1]. *)
Definition Dropout_init (p : R) : result R :=
  if Rlt_dec p 0 then Raise ValueError
  else if Rlt_dec 1 p then Raise ValueError
  else Ok p.

(** [__init__].  Python's [%] on a zero divisor raises
    [ZeroDivisionError] before the comparison is made; on a non-zero
    divisor it is the floor remainder, as [Z.modulo].  [int(a / b)]
    truncates the quotient, as [Z.quot] (the float quotient is exact for
    sizes up to 2^53).  The submodules are then built in the order of the
    source, and the first one that raises ends the construction. *)
Definition init (config : BertConfig.t) : result sizes :=
  if (BertConfig.num_attention_heads config =? 0)%Z then Raise ZeroDivisionError
  else if negb ((BertConfig.hidden_size config
                 mod BertConfig.num_attention_heads config) =? 0)%Z
  then Raise ValueError
  else
    let nh := BertConfig.num_attention_heads config in
    let hs := Z.quot (BertConfig.hidden_size config) nh in
    let all_head_size := (nh * hs)%Z in
    query <- Linear_init (BertConfig.hidden_size config) all_head_size ;;
    key <- Linear_init (BertConfig.hidden_size config) all_head_size ;;
    value <- Linear_init (BertConfig.hidden_size config) all_head_size ;;
    dropout <- Dropout_init (BertConfig.attention_probs_dropout_prob config) ;;
    context_for_q <- Linear_init hs hs ;;
    context_for_k <- Linear_init hs hs ;;
    lambda_q_context_layer <- Linear_init hs 1 ;;
    lambda_q_query_layer <- Linear_init hs 1 ;;
    lambda_k_context_layer <- Linear_init hs 1 ;;
    lambda_k_key_layer <- Linear_init hs 1 ;;
    Ok {| init_num_attention_heads := nh;
          init_attention_head_size := hs;
          init_all_head_size := all_head_size;
          init_query := query;
          init_key := key;
          init_value := value;
          init_dropout := dropout;
          init_context_for_q := context_for_q;
          init_context_for_k := context_for_k;
          init_lambda_q_context_layer := lambda_q_context_layer;
          init_lambda_q_query_layer := lambda_q_query_layer;
          init_lambda_k_context_layer := lambda_k_context_layer;
          init_lambda_k_key_layer := lambda_k_key_layer |}.

(** The module state used by [forward].  [dropout] is the action of the
    [nn.Dropout] submodule: the identity in evaluation mode, a rescaled
    random mask in training mode. *)
Record t : Type := {
  num_attention_heads : nat;
  attention_head_size : nat;
  query : Linear;
  key : Linear;
  value : Linear;
  dropout : tensor4 -> tensor4;
  context_for_q : Linear;
  context_for_k : Linear;
  lambda_q_context_layer : Linear;
  lambda_q_query_layer : Linear;
  lambda_k_context_layer : Linear;
  lambda_k_key_layer : Linear
}.

(** [x.view(batch, seq, heads, head_size)] on one row of features. *)
Definition view_heads (nh dh : nat) (row : vec) : list vec :=
  map (fun h => firstn dh (skipn (h * dh) row)) (seq 0 nh).

Definition transpose_for_scores (self : t) (x : tensor3) : tensor4 :=
  map (fun xb =>
         transpose [] (num_attention_heads self)
           (map (view_heads (num_attention_heads self) (attention_head_size self)) xb))
      x.

(** The local variables of [forward], under their names in the source;
    [attention_probs_softmax] is [attention_probs] before its
    reassignment by dropout. *)
Record locals : Type := {
  mixed_query_layer : tensor4;
  mixed_key_layer : tensor4;
  mixed_value_layer : tensor3;
  context_embedded_q : tensor4;
  lambda_q : tensor4;
  contextualized_query_layer : tensor4;
  context_embedded_k : tensor4;
  lambda_k : tensor4;
  contextualized_key_layer : tensor4;
  value_layer : tensor4;
  attention_scores : tensor4;
  attention_probs_softmax : tensor4;
  attention_probs : tensor4;
  context_layer : tensor3
}.

Definition forward_locals (self : t) (hidden_states : tensor3)
    (attention_mask : tensor4) (context_embedded : tensor3) : locals :=
  let heads := num_attention_heads self in
  let head_size := attention_head_size self in
  let seq_length := match hidden_states with [] => 0%nat | xb :: _ => length xb end in
  let mixed_query_layer := Linear_forward3 (query self) hidden_states in
  let mixed_key_layer := Linear_forward3 (key self) hidden_states in
  let mixed_value_layer := Linear_forward3 (value self) hidden_states in
  let mixed_query_layer := transpose_for_scores self mixed_query_layer in
  let mixed_key_layer := transpose_for_scores self mixed_key_layer in
  let context_embedded := transpose_for_scores self context_embedded in
  let context_embedded_q := Linear_forward4 (context_for_q self) context_embedded in
  let lambda_q_context := Linear_forward4 (lambda_q_context_layer self) context_embedded_q in
  let lambda_q_query := Linear_forward4 (lambda_q_query_layer self) mixed_query_layer in
  let lambda_q := add4 lambda_q_context lambda_q_query in
  let lambda_q := map4 (map sigmoid) lambda_q in
  let contextualized_query_layer :=
    add4 (bmul4 (one_minus4 lambda_q) mixed_query_layer)
         (bmul4 lambda_q context_embedded_q) in
  let context_embedded_k := Linear_forward4 (context_for_k self) context_embedded in
  let lambda_k_context := Linear_forward4 (lambda_k_context_layer self) context_embedded_k in
  let lambda_k_key := Linear_forward4 (lambda_k_key_layer self) mixed_key_layer in
  let lambda_k := add4 lambda_k_context lambda_k_key in
  let lambda_k := map4 (map sigmoid) lambda_k in
  let contextualized_key_layer :=
    add4 (bmul4 (one_minus4 lambda_k) mixed_key_layer)
         (bmul4 lambda_k context_embedded_k) in
  let value_layer := transpose_for_scores self mixed_value_layer in
  let attention_scores :=
    map2 (map2 (fun q k => matmul seq_length q (transpose 0 head_size k)))
         contextualized_query_layer contextualized_key_layer in
  let attention_scores :=
    map4 (map (fun x => x / sqrt (INR head_size))) attention_scores in
  let attention_scores := badd4 attention_scores attention_mask in
  let attention_probs_softmax := map4 softmax attention_scores in
  let attention_probs := dropout self attention_probs_softmax in
  let context_layer := map2 (map2 (matmul head_size)) attention_probs value_layer in
  let context_layer :=
    map (fun cb => map (@concat R) (transpose [] seq_length cb)) context_layer in
  {| mixed_query_layer := mixed_query_layer;
     mixed_key_layer := mixed_key_layer;
     mixed_value_layer := mixed_value_layer;
     context_embedded_q := context_embedded_q;
     lambda_q := lambda_q;
     contextualized_query_layer := contextualized_query_layer;
     context_embedded_k := context_embedded_k;
     lambda_k := lambda_k;
     contextualized_key_layer := contextualized_key_layer;
     value_layer := value_layer;
     attention_scores := attention_scores;
     attention_probs_softmax := attention_probs_softmax;
     attention_probs := attention_probs;
     context_layer := context_layer |}.

(** The two gates as binary32 numbers: the binary32 number nearest to each
    exact gate, which is what [lambda_act] returns on a pre-activation
    that the linear layers compute without rounding error. *)
Definition lambda_q_binary32 (tr : locals) : tensor4 :=
  map4 (map round32) (lambda_q tr).

Definition lambda_k_binary32 (tr : locals) : tensor4 :=
  map4 (map round32) (lambda_k tr).

Definition forward (self : t) (hidden_states : tensor3)
    (attention_mask : tensor4) (context_embedded : tensor3) : tensor3 :=
  context_layer (forward_locals self hidden_states attention_mask context_embedded).

(** What [__init__] establishes about the parameter shapes, for hidden
    size [hidden]. *)
Definition wf (hidden : nat) (self : t) : Prop :=
  let nh := num_attention_heads self in
  let dh := attention_head_size self in
  Linear_shape hidden (nh * dh) (query self) /\
  Linear_shape hidden (nh * dh) (key self) /\
  Linear_shape hidden (nh * dh) (value self) /\
  Linear_shape dh dh (context_for_q self) /\
  Linear_shape dh dh (context_for_k self) /\
  Linear_shape dh 1 (lambda_q_context_layer self) /\
  Linear_shape dh 1 (lambda_q_query_layer self) /\
  Linear_shape dh 1 (lambda_k_context_layer self) /\
  Linear_shape dh 1 (lambda_k_key_layer self) /\
  bias (lambda_q_context_layer self) = None /\
  bias (lambda_q_query_layer self) = None /\
  bias (lambda_k_context_layer self) = None /\
  bias (lambda_k_key_layer self) = None.

End ContextBERTSelfAttention.

(** ** gelu and BERTIntermediate *)

(** [torch.erf]: the error function, twice the integral of the Gaussian
    density from 0 to [x] over the square root of pi; odd in [x]. *)
Definition gauss (t : R) : R := exp (- (t * t)).

Definition gauss_integrable (a b : R) (Hab : a <= b) : Riemann_integrable gauss a b :=
  continuity_implies_RiemannInt Hab
    (fun t _ => ltac:(unfold gauss; reg) : continuity_pt gauss t).

Definition gauss_integral (x : R) (H : 0 <= x) : R :=
  RiemannInt (gauss_integrable H).

Definition erf (x : R) : R :=
  match Rle_dec 0 x with
  | left H => 2 / sqrt PI * gauss_integral H
  | right H => - (2 / sqrt PI * gauss_integral (x := - x) ltac:(lra))
  end.

Definition gelu (x : R) : R :=
  x * (5 / 10) * (1 + erf (x / sqrt 2)).

Module BERTIntermediate.

Record t : Type := {
  dense : Linear;
  intermediate_act_fn : R -> R
}.

Definition forward (self : t) (hidden_states : tensor3) : tensor3 :=
  let hidden_states := Linear_forward3 (dense self) hidden_states in
  let hidden_states := map3 (map (intermediate_act_fn self)) hidden_states in
  hidden_states.

End BERTIntermediate.

(** ** BERTLayerNorm *)

Module BERTLayerNorm.

Record t : Type := {
  gamma : vec;
  beta : vec;
  variance_epsilon : R
}.

Definition forward1 (self : t) (x : vec) : vec :=
  let u := mean x in
  let s := mean (map (fun xi => (xi - u) ^ 2) x) in
  let x := map (fun xi => (xi - u) / sqrt (s + variance_epsilon self)) x in
  add1 (map2 Rmult (gamma self) x) (beta self).

Definition forward (self : t) : tensor3 -> tensor3 := map3 (forward1 self).

End BERTLayerNorm.

(** ** BERTEmbeddings *)

Definition zeros_like (input_ids : list (list Z)) : list (list Z) :=
  map (map (fun _ => 0%Z)) input_ids.

Definition size1 {A : Type} (x : list (list A)) : nat :=
  match x with
  | [] => 0%nat
  | row :: _ => length row
  end.

Module BERTEmbeddings.

Record t : Type := {
  word_embeddings : tensor2;
  position_embeddings : tensor2;
  token_type_embeddings : tensor2;
  LayerNorm : BERTLayerNorm.t;
  dropout : tensor3 -> tensor3
}.

Definition lookup (table : tensor2) (ids : list (list Z)) : result tensor3 :=
  mapM (mapM (Embedding_forward1 table)) ids.

Definition forward (self : t) (input_ids : list (list Z))
    (token_type_ids : option (list (list Z))) : result tensor3 :=
  let seq_length := size1 input_ids in
  let position_ids := map Z.of_nat (seq 0 seq_length) in
  let position_ids := map (fun _ => position_ids) input_ids in
  let token_type_ids :=
    match token_type_ids with
    | None => zeros_like input_ids
    | Some ids => ids
    end in
  words_embeddings <- lookup (word_embeddings self) input_ids ;;
  position_embeddings <- lookup (position_embeddings self) position_ids ;;
  token_type_embeddings <- lookup (token_type_embeddings self) token_type_ids ;;
  let embeddings := add3 (add3 words_embeddings position_embeddings) token_type_embeddings in
  let embeddings := BERTLayerNorm.forward (LayerNorm self) embeddings in
  let embeddings := dropout self embeddings in
  Ok embeddings.

End BERTEmbeddings.

(** ** ContextBERTPooler *)

Module ContextBERTPooler.

(** [attention_gate] is the [nn.Sequential] of two linear layers built by
    [__init__]; [forward] does not read it. *)
Record t : Type := {
  attention_gate : Linear * Linear;
  dense : Linear
}.

(** [hidden_states[:, 0]]: position 0 of every example; indexing an empty
    sequence dimension raises. *)
Definition first_token (hidden_states : tensor3) : result tensor2 :=
  mapM (fun xb => match xb with
                  | [] => Raise IndexError
                  | x0 :: _ => Ok x0
                  end) hidden_states.

Definition forward (self : t) (hidden_states : tensor3) (attention_mask : tensor2)
  : result tensor2 :=
  hs_pooled <- first_token hidden_states ;;
  let pooled_output := map (Linear_forward1 (dense self)) hs_pooled in
  let pooled_output := map (map tanh) pooled_output in
  Ok pooled_output.

End ContextBERTPooler.

(** ** BERTSelfOutput, BERTOutput *)

Module BERTSelfOutput.

Record t : Type := {
  dense : Linear;
  LayerNorm : BERTLayerNorm.t;
  dropout : tensor3 -> tensor3
}.

Definition forward (self : t) (hidden_states input_tensor : tensor3) : tensor3 :=
  let hidden_states := Linear_forward3 (dense self) hidden_states in
  let hidden_states := dropout self hidden_states in
  let hidden_states :=
    BERTLayerNorm.forward (LayerNorm self) (add3 hidden_states input_tensor) in
  hidden_states.

End BERTSelfOutput.

Module BERTOutput.

Record t : Type := {
  dense : Linear;
  LayerNorm : BERTLayerNorm.t;
  dropout : tensor3 -> tensor3
}.

Definition forward (self : t) (hidden_states input_tensor : tensor3) : tensor3 :=
  let hidden_states := Linear_forward3 (dense self) hidden_states in
  let hidden_states := dropout self hidden_states in
  let hidden_states :=
    BERTLayerNorm.forward (LayerNorm self) (add3 hidden_states input_tensor) in
  hidden_states.

End BERTOutput.

(** ** ContextBERTAttention, ContextBERTLayer *)

Module ContextBERTAttention.

Record t : Type := {
  self : ContextBERTSelfAttention.t;
  output : BERTSelfOutput.t
}.

Definition forward (this : t) (input_tensor : tensor3) (attention_mask : tensor4)
    (context_embedded : tensor3) : tensor3 :=
  let self_output :=
    ContextBERTSelfAttention.forward (self this) input_tensor attention_mask
      context_embedded in
  let attention_output := BERTSelfOutput.forward (output this) self_output input_tensor in
  attention_output.

End ContextBERTAttention.

Module ContextBERTLayer.

Record t : Type := {
  attention : ContextBERTAttention.t;
  intermediate : BERTIntermediate.t;
  output : BERTOutput.t
}.

Definition forward (self : t) (hidden_states : tensor3) (attention_mask : tensor4)
    (context_embedded : tensor3) : tensor3 :=
  let attention_output :=
    ContextBERTAttention.forward (attention self) hidden_states attention_mask
      context_embedded in
  let intermediate_output := BERTIntermediate.forward (intermediate self) attention_output in
  let layer_output := BERTOutput.forward (output self) intermediate_output attention_output in
  layer_output.

End ContextBERTLayer.

(** ** ContextBERTEncoder *)

Module ContextBERTEncoder.

Record t : Type := {
  context_layer : list Linear;
  layer : list ContextBERTLayer.t
}.

(** The loop of [forward] over the remaining layers, from [layer_index] and
    the current [hidden_states].  Each iteration is recorded as the pair
    of the [deep_context_hidden] handed to the layer and the
    [hidden_states] the layer returns.  [context_embeddings] is never
    assigned in the loop: the in-place [+=] writes into the fresh tensor
    returned by the linear layer. *)
Fixpoint loop (self : t) (attention_mask : tensor4) (context_embeddings : tensor3)
    (layers : list ContextBERTLayer.t) (layer_index : nat) (hidden_states : tensor3)
  : result (list (tensor3 * tensor3)) :=
  match layers with
  | [] => Ok []
  | layer_module :: rest =>
      match nth_error (context_layer self) layer_index with
      | None => Raise IndexError
      | Some context_linear =>
          let deep_context_hidden := cat_last context_embeddings hidden_states in
          let deep_context_hidden := Linear_forward3 context_linear deep_context_hidden in
          let deep_context_hidden := add3 deep_context_hidden context_embeddings in
          let hidden_states :=
            ContextBERTLayer.forward layer_module hidden_states attention_mask
              deep_context_hidden in
          steps <- loop self attention_mask context_embeddings rest (S layer_index)
                     hidden_states ;;
          Ok ((deep_context_hidden, hidden_states) :: steps)
      end
  end.

Definition forward_steps (self : t) (hidden_states : tensor3)
    (attention_mask : tensor4) (context_embeddings : tensor3)
  : result (list (tensor3 * tensor3)) :=
  loop self attention_mask context_embeddings (layer self) 0 hidden_states.

Definition forward (self : t) (hidden_states : tensor3) (attention_mask : tensor4)
    (context_embeddings : tensor3) : result (list tensor3) :=
  steps <- forward_steps self hidden_states attention_mask context_embeddings ;;
  let all_encoder_layers := map snd steps in
  Ok all_encoder_layers.

End ContextBERTEncoder.

(** ** ContextBertModel *)

Definition ones_like (input_ids : list (list Z)) : tensor2 :=
  map (map (fun _ => 1)) input_ids.

(** [all_encoder_layers[-1]]. *)
Definition last_item {A : Type} (l : list A) : result A :=
  match rev l with
  | [] => Raise IndexError
  | x :: _ => Ok x
  end.

Module ContextBertModel.

(** [context_embeddings] is the table of [nn.Embedding(2*4, hidden_size)]. *)
Record t : Type := {
  embeddings : BERTEmbeddings.t;
  encoder : ContextBERTEncoder.t;
  pooler : ContextBERTPooler.t;
  context_embeddings : tensor2
}.

Definition context_vocab : nat := 2 * 4.

Definition wf (self : t) : Prop :=
  length (context_embeddings self) = context_vocab.

(** [attention_mask.unsqueeze(1).unsqueeze(2)], then
    [(1.0 - mask) * -10000.0].  A mask of integers is read through
    [.float()], so masks are tensors of reals here. *)
Definition extend_mask (attention_mask : tensor2) : tensor4 :=
  let extended_attention_mask := map (fun row => [[row]]) attention_mask in
  map4 (map (fun m => (1 - m) * - 10000)) extended_attention_mask.

(** [context_ids] is the (batch x 1) column of ids, one per example; the
    lookup followed by [squeeze(dim=1)] gives one row per example. *)
Definition context_lookup (self : t) (context_ids : list Z) : result tensor2 :=
  mapM (Embedding_forward1 (context_embeddings self)) context_ids.

(** [torch.stack(seq_len * [context_embedded], dim=1)]; stacking an empty
    list raises. *)
Definition stack_seq (seq_len : nat) (context_embedded : tensor2) : result tensor3 :=
  match seq_len with
  | O => Raise RuntimeError
  | _ => Ok (map (fun c => repeat c seq_len) context_embedded)
  end.

Definition forward (self : t) (input_ids : list (list Z))
    (token_type_ids : option (list (list Z))) (attention_mask : option tensor2)
    (context_ids : list Z) : result tensor2 :=
  let attention_mask :=
    match attention_mask with
    | None => ones_like input_ids
    | Some m => m
    end in
  let token_type_ids :=
    match token_type_ids with
    | None => zeros_like input_ids
    | Some ids => ids
    end in
  let extended_attention_mask := extend_mask attention_mask in
  embedding_output <-
    BERTEmbeddings.forward (embeddings self) input_ids (Some token_type_ids) ;;
  let seq_len := size1 embedding_output in
  context_embedded <- context_lookup self context_ids ;;
  context_embedding_output <- stack_seq seq_len context_embedded ;;
  all_encoder_layers <-
    ContextBERTEncoder.forward (encoder self) embedding_output extended_attention_mask
      context_embedding_output ;;
  sequence_output <- last_item all_encoder_layers ;;
  pooled_output <- ContextBERTPooler.forward (pooler self) sequence_output attention_mask ;;
  Ok pooled_output.

End ContextBertModel.

(** ** Predicates used in the statements *)

Definition Forall4 (P : R -> Prop) (t : tensor4) : Prop :=
  Forall (Forall (Forall (Forall P))) t.

Definition Forall_rows4 (P : vec -> Prop) (t : tensor4) : Prop :=
  Forall (Forall (Forall P)) t.

(** A tensor is rectangular: every example has the sequence length read by
    [size(1)]. *)
Definition rectangular {A : Type} (x : list (list A)) : Prop :=
  Forall (fun xb => length xb = size1 x) x.

Definition in_range (i : Z) (n : nat) : Prop := (0 <= i < Z.of_nat n)%Z.

(** Index [(b, s)], resp. [(b, h, s)], addresses a row of the tensor. *)
Definition inr3 (t : tensor3) (b s : nat) : Prop :=
  (b < length t)%nat /\ (s < length (nth b t []))%nat.

Definition inr4 (t : tensor4) (b h s : nat) : Prop :=
  (b < length t)%nat /\ (h < length (nth b t []))%nat /\
  (s < length (nth h (nth b t []) []))%nat.

(** The slice of one row of features that belongs to head [h]. *)
Definition head_slice (dh h : nat) (row : vec) : vec :=
  firstn dh (skipn (h * dh) row).

(** The broadcast read of an additive mask at a score position. *)
Definition bget4 (m : tensor4) (b h s t : nat) : R :=
  bnth 0 (bnth [] (bnth [] (bnth [] m b) h) s) t.

(** Every head of every example has at most [n] rows. *)
Definition rows_le (n : nat) (x : tensor4) : Prop :=
  Forall (Forall (fun q : tensor2 => (length q <= n)%nat)) x.

(** Column [d] of a matrix. *)
Definition column (d : nat) (m : tensor2) : vec :=
  map (fun row => nth d row 0) m.

(** ** Concrete configurations and inputs *)

Definition config_768_12 : BertConfig.t :=
  {| BertConfig.vocab_size := 32000;
     BertConfig.hidden_size := 768;
     BertConfig.num_hidden_layers := 12;
     BertConfig.num_attention_heads := 12;
     BertConfig.intermediate_size := 3072;
     BertConfig.hidden_dropout_prob := 1 / 10;
     BertConfig.attention_probs_dropout_prob := 1 / 10;
     BertConfig.max_position_embeddings := 512;
     BertConfig.type_vocab_size := 16;
     BertConfig.initializer_range := 2 / 100;
     BertConfig.full_pooler := false |}.

Definition config_dropout_2 : BertConfig.t :=
  {| BertConfig.vocab_size := 32000;
     BertConfig.hidden_size := 768;
     BertConfig.num_hidden_layers := 12;
     BertConfig.num_attention_heads := 12;
     BertConfig.intermediate_size := 3072;
     BertConfig.hidden_dropout_prob := 1 / 10;
     BertConfig.attention_probs_dropout_prob := 2;
     BertConfig.max_position_embeddings := 512;
     BertConfig.type_vocab_size := 16;
     BertConfig.initializer_range := 2 / 100;
     BertConfig.full_pooler := false |}.

Definition config_negative_size : BertConfig.t :=
  {| BertConfig.vocab_size := 32000;
     BertConfig.hidden_size := -768;
     BertConfig.num_hidden_layers := 12;
     BertConfig.num_attention_heads := 12;
     BertConfig.intermediate_size := 3072;
     BertConfig.hidden_dropout_prob := 1 / 10;
     BertConfig.attention_probs_dropout_prob := 1 / 10;
     BertConfig.max_position_embeddings := 512;
     BertConfig.type_vocab_size := 16;
     BertConfig.initializer_range := 2 / 100;
     BertConfig.full_pooler := false |}.

(** A self-attention module with two heads of size one on hidden size
    two: identity projections of the hidden states, and all four gate
    layers and both context projections fixed at zero.  Dropout is in
    evaluation mode. *)
Definition identity2 : Linear :=
  {| weight := [[1; 0]; [0; 1]]; bias := Some [0; 0] |}.

Definition zero_projection : Linear :=
  {| weight := [[0]]; bias := Some [0] |}.

Definition zero_gate : Linear :=
  {| weight := [[0]]; bias := None |}.

Definition zero_gated_attention : ContextBERTSelfAttention.t :=
  {| ContextBERTSelfAttention.num_attention_heads := 2;
     ContextBERTSelfAttention.attention_head_size := 1;
     ContextBERTSelfAttention.query := identity2;
     ContextBERTSelfAttention.key := identity2;
     ContextBERTSelfAttention.value := identity2;
     ContextBERTSelfAttention.dropout := fun x => x;
     ContextBERTSelfAttention.context_for_q := zero_projection;
     ContextBERTSelfAttention.context_for_k := zero_projection;
     ContextBERTSelfAttention.lambda_q_context_layer := zero_gate;
     ContextBERTSelfAttention.lambda_q_query_layer := zero_gate;
     ContextBERTSelfAttention.lambda_k_context_layer := zero_gate;
     ContextBERTSelfAttention.lambda_k_key_layer := zero_gate |}.

(** One example of two positions. *)
Definition hidden_1x2x2 : tensor3 := [[[1; 2]; [3; 4]]].
Definition context_1x2x2 : tensor3 := [[[5; 6]; [5; 6]]].
Definition mask_1x1x1x2 : tensor4 := [[[[0; 0]]]].

(** The context handed to a layer, as computed by one iteration of the
    encoder loop from the tensor bound to [context_embeddings] and the
    current hidden states. *)
Definition context_update (context_linear : Linear)
    (context_embeddings hidden_states : tensor3) : tensor3 :=
  add3 (Linear_forward3 context_linear (cat_last context_embeddings hidden_states))
       context_embeddings.

(** The hidden states that enter iteration [i] of the encoder loop. *)
Definition prev_hidden (hidden_states : tensor3) (steps : list (tensor3 * tensor3))
    (i : nat) : tensor3 :=
  match i with
  | O => hidden_states
  | S j => snd (nth j steps ([], []))
  end.

(** An encoder of two layers on hidden size one, one head.  Neither
    context-update layer reads its input: the first adds 1, the second
    adds 0. *)
Definition linear1 (w b : R) : Linear :=
  {| weight := [[w]]; bias := Some [b] |}.

Definition layernorm1 : BERTLayerNorm.t :=
  {| BERTLayerNorm.gamma := [1];
     BERTLayerNorm.beta := [0];
     BERTLayerNorm.variance_epsilon := 1 / 10 ^ 12 |}.

Definition attention1 : ContextBERTSelfAttention.t :=
  {| ContextBERTSelfAttention.num_attention_heads := 1;
     ContextBERTSelfAttention.attention_head_size := 1;
     ContextBERTSelfAttention.query := linear1 1 0;
     ContextBERTSelfAttention.key := linear1 1 0;
     ContextBERTSelfAttention.value := linear1 1 0;
     ContextBERTSelfAttention.dropout := fun x => x;
     ContextBERTSelfAttention.context_for_q := linear1 1 0;
     ContextBERTSelfAttention.context_for_k := linear1 1 0;
     ContextBERTSelfAttention.lambda_q_context_layer := zero_gate;
     ContextBERTSelfAttention.lambda_q_query_layer := zero_gate;
     ContextBERTSelfAttention.lambda_k_context_layer := zero_gate;
     ContextBERTSelfAttention.lambda_k_key_layer := zero_gate |}.

(** One head of size one whose own-signal gate layers have the weight 40:
    on a query and a key of 1 the two gates are the sigmoid of 40. *)
Definition gate_40 : Linear :=
  {| weight := [[40]]; bias := None |}.

Definition saturating_attention : ContextBERTSelfAttention.t :=
  {| ContextBERTSelfAttention.num_attention_heads := 1;
     ContextBERTSelfAttention.attention_head_size := 1;
     ContextBERTSelfAttention.query := linear1 1 0;
     ContextBERTSelfAttention.key := linear1 1 0;
     ContextBERTSelfAttention.value := linear1 1 0;
     ContextBERTSelfAttention.dropout := fun x => x;
     ContextBERTSelfAttention.context_for_q := linear1 1 0;
     ContextBERTSelfAttention.context_for_k := linear1 1 0;
     ContextBERTSelfAttention.lambda_q_context_layer := zero_gate;
     ContextBERTSelfAttention.lambda_q_query_layer := gate_40;
     ContextBERTSelfAttention.lambda_k_context_layer := zero_gate;
     ContextBERTSelfAttention.lambda_k_key_layer := gate_40 |}.

Definition layer1 : ContextBERTLayer.t :=
  {| ContextBERTLayer.attention :=
       {| ContextBERTAttention.self := attention1;
          ContextBERTAttention.output :=
            {| BERTSelfOutput.dense := linear1 1 0;
               BERTSelfOutput.LayerNorm := layernorm1;
               BERTSelfOutput.dropout := fun x => x |} |};
     ContextBERTLayer.intermediate :=
       {| BERTIntermediate.dense := linear1 1 0;
          BERTIntermediate.intermediate_act_fn := gelu |};
     ContextBERTLayer.output :=
       {| BERTOutput.dense := linear1 1 0;
          BERTOutput.LayerNorm := layernorm1;
          BERTOutput.dropout := fun x => x |} |}.

Definition encoder_two_layers : ContextBERTEncoder.t :=
  {| ContextBERTEncoder.context_layer :=
       [ {| weight := [[0; 0]]; bias := Some [1] |};
         {| weight := [[0; 0]]; bias := Some [0] |} ];
     ContextBERTEncoder.layer := [layer1; layer1] |}.

Definition hidden_1x1x1 : tensor3 := [[[1]]].
Definition context_1x1x1 : tensor3 := [[[1]]].
Definition mask_1x1x1x1 : tensor4 := [[[[0]]]].

(** A linear layer whose weights, and bias when it has one, are all zero. *)
Definition zero_linear (l : Linear) : Prop :=
  Forall (Forall (eq 0)) (weight l) /\
  match bias l with
  | Some b => Forall (eq 0) b
  | None => True
  end.

(** A pooler and a whole model on hidden size one; the context table has
    the eight rows of [nn.Embedding(2*4, hidden_size)]. *)
Definition pooler2 : ContextBERTPooler.t :=
  {| ContextBERTPooler.attention_gate := (identity2, identity2);
     ContextBERTPooler.dense := identity2 |}.

Definition model1 : ContextBertModel.t :=
  {| ContextBertModel.embeddings :=
       {| BERTEmbeddings.word_embeddings := [[1]; [2]];
          BERTEmbeddings.position_embeddings := [[0]; [0]];
          BERTEmbeddings.token_type_embeddings := [[0]; [0]];
          BERTEmbeddings.LayerNorm := layernorm1;
          BERTEmbeddings.dropout := fun x => x |};
     ContextBertModel.encoder := encoder_two_layers;
     ContextBertModel.pooler :=
       {| ContextBERTPooler.attention_gate := (linear1 1 0, linear1 1 0);
          ContextBERTPooler.dense := linear1 1 0 |};
     ContextBertModel.context_embeddings :=
       [[0]; [1]; [2]; [3]; [4]; [5]; [6]; [7]] |}.

(** ** mask *)

(** The stop index of the slice [:k] on a dimension of size [len]: a
    negative [k] counts from the end, and the result is clamped to the
    dimension. *)
Definition slice_stop (len : nat) (k : Z) : nat :=
  if (k <? 0)%Z then Z.to_nat (Z.max 0 (Z.of_nat len + k))
  else Nat.min (Z.to_nat k) len.

(** [row[:k] = 1]. *)
Definition fill_prefix (k : Z) (row : vec) : vec :=
  mapi (fun j x => if (j <? slice_stop (length row) k)%nat then 1 else x) row.

(** [m[i, ...] = f(m[i, ...])]. *)
Definition set_row (i : nat) (f : vec -> vec) (m : tensor2) : tensor2 :=
  mapi (fun i' row => if (i' =? i)%nat then f row else row) m.

(** [max] of an empty list raises [ValueError]; [torch.zeros] with a
    negative size raises [RuntimeError]. *)
Definition mask (seq_len : list Z) : result tensor2 :=
  let batch_size := length seq_len in
  match seq_len with
  | [] => Raise ValueError
  | n0 :: rest =>
      let max_len := fold_left Z.max rest n0 in
      if (max_len <? 0)%Z then Raise RuntimeError
      else
        let zeros := repeat (repeat 0 (Z.to_nat max_len)) batch_size in
        Ok (fold_left
              (fun m i => set_row i (fill_prefix (nth i seq_len 0%Z)) m)
              (seq 0 batch_size) zeros)
  end.

(** ** Statements about layer normalization *)

(** The row [(x - u) / sqrt(s + eps)] computed by [BERTLayerNorm.forward]
    before the scale [gamma] and the shift [beta] are applied. *)
Definition normalized (eps : R) (x : vec) : vec :=
  let u := mean x in
  let s := mean (map (fun xi => (xi - u) ^ 2) x) in
  map (fun xi => (xi - u) / sqrt (s + eps)) x.

(** The variance [s] of a row, as [BERTLayerNorm.forward] computes it. *)
Definition variance (x : vec) : R :=
  mean (map (fun xi => (xi - mean x) ^ 2) x).

(** The parameters set by [BERTLayerNorm.__init__]: [gamma] all ones and
    [beta] all zeros. *)
Definition BERTLayerNorm_init (hidden_size : nat) (variance_epsilon : R)
  : BERTLayerNorm.t :=
  {| BERTLayerNorm.gamma := repeat 1 hidden_size;
     BERTLayerNorm.beta := repeat 0 hidden_size;
     BERTLayerNorm.variance_epsilon := variance_epsilon |}.

(** ** Shape-preserving dropout *)

(** A dropout action returns a tensor of the shape of its argument, as
    [nn.Dropout] does in both modes. *)
Definition keeps_shape3 (f : tensor3 -> tensor3) : Prop :=
  forall B L H x, shape3 B L H x -> shape3 B L H (f x).

Definition keeps_shape4 (f : tensor4 -> tensor4) : Prop :=
  forall B N L D x, shape4 B N L D x -> shape4 B N L D (f x).

(** ** What the constructors establish *)

(** [BERTLayerNorm.__init__]: [gamma] and [beta] have [hidden_size]
    entries. *)
Definition BERTLayerNorm_wf (H : nat) (ln : BERTLayerNorm.t) : Prop :=
  length (BERTLayerNorm.gamma ln) = H /\ length (BERTLayerNorm.beta ln) = H.

(** [ContextBERTLayer.__init__] and the constructors below it, for hidden
    size [H] and intermediate size [I]: the shapes of every linear layer
    and layer normalization, the heads covering the hidden size, and
    dropouts that keep shapes. *)
Definition ContextBERTLayer_wf (H I : nat) (layer : ContextBERTLayer.t) : Prop :=
  let att := ContextBERTLayer.attention layer in
  let sa := ContextBERTAttention.self att in
  let so := ContextBERTAttention.output att in
  let im := ContextBERTLayer.intermediate layer in
  let out := ContextBERTLayer.output layer in
  ContextBERTSelfAttention.wf H sa /\
  (ContextBERTSelfAttention.num_attention_heads sa
   * ContextBERTSelfAttention.attention_head_size sa)%nat = H /\
  keeps_shape4 (ContextBERTSelfAttention.dropout sa) /\
  Linear_shape H H (BERTSelfOutput.dense so) /\
  BERTLayerNorm_wf H (BERTSelfOutput.LayerNorm so) /\
  keeps_shape3 (BERTSelfOutput.dropout so) /\
  Linear_shape H I (BERTIntermediate.dense im) /\
  Linear_shape I H (BERTOutput.dense out) /\
  BERTLayerNorm_wf H (BERTOutput.LayerNorm out) /\
  keeps_shape3 (BERTOutput.dropout out).

(** [ContextBERTEncoder.__init__]: one context transform from [2 * H] to
    [H] and one layer per hidden layer. *)
Definition ContextBERTEncoder_wf (H I : nat) (enc : ContextBERTEncoder.t) : Prop :=
  length (ContextBERTEncoder.context_layer enc) = length (ContextBERTEncoder.layer enc) /\
  Forall (Linear_shape (2 * H) H) (ContextBERTEncoder.context_layer enc) /\
  Forall (ContextBERTLayer_wf H I) (ContextBERTEncoder.layer enc).

(** [BERTEmbeddings.__init__]: three tables with rows of [H] entries. *)
Definition BERTEmbeddings_wf (H : nat) (e : BERTEmbeddings.t) : Prop :=
  Forall (shape1 H) (BERTEmbeddings.word_embeddings e) /\
  Forall (shape1 H) (BERTEmbeddings.position_embeddings e) /\
  Forall (shape1 H) (BERTEmbeddings.token_type_embeddings e) /\
  BERTLayerNorm_wf H (BERTEmbeddings.LayerNorm e) /\
  keeps_shape3 (BERTEmbeddings.dropout e).

(** [ContextBertModel.__init__]. *)
Definition ContextBertModel_wf (H I : nat) (m : ContextBertModel.t) : Prop :=
  BERTEmbeddings_wf H (ContextBertModel.embeddings m) /\
  ContextBERTEncoder_wf H I (ContextBertModel.encoder m) /\
  Linear_shape H H (ContextBERTPooler.dense (ContextBertModel.pooler m)) /\
  ContextBertModel.wf m /\
  Forall (shape1 H) (ContextBertModel.context_embeddings m).

(** A batch of ids with [B] examples of [L] ids, all inside a table of
    [n] rows. *)
Definition ids_shape (B L : nat) (ids : list (list Z)) : Prop :=
  length ids = B /\ Forall (fun row => length row = L) ids.

Definition ids_in_range (n : nat) (ids : list (list Z)) : Prop :=
  Forall (Forall (fun i => in_range i n)) ids.

(** ** Merging the heads *)

(** [x.permute(0, 2, 1, 3).contiguous().view(batch, seq, all_head_size)] on
    one example of [L] positions, as at the end of
    [ContextBERTSelfAttention.forward]. *)
Definition merge_heads (L : nat) (cb : tensor3) : tensor2 :=
  map (@concat R) (transpose [] L cb).

(** ** BertConfig as an object: its attribute dictionary *)

(** The values a configuration attribute holds. *)
Inductive PyValue : Type :=
| PyNone
| PyBool (b : bool)
| PyInt (z : Z)
| PyFloat (r : R)
| PyStr (s : String.string).

Module BertConfigObject.

(** [self.__dict__]: attribute names with their values, in insertion
    order, each name at most once. *)
Definition dict : Type := list (String.string * PyValue).

(** [d[k] = v]: replaces the value of an existing key in place, appends a
    new key. *)
Fixpoint setitem (d : dict) (k : String.string) (v : PyValue) : dict :=
  match d with
  | [] => [(k, v)]
  | (k', v') :: d' =>
      if String.eqb k' k then (k', v) :: d' else (k', v') :: setitem d' k v
  end.

Fixpoint getitem (d : dict) (k : String.string) : option PyValue :=
  match d with
  | [] => None
  | (k', v') :: d' => if String.eqb k' k then Some v' else getitem d' k
  end.

(** [__init__]: the twelve assignments, in their order in the body. *)
Definition init (vocab_size hidden_size num_hidden_layers num_attention_heads
    intermediate_size hidden_act hidden_dropout_prob attention_probs_dropout_prob
    max_position_embeddings type_vocab_size initializer_range full_pooler : PyValue)
  : dict :=
  [ ("vocab_size"%string, vocab_size);
    ("hidden_size"%string, hidden_size);
    ("num_hidden_layers"%string, num_hidden_layers);
    ("num_attention_heads"%string, num_attention_heads);
    ("hidden_act"%string, hidden_act);
    ("intermediate_size"%string, intermediate_size);
    ("hidden_dropout_prob"%string, hidden_dropout_prob);
    ("attention_probs_dropout_prob"%string, attention_probs_dropout_prob);
    ("max_position_embeddings"%string, max_position_embeddings);
    ("type_vocab_size"%string, type_vocab_size);
    ("initializer_range"%string, initializer_range);
    ("full_pooler"%string, full_pooler) ].

(** [BertConfig(vocab_size=...)]: every other argument at its default. *)
Definition with_defaults (vocab_size : PyValue) : dict :=
  init vocab_size (PyInt 768) (PyInt 12) (PyInt 12) (PyInt 3072) (PyStr "gelu"%string)
    (PyFloat (1 / 10)) (PyFloat (1 / 10)) (PyInt 512) (PyInt 16)
    (PyFloat (2 / 100)) (PyBool false).

(** [from_dict]: a configuration built with [vocab_size=None], then every
    item of [json_object] written into its attribute dictionary. *)
Definition from_dict (json_object : dict) : dict :=
  fold_left (fun config kv => setitem config (fst kv) (snd kv)) json_object
    (with_defaults PyNone).

(** [to_dict]: a deep copy of the attribute dictionary. *)
Definition to_dict (config : dict) : dict := config.

Definition keys (d : dict) : list String.string := map fst d.

(** The attribute names set by [__init__]. *)
Definition attribute_names : list String.string := keys (with_defaults PyNone).

(** An attribute dictionary of a configuration object: no name twice, and
    the names set by [__init__] first. *)
Definition is_config (d : dict) : Prop :=
  NoDup (keys d) /\ firstn 12 (keys d) = attribute_names.

End BertConfigObject.

(** ** CGBertForSequenceClassification *)

(** [CrossEntropyLoss()] on logits of shape (batch, classes) and class
    indices: the mean, over the targets that are not the ignored index
    -100, of minus the logarithm of the softmax probability of the target
    class.  A batch-size mismatch raises [ValueError]; a target outside the
    classes raises [IndexError]. *)
Definition ignore_index : Z := (-100)%Z.

Definition nll (row : vec) (target : Z) : result (option R) :=
  if (target =? ignore_index)%Z then Ok None
  else if ((target <? 0) || (Z.of_nat (length row) <=? target))%Z then Raise IndexError
  else Ok (Some (- ln (nth (Z.to_nat target) (softmax row) 0))).

Fixpoint kept (terms : list (option R)) : vec :=
  match terms with
  | [] => []
  | Some x :: rest => x :: kept rest
  | None :: rest => kept rest
  end.

Definition CrossEntropyLoss (logits : tensor2) (labels : list Z) : result R :=
  if negb (length logits =? length labels)%nat then Raise ValueError
  else
    terms <- mapM (fun p => nll (fst p) (snd p)) (combine logits labels) ;;
    Ok (mean (kept terms)).

Module CGBertForSequenceClassification.

Record t : Type := {
  bert : ContextBertModel.t;
  dropout : tensor2 -> tensor2;
  classifier : Linear;
  num_head : Z
}.

(** [forward] returns [logits], or the pair [(loss, logits)] when [labels]
    is given: here always a pair, with no loss when there are no labels.
    [seq_lens] is not read. *)
Definition forward (self : t) (input_ids : list (list Z))
    (token_type_ids : option (list (list Z))) (attention_mask : option tensor2)
    (seq_lens : list Z) (labels : option (list Z)) (context_ids : list Z)
  : result (option R * tensor2) :=
  pooled_output <-
    ContextBertModel.forward (bert self) input_ids token_type_ids attention_mask
      context_ids ;;
  let pooled_output := dropout self pooled_output in
  let logits := map (Linear_forward1 (classifier self)) pooled_output in
  match labels with
  | Some labels =>
      loss <- CrossEntropyLoss logits labels ;;
      Ok (Some loss, logits)
  | None => Ok (None, logits)
  end.

End CGBertForSequenceClassification.

(** A label is valid for [C] classes: the ignored index or a class. *)
Definition valid_label (C : nat) (t : Z) : Prop :=
  t = ignore_index \/ (0 <= t < Z.of_nat C)%Z.

(** A classification model on [model1] with two labels, in evaluation
    mode. *)
Definition classification1 : CGBertForSequenceClassification.t :=
  {| CGBertForSequenceClassification.bert := model1;
     CGBertForSequenceClassification.dropout := fun x => x;
     CGBertForSequenceClassification.classifier :=
       {| weight := [[1]; [0]]; bias := Some [0; 0] |};
     CGBertForSequenceClassification.num_head := 1 |}.

(** * Properties *)

(** ** List and tensor lemmas *)

Lemma length_map2 {A B C : Type} (f : A -> B -> C) (l : list A) (l' : list B) :
  length (map2 f l l') = Nat.min (length l) (length l').
Proof.
  revert l'; induction l as [|a l IH]; intros [|b l']; simpl; auto.
Qed.

Lemma nth_map2 {A B C : Type} (f : A -> B -> C) (l : list A) (l' : list B)
    (i : nat) (d : C) (da : A) (db : B) :
  (i < length l)%nat -> (i < length l')%nat ->
  nth i (map2 f l l') d = f (nth i l da) (nth i l' db).
Proof.
  revert l' i; induction l as [|a l IH]; intros [|b l'] [|i]; simpl; intros; try lia; auto.
  apply IH; lia.
Qed.

Lemma nth_map_in {A B : Type} (f : A -> B) (l : list A) (i : nat) (d : B) (da : A) :
  (i < length l)%nat -> nth i (map f l) d = f (nth i l da).
Proof.
  revert i; induction l as [|a l IH]; intros [|i]; simpl; intros; try lia; auto.
  apply IH; lia.
Qed.

Lemma nth_map_seq {B : Type} (f : nat -> B) (n i : nat) (d : B) :
  (i < n)%nat -> nth i (map f (seq 0 n)) d = f i.
Proof.
  intros Hi. rewrite (nth_map_in f (seq 0 n) d 0%nat) by (rewrite length_seq; lia).
  rewrite seq_nth by lia. reflexivity.
Qed.

Lemma length_mapi_from {A B : Type} (f : nat -> A -> B) (l : list A) (k : nat) :
  length (mapi_from k f l) = length l.
Proof.
  revert k; induction l as [|a l IH]; intros k; simpl; auto.
Qed.

Lemma nth_mapi_from {A B : Type} (f : nat -> A -> B) (l : list A) (k i : nat)
    (d : B) (da : A) :
  (i < length l)%nat -> nth i (mapi_from k f l) d = f (k + i)%nat (nth i l da).
Proof.
  revert k i; induction l as [|a l IH]; intros k [|i]; simpl; intros; try lia.
  - f_equal; lia.
  - rewrite (IH (S k) i) by lia. f_equal; lia.
Qed.

Lemma length_mapi {A B : Type} (f : nat -> A -> B) (l : list A) :
  length (mapi f l) = length l.
Proof. apply length_mapi_from. Qed.

Lemma nth_mapi {A B : Type} (f : nat -> A -> B) (l : list A) (i : nat)
    (d : B) (da : A) :
  (i < length l)%nat -> nth i (mapi f l) d = f i (nth i l da).
Proof. intros Hi. unfold mapi. rewrite (nth_mapi_from f l 0 d da Hi). reflexivity. Qed.

Lemma Forall_mapi_from {A B : Type} (P : B -> Prop) (f : nat -> A -> B) (l : list A) (k : nat) :
  (forall i a, In a l -> P (f i a)) -> Forall P (mapi_from k f l).
Proof.
  revert k; induction l as [|a l IH]; intros k H; simpl; constructor.
  - apply H; left; reflexivity.
  - apply IH. intros i x Hx. apply H. right; exact Hx.
Qed.

Lemma Forall_map2_l {A B C : Type} (P : C -> Prop) (f : A -> B -> C)
    (l : list A) (l' : list B) :
  Forall (fun a => forall b, P (f a b)) l -> Forall P (map2 f l l').
Proof.
  intros H; revert l'; induction H as [|a l Ha Hl IH]; intros [|b l']; simpl;
    constructor; auto.
Qed.

Lemma Forall_map2_r {A B C : Type} (P : C -> Prop) (f : A -> B -> C)
    (l : list A) (l' : list B) :
  Forall (fun b => forall a, P (f a b)) l' -> Forall P (map2 f l l').
Proof.
  intros H; revert l; induction H as [|b l' Hb Hl IH]; intros [|a l]; simpl;
    constructor; auto.
Qed.

(** ** Real-valued activations *)

Lemma sigmoid_range (x : R) : 0 < sigmoid x < 1.
Proof.
  unfold sigmoid. pose proof (exp_pos (- x)) as He.
  split.
  - apply Rdiv_lt_0_compat; lra.
  - apply Rmult_lt_reg_r with (1 + exp (- x)); [lra|].
    unfold Rdiv. rewrite Rmult_assoc, Rinv_l by lra. lra.
Qed.

Lemma sigmoid_0 : sigmoid 0 = 1 / 2.
Proof. unfold sigmoid. rewrite Ropp_0, exp_0. lra. Qed.

(** ** Binary32 rounding of the sigmoid *)

Lemma Zfloor_spec (x : R) : IZR (Zfloor x) <= x < IZR (Zfloor x) + 1.
Proof.
  unfold Zfloor. rewrite minus_IZR. destruct (archimed x) as [H1 H2]. lra.
Qed.

Lemma Zfloor_unique (x : R) (n : Z) : IZR n <= x < IZR n + 1 -> Zfloor x = n.
Proof.
  intros [H1 H2]. destruct (Zfloor_spec x) as [F1 F2].
  assert (A : (n < Zfloor x + 1)%Z) by (apply lt_IZR; rewrite plus_IZR; lra).
  assert (B : (Zfloor x < n + 1)%Z) by (apply lt_IZR; rewrite plus_IZR; lra).
  lia.
Qed.

Lemma Znearest_bounds (x : R) : (Zfloor x <= Znearest x <= Zfloor x + 1)%Z.
Proof.
  unfold Znearest. cbv zeta.
  destruct (Rlt_dec _ _); [lia|]. destruct (Rlt_dec _ _); [lia|].
  destruct (Z.even _); lia.
Qed.

Lemma Znearest_nonneg (x : R) : 0 <= x -> (0 <= Znearest x)%Z.
Proof.
  intros Hx. destruct (Zfloor_spec x) as [_ F2].
  assert (A : (0 < Zfloor x + 1)%Z) by (apply lt_IZR; rewrite plus_IZR; lra).
  pose proof (Znearest_bounds x). lia.
Qed.

Lemma Znearest_le (x : R) (n : Z) : x <= IZR n -> (Znearest x <= n)%Z.
Proof.
  intros Hx. destruct (Zfloor_spec x) as [F1 F2].
  assert (A : (Zfloor x <= n)%Z) by (apply le_IZR; lra).
  destruct (Z.eq_dec (Zfloor x) n) as [E|E].
  - unfold Znearest. cbv zeta. rewrite E.
    destruct (Rlt_dec (x - IZR n) (1 / 2)) as [_|H]; [lia|].
    exfalso. apply H. rewrite E in F1. lra.
  - pose proof (Znearest_bounds x). lia.
Qed.

Lemma Znearest_above_half (x : R) (n : Z) :
  IZR n + 1 / 2 < x < IZR n + 1 -> Znearest x = (n + 1)%Z.
Proof.
  intros [H1 H2].
  assert (F : Zfloor x = n) by (apply Zfloor_unique; lra).
  unfold Znearest. cbv zeta. rewrite F.
  destruct (Rlt_dec (x - IZR n) (1 / 2)); [lra|].
  destruct (Rlt_dec (1 / 2) (x - IZR n)) as [_|H]; [reflexivity|].
  exfalso. apply H. lra.
Qed.

Lemma Znearest_IZR (n : Z) : Znearest (IZR n) = n.
Proof.
  assert (F : Zfloor (IZR n) = n) by (apply Zfloor_unique; lra).
  unfold Znearest. cbv zeta. rewrite F.
  destruct (Rlt_dec (IZR n - IZR n) (1 / 2)) as [_|H]; [reflexivity|].
  exfalso. apply H. lra.
Qed.

Lemma powerRZ_2_IZR (k : Z) : (0 <= k)%Z -> powerRZ 2 k = IZR (2 ^ k).
Proof.
  intros Hk. destruct k as [|p|p]; [reflexivity| |lia].
  symmetry. exact (Zpower_pos_powerRZ 2 p).
Qed.

Lemma powerRZ_2_cancel (k : Z) : powerRZ 2 k * powerRZ 2 (- k) = 1.
Proof.
  rewrite <- powerRZ_add by lra. replace (k + - k)%Z with 0%Z by lia. reflexivity.
Qed.

Lemma ln_2_pos : 0 < ln 2.
Proof. rewrite <- ln_1. apply ln_increasing; lra. Qed.

Lemma exponent32_le_0 (x : R) : 0 < x <= 1 -> (-126 <= exponent32 x <= 0)%Z.
Proof.
  intros [H0 H1]. unfold exponent32. rewrite Rabs_pos_eq by lra.
  assert (Hl : ln x <= 0).
  { destruct (Req_dec_T x 1) as [->|Hn]; [rewrite ln_1; lra|].
    rewrite <- ln_1. apply Rlt_le, ln_increasing; lra. }
  pose proof ln_2_pos as L2.
  assert (Hq : ln x / ln 2 <= 0).
  { pose proof (Rinv_0_lt_compat _ L2) as Hi. unfold Rdiv. nra. }
  destruct (Zfloor_spec (ln x / ln 2)) as [F1 _].
  assert (A : (Zfloor (ln x / ln 2) <= 0)%Z) by (apply le_IZR; lra).
  lia.
Qed.

(** Rounding keeps a number of the unit interval in the unit interval. *)
Lemma round32_unit_interval (x : R) : 0 <= x <= 1 -> 0 <= round32 x <= 1.
Proof.
  intros [H0 H1]. unfold round32.
  destruct (Req_dec_T x 0) as [_|Hn]; [lra|]. cbv zeta.
  assert (Hx : 0 < x <= 1) by lra.
  pose proof (exponent32_le_0 Hx) as He.
  set (e := exponent32 x) in *.
  set (k := (23 - e)%Z).
  assert (Hk : (0 <= k)%Z) by (unfold k; lia).
  replace (e - 23)%Z with (- k)%Z by (unfold k; lia).
  pose proof (powerRZ_lt 2 k ltac:(lra)) as Pk.
  pose proof (powerRZ_lt 2 (- k) ltac:(lra)) as Pk'.
  pose proof (powerRZ_2_cancel k) as Pc.
  assert (Hn0 : (0 <= Znearest (x * powerRZ 2 k))%Z).
  { apply Znearest_nonneg. apply Rmult_le_pos; lra. }
  assert (Hn1 : (Znearest (x * powerRZ 2 k) <= 2 ^ k)%Z).
  { apply Znearest_le. rewrite <- (powerRZ_2_IZR Hk).
    rewrite <- (Rmult_1_l (powerRZ 2 k)) at 2.
    apply Rmult_le_compat_r; lra. }
  apply IZR_le in Hn0, Hn1. rewrite <- (powerRZ_2_IZR Hk) in Hn1.
  split.
  - apply Rmult_le_pos; lra.
  - rewrite <- Pc. apply Rmult_le_compat_r; lra.
Qed.

Lemma exponent32_half_to_one (x : R) : 1 / 2 <= x < 1 -> exponent32 x = (-1)%Z.
Proof.
  intros [H0 H1]. unfold exponent32. rewrite Rabs_pos_eq by lra.
  pose proof ln_2_pos as L2.
  assert (Hl : ln x < 0) by (rewrite <- ln_1; apply ln_increasing; lra).
  assert (Hh : - ln 2 <= ln x).
  { rewrite <- ln_Rinv by lra.
    destruct (Req_dec_T x (/ 2)) as [->|Hn]; [lra|].
    apply Rlt_le, ln_increasing; lra. }
  assert (F : Zfloor (ln x / ln 2) = (-1)%Z).
  { apply Zfloor_unique. split.
    - apply Rmult_le_reg_r with (ln 2); [exact L2|].
      unfold Rdiv. rewrite Rmult_assoc, Rinv_l by lra. lra.
    - apply Rmult_lt_reg_r with (ln 2); [exact L2|].
      unfold Rdiv. rewrite Rmult_assoc, Rinv_l by lra. lra. }
  rewrite F. reflexivity.
Qed.

(** The numbers above 1 - 2^-25 and up to 1 round to 1. *)
Lemma round32_near_1 (x : R) : 1 - / 2 ^ 25 < x <= 1 -> round32 x = 1.
Proof.
  intros [H0 H1]. unfold round32.
  assert (P25 : (2:R) ^ 25 = 33554432) by (rewrite pow_IZR; reflexivity).
  rewrite P25 in H0.
  destruct (Req_dec_T x 0) as [E|_]; [lra|]. cbv zeta.
  destruct (Req_dec_T x 1) as [->|Hn].
  - assert (E : exponent32 1 = 0%Z).
    { unfold exponent32. rewrite Rabs_pos_eq by lra. rewrite ln_1.
      replace (0 / ln 2) with (IZR 0) by (unfold Rdiv; lra).
      rewrite (@Zfloor_unique (IZR 0) 0) by lra. reflexivity. }
    rewrite E. cbn [Z.sub Z.opp Z.add Z.pos_sub].
    rewrite Rmult_1_l. rewrite (@powerRZ_2_IZR 23) by lia.
    rewrite Znearest_IZR. rewrite <- (@powerRZ_2_IZR 23) by lia.
    apply (powerRZ_2_cancel 23).
  - rewrite (@exponent32_half_to_one x) by lra.
    change (23 - -1)%Z with 24%Z. change (-1 - 23)%Z with (- 24)%Z.
    assert (P24 : powerRZ 2 24 = 16777216) by (rewrite powerRZ_2_IZR by lia; reflexivity).
    rewrite (@Znearest_above_half (x * powerRZ 2 24) 16777215).
    + change (16777215 + 1)%Z with 16777216%Z. rewrite <- P24.
      apply (powerRZ_2_cancel 24).
    + rewrite P24. lra.
Qed.

Lemma sigmoid32_range (x : R) : 0 <= sigmoid32 x <= 1.
Proof.
  unfold sigmoid32. apply round32_unit_interval.
  pose proof (sigmoid_range x). lra.
Qed.

Lemma exp_40_large : 2 ^ 26 < exp 40.
Proof.
  assert (H1 : 7 / 2 < exp (5 / 2)).
  { pose proof (@exp_ineq1 (5 / 2) ltac:(lra)). lra. }
  assert (H2 : 12 < exp 5).
  { replace 5 with (5 / 2 + 5 / 2) by lra. rewrite exp_plus. nra. }
  assert (H3 : 144 < exp 10).
  { replace 10 with (5 + 5) by lra. rewrite exp_plus. nra. }
  assert (H4 : 20736 < exp 20).
  { replace 20 with (10 + 10) by lra. rewrite exp_plus. nra. }
  replace 40 with (20 + 20) by lra. rewrite exp_plus.
  replace ((2:R) ^ 26) with 67108864 by (rewrite pow_IZR; reflexivity). nra.
Qed.

Lemma sigmoid32_saturates (z : R) : 40 <= z -> sigmoid32 z = 1.
Proof.
  intros Hz. unfold sigmoid32. apply round32_near_1.
  pose proof (sigmoid_range z) as [_ Hs]. split; [|lra].
  unfold sigmoid. rewrite exp_Ropp.
  pose proof exp_40_large as He.
  assert (Hm : exp 40 <= exp z).
  { destruct (Req_dec_T z 40) as [->|Hn]; [lra|]. apply Rlt_le, exp_increasing. lra. }
  replace ((2:R) ^ 26) with 67108864 in He by (rewrite pow_IZR; reflexivity).
  replace ((2:R) ^ 25) with 33554432 by (rewrite pow_IZR; reflexivity).
  set (E := exp z) in *.
  assert (HE : 67108864 < E) by lra.
  assert (Hi : / E < / 67108864).
  { apply Rinv_lt_contravar; [|exact HE]. apply Rmult_lt_0_compat; lra. }
  assert (Hi0 : 0 < / E) by (apply Rinv_0_lt_compat; lra).
  apply Rmult_lt_reg_r with (1 + / E); [lra|].
  unfold Rdiv. rewrite Rmult_assoc, Rinv_l by lra. lra.
Qed.

Lemma sigmoid32_40 : sigmoid32 40 = 1.
Proof. apply sigmoid32_saturates. lra. Qed.

Lemma sum_map_div (e : vec) (z : R) :
  sum (map (fun x => x / z) e) = sum e / z.
Proof.
  unfold sum. induction e as [|a e IH]; simpl.
  - unfold Rdiv; ring.
  - rewrite IH. unfold Rdiv; ring.
Qed.

Lemma sum_exp_pos (v : vec) : v <> [] -> 0 < sum (map exp v).
Proof.
  induction v as [|a v IH]; [congruence|]. intros _.
  destruct v as [|b v].
  - simpl. pose proof (exp_pos a). lra.
  - assert (0 < sum (map exp (b :: v))) by (apply IH; congruence).
    change (0 < exp a + sum (map exp (b :: v))).
    pose proof (exp_pos a). lra.
Qed.

Lemma softmax_sum (v : vec) : v <> [] -> sum (softmax v) = 1.
Proof.
  intros Hv. unfold softmax. rewrite sum_map_div.
  pose proof (sum_exp_pos Hv). unfold Rdiv. apply Rinv_r. lra.
Qed.

Lemma softmax_nonneg (v : vec) : Forall (fun p => 0 <= p) (softmax v).
Proof.
  unfold softmax. destruct v as [|a v]; [constructor|].
  pose proof (@sum_exp_pos (a :: v) ltac:(congruence)) as Hz.
  apply Forall_forall. intros p Hp.
  apply in_map_iff in Hp. destruct Hp as [x [<- Hx]].
  apply in_map_iff in Hx. destruct Hx as [y [<- _]].
  pose proof (exp_pos y). apply Rlt_le. apply Rdiv_lt_0_compat; assumption.
Qed.

(** ** Gates *)

Lemma Forall4_map_sigmoid (t : tensor4) :
  Forall4 (fun g => 0 < g < 1) (map4 (map sigmoid) t).
Proof.
  unfold Forall4, map4.
  repeat (apply Forall_forall; intros ? Hin; apply in_map_iff in Hin;
          destruct Hin as [? [<- _]]).
  apply sigmoid_range.
Qed.

(** ** Construction of the self-attention module *)

Lemma Dropout_init_ok (p : R) : 0 <= p <= 1 -> ContextBERTSelfAttention.Dropout_init p = Ok p.
Proof.
  intros [H0 H1]. unfold ContextBERTSelfAttention.Dropout_init.
  destruct (Rlt_dec p 0); [lra|]. destruct (Rlt_dec 1 p); [lra|]. reflexivity.
Qed.

Lemma Dropout_init_raises (p : R) :
  ~ (0 <= p <= 1) -> ContextBERTSelfAttention.Dropout_init p = Raise ValueError.
Proof.
  intros H. unfold ContextBERTSelfAttention.Dropout_init.
  destruct (Rlt_dec p 0); [reflexivity|]. destruct (Rlt_dec 1 p); [reflexivity|].
  exfalso. apply H. lra.
Qed.

Lemma Linear_init_ok (n m : Z) :
  (0 <= n)%Z -> (0 <= m)%Z -> ContextBERTSelfAttention.Linear_init n m = Ok (n, m).
Proof.
  intros Hn Hm. unfold ContextBERTSelfAttention.Linear_init.
  destruct (Z.ltb_spec n 0); [lia|]. destruct (Z.ltb_spec m 0); [lia|]. reflexivity.
Qed.




(** ** Context ids *)

Lemma Embedding_forward1_in (table : tensor2) (i : Z) :
  in_range i (length table) ->
  Embedding_forward1 table i = Ok (nth (Z.to_nat i) table []).
Proof.
  unfold in_range, Embedding_forward1. intros [H0 H1].
  destruct (Z.ltb_spec i 0) as [E|_]; [lia|].
  destruct (nth_error table (Z.to_nat i)) as [row|] eqn:E.
  - f_equal. symmetry. apply nth_error_nth. exact E.
  - apply nth_error_None in E. lia.
Qed.

Lemma Embedding_forward1_out (table : tensor2) (i : Z) :
  ~ in_range i (length table) ->
  Embedding_forward1 table i = Raise IndexError.
Proof.
  unfold in_range, Embedding_forward1. intros H.
  destruct (Z.ltb_spec i 0) as [E|E]; [reflexivity|].
  destruct (nth_error table (Z.to_nat i)) as [row|] eqn:E'; [|reflexivity].
  exfalso. apply H. split; [exact E|].
  assert (Z.to_nat i < length table)%nat by (apply nth_error_Some; congruence).
  lia.
Qed.

Lemma lookup_all_in (table : tensor2) (ids : list Z) :
  Forall (fun i => in_range i (length table)) ids ->
  mapM (Embedding_forward1 table) ids
  = Ok (map (fun i => nth (Z.to_nat i) table []) ids).
Proof.
  induction 1 as [|i ids Hi _ IH]; [reflexivity|].
  cbn [mapM map]. rewrite (Embedding_forward1_in _ Hi). cbn [bind].
  rewrite IH. reflexivity.
Qed.

Lemma lookup_some_out (table : tensor2) (ids : list Z) :
  Exists (fun i => ~ in_range i (length table)) ids ->
  mapM (Embedding_forward1 table) ids = Raise IndexError.
Proof.
  induction 1 as [i ids Hi | i ids _ IH]; cbn [mapM].
  - rewrite (Embedding_forward1_out _ Hi). reflexivity.
  - destruct (Embedding_forward1 table i) as [row|e] eqn:E; cbn [bind].
    + rewrite IH. reflexivity.
    + unfold Embedding_forward1 in E.
      destruct (i <? 0)%Z; [congruence|].
      destruct (nth_error table (Z.to_nat i)); congruence.
Qed.

Lemma Embedding_forward1_error (table : tensor2) (i : Z) (e : PyError) :
  Embedding_forward1 table i = Raise e -> e = IndexError.
Proof.
  unfold Embedding_forward1. destruct (i <? 0)%Z; [congruence|].
  destruct (nth_error table (Z.to_nat i)); congruence.
Qed.

Lemma mapM_error {A B : Type} (f : A -> result B) (l : list A) (e e0 : PyError) :
  (forall a e', f a = Raise e' -> e' = e0) ->
  mapM f l = Raise e -> e = e0.
Proof.
  intros Hf. induction l as [|a l IH]; cbn [mapM]; [discriminate|].
  destruct (f a) as [b|e'] eqn:E; cbn [bind].
  - destruct (mapM f l) as [bs|e''] eqn:E'; cbn [bind]; [discriminate|].
    intros H; inversion H; subst. apply IH. reflexivity.
  - intros H; inversion H; subst. eapply Hf; eassumption.
Qed.

Lemma BERTEmbeddings_forward_error (self : BERTEmbeddings.t)
    (input_ids : list (list Z)) (token_type_ids : option (list (list Z)))
    (e : PyError) :
  BERTEmbeddings.forward self input_ids token_type_ids = Raise e -> e = IndexError.
Proof.
  unfold BERTEmbeddings.forward, BERTEmbeddings.lookup.
  assert (Hrow : forall table (ids : list Z) e',
             mapM (Embedding_forward1 table) ids = Raise e' -> e' = IndexError).
  { intros table ids e'. apply mapM_error. apply Embedding_forward1_error. }
  assert (Hall : forall table (ids : list (list Z)) e',
             mapM (mapM (Embedding_forward1 table)) ids = Raise e' -> e' = IndexError).
  { intros table ids e'. apply mapM_error. apply Hrow. }
  repeat match goal with
  | |- context [bind (mapM (mapM (Embedding_forward1 ?t)) ?ids) _] =>
      let E := fresh "E" in
      destruct (mapM (mapM (Embedding_forward1 t)) ids) eqn:E; cbn [bind];
      [| intros H; inversion H; subst; eapply Hall; eassumption]
  end.
  discriminate.
Qed.

(** C9: with the eight-row table built by [ContextBertModel.__init__], a
    context id outside [0, 8) makes the lookup and the whole forward call
    raise [IndexError]; ids inside the range are looked up successfully,
    each giving its row of the table; and [forward] reads [context_ids]
    only through that lookup. *)
Theorem C9_context_id_range (self : ContextBertModel.t)
    (input_ids : list (list Z)) (token_type_ids : option (list (list Z)))
    (attention_mask : option tensor2) (context_ids : list Z) :
  ContextBertModel.wf self ->
  (Exists (fun i => ~ (0 <= i < 8)%Z) context_ids ->
   ContextBertModel.context_lookup self context_ids = Raise IndexError /\
   ContextBertModel.forward self input_ids token_type_ids attention_mask context_ids
   = Raise IndexError) /\
  (Forall (fun i => (0 <= i < 8)%Z) context_ids ->
   ContextBertModel.context_lookup self context_ids
   = Ok (map (fun i => nth (Z.to_nat i) (ContextBertModel.context_embeddings self) [])
             context_ids)) /\
  (forall context_ids',
     ContextBertModel.context_lookup self context_ids'
     = ContextBertModel.context_lookup self context_ids ->
     ContextBertModel.forward self input_ids token_type_ids attention_mask context_ids'
     = ContextBertModel.forward self input_ids token_type_ids attention_mask context_ids).
Proof.
  unfold ContextBertModel.wf, ContextBertModel.context_vocab. intros Hwf.
  assert (Hr : forall i, in_range i (length (ContextBertModel.context_embeddings self))
                         <-> (0 <= i < 8)%Z).
  { intros i. unfold in_range. rewrite Hwf. cbn. lia. }
  split; [|split].
  - intros Hex.
    assert (Hl : ContextBertModel.context_lookup self context_ids = Raise IndexError).
    { apply lookup_some_out. eapply Exists_impl; [|exact Hex].
      intros i Hi Hin. apply Hi. apply Hr. exact Hin. }
    split; [exact Hl|].
    unfold ContextBertModel.forward.
    destruct (BERTEmbeddings.forward _ _ _) as [emb|e] eqn:E; cbn [bind].
    + rewrite Hl. reflexivity.
    + apply BERTEmbeddings_forward_error in E. subst. reflexivity.
  - intros Hall. apply lookup_all_in. eapply Forall_impl; [|exact Hall].
    intros i Hi. apply Hr. exact Hi.
  - intros ids' Heq. unfold ContextBertModel.forward. rewrite Heq. reflexivity.
Qed.

(** ** Default arguments of the model *)

Lemma extend_mask_ones (input_ids : list (list Z)) :
  ContextBertModel.extend_mask (ones_like input_ids)
  = map (fun row => [[map (fun _ => 0) row]]) input_ids.
Proof.
  unfold ContextBertModel.extend_mask, ones_like, map4.
  rewrite !map_map. apply map_ext. intros row. cbn [map].
  rewrite map_map. do 2 f_equal. apply map_ext. intros _. ring.
Qed.

(** C10: calling [ContextBertModel.forward] without [attention_mask] is the
    call with the all-ones mask of the shape of [input_ids], whose additive
    mask is zero everywhere; calling it without [token_type_ids] is the
    call with the all-zero segment ids; the same holds for
    [BERTEmbeddings.forward].  The outputs of the two call forms are
    equal. *)
Theorem C10_default_mask_and_segments (self : ContextBertModel.t)
    (input_ids : list (list Z)) (token_type_ids : option (list (list Z)))
    (attention_mask : option tensor2) (context_ids : list Z) :
  ContextBertModel.forward self input_ids token_type_ids None context_ids
  = ContextBertModel.forward self input_ids token_type_ids
      (Some (ones_like input_ids)) context_ids /\
  ContextBertModel.forward self input_ids None attention_mask context_ids
  = ContextBertModel.forward self input_ids (Some (zeros_like input_ids))
      attention_mask context_ids /\
  ContextBertModel.forward self input_ids None None context_ids
  = ContextBertModel.forward self input_ids (Some (zeros_like input_ids))
      (Some (ones_like input_ids)) context_ids /\
  ContextBertModel.extend_mask (ones_like input_ids)
  = map (fun row => [[map (fun _ => 0) row]]) input_ids /\
  BERTEmbeddings.forward (ContextBertModel.embeddings self) input_ids None
  = BERTEmbeddings.forward (ContextBertModel.embeddings self) input_ids
      (Some (zeros_like input_ids)).
Proof.
  repeat split; try reflexivity. apply extend_mask_ones.
Qed.

(** ** Pooling *)

Lemma first_token_nonempty (hidden_states : tensor3) :
  Forall (fun xb => xb <> []) hidden_states ->
  ContextBERTPooler.first_token hidden_states
  = Ok (map (fun xb => nth 0 xb []) hidden_states).
Proof.
  unfold ContextBERTPooler.first_token.
  induction 1 as [|xb hs Hxb _ IH]; [reflexivity|].
  cbn [mapM map]. destruct xb as [|x0 xb]; [congruence|].
  cbn [bind nth]. rewrite IH. reflexivity.
Qed.

Lemma length_Linear_forward1 (n_in n_out : nat) (l : Linear) (x : vec) :
  Linear_shape n_in n_out l -> length (Linear_forward1 l x) = n_out.
Proof.
  unfold Linear_shape, Linear_forward1, shape2, shape1. intros [[Hw _] Hb].
  destruct (bias l) as [b|].
  - unfold add1. rewrite length_map2, length_map. lia.
  - rewrite length_map. exact Hw.
Qed.

(** C7: when every example has a position 0, [ContextBERTPooler.forward]
    returns, for each example, [tanh] of the dense layer applied to the
    hidden state at position 0; the result is the same for any two
    attention masks; and it has one row of [hidden] entries per example. *)
Theorem C7_pooler_first_token (self : ContextBERTPooler.t) (hidden : nat)
    (hidden_states : tensor3) (attention_mask attention_mask' : tensor2) :
  Forall (fun xb => xb <> []) hidden_states ->
  Linear_shape hidden hidden (ContextBERTPooler.dense self) ->
  ContextBERTPooler.forward self hidden_states attention_mask
  = Ok (map (fun xb =>
               map tanh (Linear_forward1 (ContextBERTPooler.dense self) (nth 0 xb [])))
            hidden_states) /\
  ContextBERTPooler.forward self hidden_states attention_mask
  = ContextBERTPooler.forward self hidden_states attention_mask' /\
  (forall pooled_output,
     ContextBERTPooler.forward self hidden_states attention_mask = Ok pooled_output ->
     shape2 (length hidden_states) hidden pooled_output).
Proof.
  intros Hne Hd.
  assert (E : ContextBERTPooler.forward self hidden_states attention_mask
              = Ok (map (fun xb =>
                      map tanh (Linear_forward1 (ContextBERTPooler.dense self) (nth 0 xb [])))
                    hidden_states)).
  { unfold ContextBERTPooler.forward. rewrite (first_token_nonempty Hne).
    cbn [bind]. rewrite !map_map. reflexivity. }
  split; [exact E|]. split; [reflexivity|].
  intros pooled_output Hp. rewrite E in Hp. inversion Hp; subst; clear Hp.
  split.
  - apply length_map.
  - apply Forall_forall. intros row Hrow. apply in_map_iff in Hrow.
    destruct Hrow as [xb [<- _]]. unfold shape1. rewrite length_map.
    eapply length_Linear_forward1. exact Hd.
Qed.

(** ** Rows of the intermediate tensors of self-attention *)

Lemma inr3_shape (B L H : nat) (t : tensor3) (b s : nat) :
  shape3 B L H t -> (b < B)%nat -> (s < L)%nat ->
  inr3 t b s /\ length (row3 t b s) = H.
Proof.
  unfold shape3, shape2, shape1, inr3, row3. intros [HB Hall] Hb Hs.
  rewrite Forall_forall in Hall.
  assert (Hin : In (nth b t []) t) by (apply nth_In; lia).
  destruct (Hall _ Hin) as [HL Hrows]. rewrite Forall_forall in Hrows.
  repeat split; try lia. apply Hrows. apply nth_In. lia.
Qed.

Lemma row3_map3 (f : vec -> vec) (t : tensor3) (b s : nat) :
  inr3 t b s -> inr3 (map3 f t) b s /\ row3 (map3 f t) b s = f (row3 t b s).
Proof.
  unfold inr3, row3, map3. intros [Hb Hs].
  rewrite (nth_map_in (map f) t [] [] Hb).
  rewrite !length_map. repeat split; try assumption.
  apply nth_map_in. exact Hs.
Qed.

Lemma row4_map4 (f : vec -> vec) (t : tensor4) (b h s : nat) :
  inr4 t b h s -> inr4 (map4 f t) b h s /\ row4 (map4 f t) b h s = f (row4 t b h s).
Proof.
  unfold inr4, row4, map4. intros [Hb [Hh Hs]].
  rewrite (nth_map_in (map (map f)) t [] [] Hb).
  rewrite (nth_map_in (map f) (nth b t []) [] [] Hh).
  rewrite !length_map. repeat split; try assumption.
  apply nth_map_in. exact Hs.
Qed.

Lemma row4_map2 (f : vec -> vec -> vec) (x y : tensor4) (b h s : nat) :
  inr4 x b h s -> inr4 y b h s ->
  inr4 (map2 (map2 (map2 f)) x y) b h s /\
  row4 (map2 (map2 (map2 f)) x y) b h s = f (row4 x b h s) (row4 y b h s).
Proof.
  unfold inr4, row4. intros [Hb [Hh Hs]] [Hb' [Hh' Hs']].
  rewrite (nth_map2 (map2 (map2 f)) x y [] [] [] Hb Hb').
  rewrite (nth_map2 (map2 f) (nth b x []) (nth b y []) [] [] [] Hh Hh').
  rewrite !length_map2. repeat split; try lia.
  apply nth_map2; assumption.
Qed.

Lemma row4_transpose_for_scores (self : ContextBERTSelfAttention.t)
    (x : tensor3) (b h s : nat) :
  inr3 x b s -> (h < ContextBERTSelfAttention.num_attention_heads self)%nat ->
  inr4 (ContextBERTSelfAttention.transpose_for_scores self x) b h s /\
  row4 (ContextBERTSelfAttention.transpose_for_scores self x) b h s
  = head_slice (ContextBERTSelfAttention.attention_head_size self) h (row3 x b s).
Proof.
  unfold inr3, inr4, row4, row3, ContextBERTSelfAttention.transpose_for_scores, transpose.
  intros [Hb Hs] Hh.
  rewrite length_map.
  rewrite (nth_map_in _ x [] [] Hb).
  rewrite length_map, length_seq.
  rewrite (nth_map_seq _ [] Hh).
  rewrite !length_map. repeat split; try assumption.
  rewrite (nth_map_in _ _ [] [] ) by (rewrite length_map; exact Hs).
  rewrite (nth_map_in _ _ [] [] Hs).
  unfold ContextBERTSelfAttention.view_heads.
  rewrite (nth_map_seq _ [] Hh). reflexivity.
Qed.

Lemma length_head_slice (nh dh h : nat) (row : vec) :
  length row = (nh * dh)%nat -> (h < nh)%nat -> length (head_slice dh h row) = dh.
Proof.
  intros Hl Hh. unfold head_slice. rewrite length_firstn, length_skipn, Hl. nia.
Qed.

Lemma nth_head_slice (dh h d : nat) (row : vec) :
  (d < dh)%nat -> nth d (head_slice dh h row) 0 = nth (h * dh + d) row 0.
Proof.
  intros Hd. unfold head_slice. rewrite nth_firstn.
  destruct (Nat.ltb_spec d dh); [|lia]. apply nth_skipn.
Qed.

(** The assignments of [forward], as equations between the locals. *)

Lemma forward_locals_equations (self : ContextBERTSelfAttention.t)
    (hidden_states : tensor3) (attention_mask : tensor4) (context_embedded : tensor3) :
  let tr := ContextBERTSelfAttention.forward_locals self hidden_states
              attention_mask context_embedded in
  let tfs := ContextBERTSelfAttention.transpose_for_scores self in
  ContextBERTSelfAttention.mixed_query_layer tr
  = tfs (Linear_forward3 (ContextBERTSelfAttention.query self) hidden_states) /\
  ContextBERTSelfAttention.mixed_key_layer tr
  = tfs (Linear_forward3 (ContextBERTSelfAttention.key self) hidden_states) /\
  ContextBERTSelfAttention.value_layer tr
  = tfs (Linear_forward3 (ContextBERTSelfAttention.value self) hidden_states) /\
  ContextBERTSelfAttention.context_embedded_q tr
  = Linear_forward4 (ContextBERTSelfAttention.context_for_q self) (tfs context_embedded) /\
  ContextBERTSelfAttention.context_embedded_k tr
  = Linear_forward4 (ContextBERTSelfAttention.context_for_k self) (tfs context_embedded) /\
  ContextBERTSelfAttention.lambda_q tr
  = map4 (map sigmoid)
      (add4 (Linear_forward4 (ContextBERTSelfAttention.lambda_q_context_layer self)
               (ContextBERTSelfAttention.context_embedded_q tr))
            (Linear_forward4 (ContextBERTSelfAttention.lambda_q_query_layer self)
               (ContextBERTSelfAttention.mixed_query_layer tr))) /\
  ContextBERTSelfAttention.lambda_k tr
  = map4 (map sigmoid)
      (add4 (Linear_forward4 (ContextBERTSelfAttention.lambda_k_context_layer self)
               (ContextBERTSelfAttention.context_embedded_k tr))
            (Linear_forward4 (ContextBERTSelfAttention.lambda_k_key_layer self)
               (ContextBERTSelfAttention.mixed_key_layer tr))) /\
  ContextBERTSelfAttention.contextualized_query_layer tr
  = add4 (bmul4 (one_minus4 (ContextBERTSelfAttention.lambda_q tr))
                (ContextBERTSelfAttention.mixed_query_layer tr))
         (bmul4 (ContextBERTSelfAttention.lambda_q tr)
                (ContextBERTSelfAttention.context_embedded_q tr)) /\
  ContextBERTSelfAttention.contextualized_key_layer tr
  = add4 (bmul4 (one_minus4 (ContextBERTSelfAttention.lambda_k tr))
                (ContextBERTSelfAttention.mixed_key_layer tr))
         (bmul4 (ContextBERTSelfAttention.lambda_k tr)
                (ContextBERTSelfAttention.context_embedded_k tr)).
Proof. cbv zeta. repeat split; reflexivity. Qed.

Section AttentionRows.

Variable self : ContextBERTSelfAttention.t.
Variables hidden_states context_embedded : tensor3.
Variable attention_mask : tensor4.
Variables B L H : nat.

Let nh := ContextBERTSelfAttention.num_attention_heads self.
Let dh := ContextBERTSelfAttention.attention_head_size self.
Let tr := ContextBERTSelfAttention.forward_locals self hidden_states
            attention_mask context_embedded.

Hypothesis Hwf : ContextBERTSelfAttention.wf H self.
Hypothesis Hhs : shape3 B L H hidden_states.
Hypothesis Hctx : shape3 B L (nh * dh) context_embedded.

Variables b h s : nat.
Hypothesis Hb : (b < B)%nat.
Hypothesis Hh : (h < nh)%nat.
Hypothesis Hs : (s < L)%nat.

(** A projection of the hidden states seen from head [h]. *)
Lemma projected_row (l : Linear) :
  Linear_shape H (nh * dh) l ->
  let t := ContextBERTSelfAttention.transpose_for_scores self
             (Linear_forward3 l hidden_states) in
  inr4 t b h s /\
  row4 t b h s = head_slice dh h (Linear_forward1 l (row3 hidden_states b s)) /\
  length (row4 t b h s) = dh.
Proof.
  intros Hl t.
  destruct (inr3_shape Hhs Hb Hs) as [Hin _].
  destruct (row3_map3 (Linear_forward1 l) Hin) as [Hin' Hrow].
  destruct (row4_transpose_for_scores self Hin' Hh) as [Hin4 Hrow4].
  split; [exact Hin4|]. fold dh in Hrow4.
  assert (E : row4 t b h s = head_slice dh h (Linear_forward1 l (row3 hidden_states b s))).
  { unfold t, Linear_forward3. rewrite Hrow4, Hrow. reflexivity. }
  split; [exact E|]. rewrite E.
  apply length_head_slice with (nh := nh); [|exact Hh].
  eapply length_Linear_forward1. exact Hl.
Qed.

Lemma context_row :
  let t := ContextBERTSelfAttention.transpose_for_scores self context_embedded in
  inr4 t b h s /\
  row4 t b h s = head_slice dh h (row3 context_embedded b s) /\
  length (row4 t b h s) = dh.
Proof.
  intros t.
  destruct (inr3_shape Hctx Hb Hs) as [Hin Hlen].
  destruct (row4_transpose_for_scores self Hin Hh) as [Hin4 Hrow4].
  split; [exact Hin4|]. split; [exact Hrow4|].
  unfold t. rewrite Hrow4. fold dh.
  apply length_head_slice with (nh := nh); assumption.
Qed.

(** The interpolation of one row, for any pair of a projection of the
    hidden states and a projection of the context with their two gate
    layers. *)
Lemma gated_row (proj ctx_proj gate_ctx gate_own : Linear) :
  Linear_shape H (nh * dh) proj ->
  Linear_shape dh dh ctx_proj ->
  Linear_shape dh 1 gate_ctx ->
  Linear_shape dh 1 gate_own ->
  let tfs := ContextBERTSelfAttention.transpose_for_scores self in
  let mixed := tfs (Linear_forward3 proj hidden_states) in
  let ctx := Linear_forward4 ctx_proj (tfs context_embedded) in
  let lam := map4 (map sigmoid)
               (add4 (Linear_forward4 gate_ctx ctx) (Linear_forward4 gate_own mixed)) in
  let out := add4 (bmul4 (one_minus4 lam) mixed) (bmul4 lam ctx) in
  let g := sigmoid (hd 0 (Linear_forward1 gate_ctx (row4 ctx b h s))
                    + hd 0 (Linear_forward1 gate_own (row4 mixed b h s))) in
  row4 ctx b h s
  = Linear_forward1 ctx_proj (head_slice dh h (row3 context_embedded b s)) /\
  row4 lam b h s = [g] /\
  inr4 out b h s /\
  row4 out b h s
  = map2 (fun q c => (1 - g) * q + g * c) (row4 mixed b h s) (row4 ctx b h s) /\
  length (row4 out b h s) = dh.
Proof.
  intros Hproj Hcp Hgc Hgo tfs mixed ctx lam out g.
  destruct (projected_row Hproj) as [Hm_in [Hm_row Hm_len]]. fold tfs mixed in Hm_in, Hm_row, Hm_len.
  destruct context_row as [Hc_in [Hc_row _]]. fold tfs in Hc_in, Hc_row.
  destruct (row4_map4 (Linear_forward1 ctx_proj) Hc_in) as [Hx_in Hx_row].
  fold (Linear_forward4 ctx_proj) in Hx_in, Hx_row. fold ctx in Hx_in, Hx_row.
  assert (Hx_len : length (row4 ctx b h s) = dh).
  { rewrite Hx_row. eapply length_Linear_forward1. exact Hcp. }
  destruct (row4_map4 (Linear_forward1 gate_ctx) Hx_in) as [Hgc_in Hgc_row].
  destruct (row4_map4 (Linear_forward1 gate_own) Hm_in) as [Hgo_in Hgo_row].
  fold (Linear_forward4 gate_ctx) in Hgc_in, Hgc_row.
  fold (Linear_forward4 gate_own) in Hgo_in, Hgo_row.
  destruct (row4_map2 add1 Hgc_in Hgo_in) as [Hadd_in Hadd_row].
  change (map2 (map2 (map2 add1))) with add4 in Hadd_in, Hadd_row.
  destruct (row4_map4 (map sigmoid) Hadd_in) as [Hl_in Hl_row].
  fold lam in Hl_in, Hl_row.
  assert (Hlam : row4 lam b h s = [g]).
  { rewrite Hl_row, Hadd_row, Hgc_row, Hgo_row.
    pose proof (length_Linear_forward1 (row4 ctx b h s) Hgc) as L1.
    pose proof (length_Linear_forward1 (row4 mixed b h s) Hgo) as L2.
    unfold g.
    destruct (Linear_forward1 gate_ctx (row4 ctx b h s)) as [|x [|? ?]]; try discriminate L1.
    destruct (Linear_forward1 gate_own (row4 mixed b h s)) as [|y [|? ?]]; try discriminate L2.
    reflexivity. }
  destruct (row4_map4 (map (fun g0 => 1 - g0)) Hl_in) as [Ho_in Ho_row].
  fold (one_minus4 lam) in Ho_in, Ho_row.
  destruct (row4_map2 bmul1 Ho_in Hm_in) as [Hp1_in Hp1_row].
  destruct (row4_map2 bmul1 Hl_in Hx_in) as [Hp2_in Hp2_row].
  change (map2 (map2 (map2 bmul1))) with bmul4 in Hp1_in, Hp1_row, Hp2_in, Hp2_row.
  destruct (row4_map2 add1 Hp1_in Hp2_in) as [Hout_in Hout_row].
  change (map2 (map2 (map2 add1))) with add4 in Hout_in, Hout_row.
  fold out in Hout_in, Hout_row.
  assert (Hout : row4 out b h s
                 = map2 (fun q c => (1 - g) * q + g * c) (row4 mixed b h s) (row4 ctx b h s)).
  { rewrite Hout_row, Hp1_row, Hp2_row, Ho_row, Hlam. cbn [map hd].
    unfold add1, bmul1. cbn [hd].
    generalize (row4 ctx b h s). generalize (row4 mixed b h s).
    induction l as [|q l IH]; intros [|c l']; cbn [map map2]; try reflexivity.
    rewrite IH. reflexivity. }
  split; [rewrite Hx_row, Hc_row; reflexivity|].
  split; [exact Hlam|]. split; [exact Hout_in|]. split; [exact Hout|].
  rewrite Hout, length_map2. lia.
Qed.

End AttentionRows.

(** ** Context-gated query and key *)

(** C2: at every batch index, head and position, the query gate is the
    sigmoid of the sum of the two one-output linear layers applied to the
    context-for-query row and to the query row; the contextualized query
    row is, entry by entry, [(1 - gate) * query + gate * context]; and the
    same holds for the key with its own four layers.  The rows are the
    head slices of the projections of the hidden states and the context
    projections of the head slice of the context. *)
Theorem C2_gated_interpolation (self : ContextBERTSelfAttention.t)
    (hidden_states context_embedded : tensor3) (attention_mask : tensor4)
    (B L H b h s : nat) :
  ContextBERTSelfAttention.wf H self ->
  shape3 B L H hidden_states ->
  shape3 B L (ContextBERTSelfAttention.num_attention_heads self
              * ContextBERTSelfAttention.attention_head_size self) context_embedded ->
  (b < B)%nat ->
  (h < ContextBERTSelfAttention.num_attention_heads self)%nat ->
  (s < L)%nat ->
  let dh := ContextBERTSelfAttention.attention_head_size self in
  let tr := ContextBERTSelfAttention.forward_locals self hidden_states
              attention_mask context_embedded in
  let query := row4 (ContextBERTSelfAttention.mixed_query_layer tr) b h s in
  let key := row4 (ContextBERTSelfAttention.mixed_key_layer tr) b h s in
  let context_for_query := row4 (ContextBERTSelfAttention.context_embedded_q tr) b h s in
  let context_for_key := row4 (ContextBERTSelfAttention.context_embedded_k tr) b h s in
  let q_from_context :=
    Linear_forward1 (ContextBERTSelfAttention.lambda_q_context_layer self)
      context_for_query in
  let q_from_query :=
    Linear_forward1 (ContextBERTSelfAttention.lambda_q_query_layer self) query in
  let k_from_context :=
    Linear_forward1 (ContextBERTSelfAttention.lambda_k_context_layer self)
      context_for_key in
  let k_from_key :=
    Linear_forward1 (ContextBERTSelfAttention.lambda_k_key_layer self) key in
  let gate_query := sigmoid (hd 0 q_from_context + hd 0 q_from_query) in
  let gate_key := sigmoid (hd 0 k_from_context + hd 0 k_from_key) in
  (query = head_slice dh h
             (Linear_forward1 (ContextBERTSelfAttention.query self)
                (row3 hidden_states b s)) /\
   key = head_slice dh h
           (Linear_forward1 (ContextBERTSelfAttention.key self)
              (row3 hidden_states b s)) /\
   context_for_query
   = Linear_forward1 (ContextBERTSelfAttention.context_for_q self)
       (head_slice dh h (row3 context_embedded b s)) /\
   context_for_key
   = Linear_forward1 (ContextBERTSelfAttention.context_for_k self)
       (head_slice dh h (row3 context_embedded b s))) /\
  (length query = dh /\ length key = dh /\
   length q_from_context = 1%nat /\ length q_from_query = 1%nat /\
   length k_from_context = 1%nat /\ length k_from_key = 1%nat) /\
  row4 (ContextBERTSelfAttention.lambda_q tr) b h s = [gate_query] /\
  row4 (ContextBERTSelfAttention.lambda_k tr) b h s = [gate_key] /\
  row4 (ContextBERTSelfAttention.contextualized_query_layer tr) b h s
  = map2 (fun q c => (1 - gate_query) * q + gate_query * c) query context_for_query /\
  row4 (ContextBERTSelfAttention.contextualized_key_layer tr) b h s
  = map2 (fun k c => (1 - gate_key) * k + gate_key * c) key context_for_key.
Proof.
  intros Hwf Hhs Hctx Hb Hh Hs dh tr.
  destruct Hwf as (Wq & Wk & _ & Wcq & Wck & Wlqc & Wlqq & Wlkc & Wlkk & _).
  pose proof (gated_row self Hhs Hctx Hb Hh Hs Wq Wcq Wlqc Wlqq) as Gq.
  pose proof (gated_row self Hhs Hctx Hb Hh Hs Wk Wck Wlkc Wlkk) as Gk.
  pose proof (projected_row self Hhs Hb Hh Hs Wq) as Pq.
  pose proof (projected_row self Hhs Hb Hh Hs Wk) as Pk.
  cbv zeta in Gq, Gk, Pq, Pk.
  destruct Gq as (Gq1 & Gq2 & _ & Gq4 & _).
  destruct Gk as (Gk1 & Gk2 & _ & Gk4 & _).
  destruct Pq as (_ & Pq2 & Pq3). destruct Pk as (_ & Pk2 & Pk3).
  cbv zeta.
  split; [repeat split; assumption|].
  split.
  { repeat split; try assumption; eapply length_Linear_forward1; eassumption. }
  repeat split; assumption.
Qed.

(** ** Range of the gates *)

Lemma nth_map_default {A B : Type} (f : A -> B) (l : list A) (n : nat) (d : A) (d' : B) :
  f d = d' -> nth n (map f l) d' = f (nth n l d).
Proof. intros <-. apply map_nth. Qed.

Lemma row4_map4_map (f : R -> R) (t : tensor4) (b h s : nat) :
  row4 (map4 (map f) t) b h s = map f (row4 t b h s).
Proof.
  unfold row4, map4.
  rewrite (@nth_map_default _ _ (map (map (map f))) t b [] [] eq_refl).
  rewrite (@nth_map_default _ _ (map (map f)) (nth b t []) h [] [] eq_refl).
  rewrite (@nth_map_default _ _ (map f) (nth h (nth b t []) []) s [] [] eq_refl).
  reflexivity.
Qed.

Lemma Forall4_map_round32 (t : tensor4) :
  Forall4 (fun g => 0 < g < 1) t ->
  Forall4 (fun g => 0 <= g <= 1) (map4 (map round32) t).
Proof.
  unfold Forall4, map4. intros Ht.
  apply Forall_map. eapply Forall_impl; [|exact Ht]. intros t3 H3.
  apply Forall_map. eapply Forall_impl; [|exact H3]. intros t2 H2.
  apply Forall_map. eapply Forall_impl; [|exact H2]. intros t1 H1.
  apply Forall_map. eapply Forall_impl; [|exact H1]. intros g Hg.
  apply round32_unit_interval. lra.
Qed.


(** ** Concrete evaluation *)

Ltac tensor_eval :=
  cbv - [Rplus Rmult Ropp Rminus Rdiv Rinv exp sqrt IZR INR sigmoid pow tanh
         Rlt Rle erf gelu].

Ltac sigmoid_at_zero :=
  repeat match goal with
  | |- context [sigmoid ?a] =>
      replace (sigmoid a) with (1 / 2)
        by (replace a with 0 by ring; symmetry; exact sigmoid_0)
  end.

Ltac shape_solve :=
  cbv [ContextBERTSelfAttention.wf Linear_shape shape3 shape2 shape1
       ContextBertModel.wf ContextBertModel.context_vocab];
  cbn; repeat (split || constructor).

(** ** The encoder loop *)

Lemma loop_steps (self : ContextBERTEncoder.t) (attention_mask : tensor4)
    (context_embeddings : tensor3) (layers : list ContextBERTLayer.t) :
  forall (layer_index : nat) (hidden_states : tensor3),
  (layer_index + length layers <= length (ContextBERTEncoder.context_layer self))%nat ->
  exists steps,
    ContextBERTEncoder.loop self attention_mask context_embeddings layers
      layer_index hidden_states = Ok steps /\
    length steps = length layers /\
    forall i, (i < length layers)%nat ->
      exists context_linear layer_module,
        nth_error (ContextBERTEncoder.context_layer self) (layer_index + i)
        = Some context_linear /\
        nth_error layers i = Some layer_module /\
        fst (nth i steps ([], []))
        = context_update context_linear context_embeddings
            (prev_hidden hidden_states steps i) /\
        snd (nth i steps ([], []))
        = ContextBERTLayer.forward layer_module (prev_hidden hidden_states steps i)
            attention_mask (fst (nth i steps ([], []))).
Proof.
  induction layers as [|layer_module rest IH]; intros layer_index hidden_states Hlen.
  - exists []. split; [reflexivity|]. split; [reflexivity|].
    intros i Hi. cbn in Hi. lia.
  - cbn [length] in Hlen. cbn [ContextBERTEncoder.loop].
    destruct (nth_error (ContextBERTEncoder.context_layer self) layer_index)
      as [context_linear|] eqn:E.
    2:{ apply nth_error_None in E. lia. }
    set (ctx := add3 (Linear_forward3 context_linear
                        (cat_last context_embeddings hidden_states))
                     context_embeddings).
    set (hs' := ContextBERTLayer.forward layer_module hidden_states attention_mask ctx).
    destruct (IH (S layer_index) hs') as [steps [Hsteps [Hl Hall]]]; [lia|].
    rewrite Hsteps. cbn [bind].
    exists ((ctx, hs') :: steps). split; [reflexivity|].
    split; [cbn [length]; lia|].
    intros [|i] Hi.
    + exists context_linear, layer_module.
      rewrite Nat.add_0_r. repeat split; try assumption; reflexivity.
    + cbn [length] in Hi.
      destruct (Hall i ltac:(lia)) as [cl [lm [H1 [H2 [H3 H4]]]]].
      exists cl, lm.
      replace (layer_index + S i)%nat with (S layer_index + i)%nat by lia.
      split; [exact H1|]. split; [exact H2|].
      assert (Hp : prev_hidden hidden_states ((ctx, hs') :: steps) (S i)
                   = prev_hidden hs' steps i).
      { destruct i; reflexivity. }
      rewrite Hp. cbn [nth]. split; assumption.
Qed.

(** C1 (amended): [ContextBERTEncoder.forward] runs one iteration per
    layer.  Iteration [i] computes its context from the broadcast context
    embedding passed to [forward], the same tensor at every layer, and the
    hidden states that enter the iteration:
    [Linear_i(concat(context_0, hidden_{i-1})) + context_0].  That
    context is the one handed to layer [i], whose self-attention receives
    it; the returned list holds the hidden states of the layers. *)
Theorem C1_context_from_initial_embedding (self : ContextBERTEncoder.t)
    (hidden_states : tensor3) (attention_mask : tensor4)
    (context_embeddings : tensor3) :
  (length (ContextBERTEncoder.layer self)
   <= length (ContextBERTEncoder.context_layer self))%nat ->
  exists steps,
    ContextBERTEncoder.forward_steps self hidden_states attention_mask
      context_embeddings = Ok steps /\
    ContextBERTEncoder.forward self hidden_states attention_mask context_embeddings
    = Ok (map snd steps) /\
    length steps = length (ContextBERTEncoder.layer self) /\
    forall i, (i < length (ContextBERTEncoder.layer self))%nat ->
      exists context_linear layer_module,
        nth_error (ContextBERTEncoder.context_layer self) i = Some context_linear /\
        nth_error (ContextBERTEncoder.layer self) i = Some layer_module /\
        let hidden_in := prev_hidden hidden_states steps i in
        let context_i := fst (nth i steps ([], [])) in
        let hidden_out := snd (nth i steps ([], [])) in
        context_i = context_update context_linear context_embeddings hidden_in /\
        hidden_out
        = ContextBERTLayer.forward layer_module hidden_in attention_mask context_i /\
        hidden_out
        = (let attention_output :=
             BERTSelfOutput.forward
               (ContextBERTAttention.output (ContextBERTLayer.attention layer_module))
               (ContextBERTSelfAttention.forward
                  (ContextBERTAttention.self (ContextBERTLayer.attention layer_module))
                  hidden_in attention_mask context_i)
               hidden_in in
           BERTOutput.forward (ContextBERTLayer.output layer_module)
             (BERTIntermediate.forward (ContextBERTLayer.intermediate layer_module)
                attention_output)
             attention_output).
Proof.
  intros Hlen.
  destruct (loop_steps self attention_mask context_embeddings
              (ContextBERTEncoder.layer self) 0 hidden_states Hlen)
    as [steps [Hsteps [Hl Hall]]].
  exists steps. split; [exact Hsteps|].
  split.
  { unfold ContextBERTEncoder.forward, ContextBERTEncoder.forward_steps.
    rewrite Hsteps. reflexivity. }
  split; [exact Hl|].
  intros i Hi. destruct (Hall i Hi) as [cl [lm [H1 [H2 [H3 H4]]]]].
  exists cl, lm. cbn [Nat.add] in H1.
  split; [exact H1|]. split; [exact H2|]. cbv zeta.
  split; [exact H3|]. split; [exact H4|]. rewrite H4 at 1. reflexivity.
Qed.

Lemma layer1_output_shape (x m c : R) :
  exists y, ContextBERTLayer.forward layer1 [[[x]]] [[[[m]]]] [[[c]]] = [[[y]]].
Proof. eexists. tensor_eval. reflexivity. Qed.

(** With two layers the context handed to the second layer is not the
    update of the context handed to the first: here the first layer
    receives 2, the second receives 1, and the update of the first
    layer's context would be 2. *)
Lemma C1_counterexample_second_layer :
  exists c1 h1 c2 h2,
    ContextBERTEncoder.forward_steps encoder_two_layers hidden_1x1x1 mask_1x1x1x1
      context_1x1x1 = Ok [(c1, h1); (c2, h2)] /\
    c2 = context_update {| weight := [[0; 0]]; bias := Some [0] |} context_1x1x1 h1 /\
    c2 <> context_update {| weight := [[0; 0]]; bias := Some [0] |} c1 h1.
Proof.
  do 4 eexists. split; [reflexivity|]. split; [reflexivity|].
  change (Linear_forward3 _ (cat_last context_1x1x1 hidden_1x1x1))
    with [[[1 * 0 + (1 * 0 + 0) + 1]]].
  change (add3 [[[1 * 0 + (1 * 0 + 0) + 1]]] context_1x1x1)
    with [[[1 * 0 + (1 * 0 + 0) + 1 + 1]]].
  destruct (layer1_output_shape 1 0 (1 * 0 + (1 * 0 + 0) + 1 + 1)) as [y Hy].
  unfold hidden_1x1x1, mask_1x1x1x1. rewrite Hy.
  tensor_eval. intros E. injection E. intros E'. lra.
Qed.

Lemma C1_witness_two_layers :
  (length (ContextBERTEncoder.layer encoder_two_layers)
   <= length (ContextBERTEncoder.context_layer encoder_two_layers))%nat /\
  exists steps,
    ContextBERTEncoder.forward_steps encoder_two_layers hidden_1x1x1 mask_1x1x1x1
      context_1x1x1 = Ok steps /\
    length steps = 2%nat.
Proof.
  assert (H : (length (ContextBERTEncoder.layer encoder_two_layers)
               <= length (ContextBERTEncoder.context_layer encoder_two_layers))%nat)
    by (cbn; lia).
  split; [exact H|].
  destruct (C1_context_from_initial_embedding encoder_two_layers hidden_1x1x1
              mask_1x1x1x1 context_1x1x1 H) as [steps [H1 [_ [H2 _]]]].
  exists steps. split; [exact H1 | exact H2].
Defined.

(** ** Attention scores and probabilities *)

Lemma map_nth_seq (l : vec) (n : nat) :
  length l = n -> map (fun j => nth j l 0) (seq 0 n) = l.
Proof.
  intros Hl. apply nth_ext with (d := 0) (d' := 0).
  - rewrite length_map, length_seq. auto.
  - intros i Hi. rewrite length_map, length_seq in Hi.
    rewrite (nth_map_seq (fun j => nth j l 0) 0 Hi). reflexivity.
Qed.

Lemma transpose_transpose_row (K : tensor2) (n dh t : nat) :
  (t < n)%nat -> (t < length K)%nat -> length (nth t K []) = dh ->
  nth t (transpose 0 n (transpose 0 dh K)) [] = nth t K [].
Proof.
  intros Ht HtK Hlen. unfold transpose.
  rewrite (nth_map_seq _ [] Ht). rewrite map_map.
  transitivity (map (fun j => nth j (nth t K []) 0) (seq 0 dh));
    [|apply map_nth_seq; exact Hlen].
  apply map_ext. intros j.
  exact (nth_map_in (fun row : vec => nth j row 0) K 0 [] HtK).
Qed.

Lemma get4_badd4 (a m : tensor4) (b h s t : nat) :
  inr4 a b h s -> (t < length (row4 a b h s))%nat ->
  inr4 (badd4 a m) b h s /\
  length (row4 (badd4 a m) b h s) = length (row4 a b h s) /\
  get4 (badd4 a m) b h s t = get4 a b h s t + bget4 m b h s t.
Proof.
  unfold inr4, row4, get4, badd4, bget4. intros [Hb [Hh Hs]] Ht.
  rewrite length_mapi.
  rewrite (nth_mapi _ a [] [] Hb). rewrite length_mapi.
  rewrite (nth_mapi _ (nth b a []) [] [] Hh). rewrite length_mapi.
  rewrite (nth_mapi _ (nth h (nth b a []) []) [] [] Hs). rewrite length_mapi.
  repeat split; try assumption.
  rewrite (nth_mapi _ _ 0 0 Ht). reflexivity.
Qed.

Lemma scores_row (n dh : nat) (x y : tensor4) (b h s : nat) :
  inr4 x b h s -> (b < length y)%nat -> (h < length (nth b y []))%nat ->
  let raw := map2 (map2 (fun q k => matmul n q (transpose 0 dh k))) x y in
  inr4 raw b h s /\
  row4 raw b h s
  = map (fun col => dot (row4 x b h s) col)
        (transpose 0 n (transpose 0 dh (nth h (nth b y []) []))).
Proof.
  intros [Hb [Hh Hs]] Hb' Hh' raw. unfold raw, inr4, row4.
  rewrite length_map2.
  rewrite (nth_map2 _ x y [] [] [] Hb Hb'). rewrite length_map2.
  rewrite (nth_map2 _ (nth b x []) (nth b y []) [] [] [] Hh Hh').
  unfold matmul. rewrite length_map.
  repeat split; try lia.
  rewrite (nth_map_in _ _ [] [] Hs). reflexivity.
Qed.

Lemma rows_le_transpose_for_scores (self : ContextBERTSelfAttention.t)
    (x : tensor3) (n : nat) :
  Forall (fun xb => (length xb <= n)%nat) x ->
  rows_le n (ContextBERTSelfAttention.transpose_for_scores self x).
Proof.
  unfold rows_le, ContextBERTSelfAttention.transpose_for_scores, transpose.
  intros Hx. apply Forall_forall. intros t Ht.
  apply in_map_iff in Ht. destruct Ht as [xb [<- Hxb]].
  rewrite Forall_forall in Hx. specialize (Hx _ Hxb).
  apply Forall_forall. intros q Hq.
  apply in_map_iff in Hq. destruct Hq as [j [<- _]].
  rewrite !length_map. exact Hx.
Qed.

Lemma rows_le_map2_l (f : vec -> vec -> vec) (x y : tensor4) (n : nat) :
  rows_le n x -> rows_le n (map2 (map2 (map2 f)) x y).
Proof.
  unfold rows_le. intros Hx. apply Forall_map2_l.
  eapply Forall_impl; [|exact Hx]. intros xb Hxb yb.
  apply Forall_map2_l. eapply Forall_impl; [|exact Hxb].
  intros q Hq k. cbv beta in Hq |- *. rewrite length_map2. lia.
Qed.

Lemma rows_le_map2_r (f : vec -> vec -> vec) (x y : tensor4) (n : nat) :
  rows_le n y -> rows_le n (map2 (map2 (map2 f)) x y).
Proof.
  unfold rows_le. intros Hy. apply Forall_map2_r.
  eapply Forall_impl; [|exact Hy]. intros yb Hyb xb.
  apply Forall_map2_r. eapply Forall_impl; [|exact Hyb].
  intros k Hk q. cbv beta in Hk |- *. rewrite length_map2. lia.
Qed.

Lemma raw_scores_rows (n dh : nat) (x y : tensor4) :
  rows_le n x ->
  Forall_rows4 (fun row => length row = n /\ (0 < n)%nat)
    (map2 (map2 (fun q k => matmul n q (transpose 0 dh k))) x y).
Proof.
  unfold rows_le, Forall_rows4. intros Hx. apply Forall_map2_l.
  eapply Forall_impl; [|exact Hx]. intros xb Hxb yb.
  apply Forall_map2_l. eapply Forall_impl; [|exact Hxb].
  intros q Hq k. unfold matmul. apply Forall_forall. intros row Hrow.
  apply in_map_iff in Hrow. destruct Hrow as [a [<- Ha]].
  unfold transpose at 1. rewrite !length_map, length_seq.
  split; [reflexivity|]. destruct q; [contradiction|]. cbn in Hq. lia.
Qed.

Lemma Forall_rows4_map4 (P Q : vec -> Prop) (f : vec -> vec) (x : tensor4) :
  (forall row, P row -> Q (f row)) ->
  Forall_rows4 P x -> Forall_rows4 Q (map4 f x).
Proof.
  unfold Forall_rows4, map4. intros Hf Hx.
  apply Forall_map. eapply Forall_impl; [|exact Hx]. intros xb Hxb.
  apply Forall_map. eapply Forall_impl; [|exact Hxb]. intros xh Hxh.
  apply Forall_map. eapply Forall_impl; [|exact Hxh]. exact Hf.
Qed.

Lemma Forall_mapi_from_impl {A B : Type} (P : A -> Prop) (Q : B -> Prop)
    (f : nat -> A -> B) (l : list A) (k : nat) :
  (forall i a, P a -> Q (f i a)) -> Forall P l -> Forall Q (mapi_from k f l).
Proof.
  intros Hf Hl. revert k. induction Hl as [|a l Ha _ IH]; intros k; cbn [mapi_from];
    constructor; auto.
Qed.

Lemma Forall_rows4_badd4 (n : nat) (a m : tensor4) :
  Forall_rows4 (fun row => length row = n /\ (0 < n)%nat) a ->
  Forall_rows4 (fun row => length row = n /\ (0 < n)%nat) (badd4 a m).
Proof.
  unfold Forall_rows4, badd4, mapi. intros Ha.
  eapply Forall_mapi_from_impl; [|exact Ha]. intros b ab Hab. cbv beta.
  eapply Forall_mapi_from_impl; [|exact Hab]. intros h abh Habh. cbv beta.
  eapply Forall_mapi_from_impl; [|exact Habh]. intros s row [Hrow Hn]. cbv beta.
  rewrite length_mapi_from. split; assumption.
Qed.

Lemma softmax_rows (self : ContextBERTSelfAttention.t) (hidden_states : tensor3)
    (attention_mask : tensor4) (context_embedded : tensor3) :
  rectangular hidden_states ->
  let tr := ContextBERTSelfAttention.forward_locals self hidden_states
              attention_mask context_embedded in
  Forall_rows4 (fun row => sum row = 1 /\ Forall (fun p => 0 <= p) row)
    (ContextBERTSelfAttention.attention_probs_softmax tr).
Proof.
  intros Hrect tr.
  set (n := size1 hidden_states).
  assert (Hq : rows_le n (ContextBERTSelfAttention.contextualized_query_layer tr)).
  { destruct (forward_locals_equations self hidden_states attention_mask context_embedded)
      as (Emq & _ & _ & _ & _ & _ & _ & Ecq & _).
    cbv zeta in Emq, Ecq. fold tr in Emq, Ecq. rewrite Ecq.
    unfold add4, add3, add2. apply rows_le_map2_l.
    unfold bmul4. apply rows_le_map2_r. rewrite Emq.
    apply rows_le_transpose_for_scores.
    unfold Linear_forward3, map3. apply Forall_map.
    eapply Forall_impl; [|exact Hrect]. intros xb Hxb. rewrite length_map.
    cbv beta in Hxb |- *. unfold n. lia. }
  change (ContextBERTSelfAttention.attention_probs_softmax tr)
    with (map4 softmax (ContextBERTSelfAttention.attention_scores tr)).
  apply Forall_rows4_map4
    with (P := fun row : vec => length row = n /\ (0 < n)%nat).
  { intros row [Hlen Hn]. split.
    - apply softmax_sum. destruct row; [cbn in Hlen; lia | congruence].
    - apply softmax_nonneg. }
  change (ContextBERTSelfAttention.attention_scores tr)
    with (badd4
            (map4 (map (fun x => x / sqrt (INR (ContextBERTSelfAttention.attention_head_size self))))
               (map2 (map2 (fun q k =>
                              matmul n q
                                (transpose 0 (ContextBERTSelfAttention.attention_head_size self) k)))
                  (ContextBERTSelfAttention.contextualized_query_layer tr)
                  (ContextBERTSelfAttention.contextualized_key_layer tr)))
            attention_mask).
  apply Forall_rows4_badd4.
  apply Forall_rows4_map4
    with (P := fun row : vec => length row = n /\ (0 < n)%nat).
  { intros row [Hlen Hn]. rewrite length_map. split; assumption. }
  apply raw_scores_rows. exact Hq.
Qed.

Lemma size1_shape3 (B L H : nat) (t : tensor3) :
  shape3 B L H t -> (0 < B)%nat -> size1 t = L.
Proof.
  unfold shape3, shape2. intros [HB Hall] Hpos.
  destruct t as [|xb t]; [cbn in HB; lia|].
  apply Forall_inv in Hall. destruct Hall as [Hxb _]. exact Hxb.
Qed.

Lemma rectangular_shape3 (B L H : nat) (t : tensor3) :
  shape3 B L H t -> rectangular t.
Proof.
  intros Hs. unfold rectangular.
  destruct t as [|xb t]; [constructor|].
  assert (E : size1 (xb :: t) = L).
  { apply (size1_shape3 Hs). destruct Hs as [<- _]. cbn. lia. }
  rewrite E. destruct Hs as [_ Hall].
  eapply Forall_impl; [|exact Hall]. intros a [Ha _]. exact Ha.
Qed.

(** C5: the attention score at (batch, head, query position, key
    position) is the dot product of the contextualized query row and the
    contextualized key row, divided by the square root of the head size,
    plus the broadcast additive mask; the probabilities are the softmax of
    each score row over the key positions, so every row of probabilities
    sums to 1 and has no negative entry. *)
Theorem C5_scores_and_softmax (self : ContextBERTSelfAttention.t)
    (hidden_states context_embedded : tensor3) (attention_mask : tensor4)
    (B L H : nat) :
  ContextBERTSelfAttention.wf H self ->
  shape3 B L H hidden_states ->
  shape3 B L (ContextBERTSelfAttention.num_attention_heads self
              * ContextBERTSelfAttention.attention_head_size self) context_embedded ->
  let tr := ContextBERTSelfAttention.forward_locals self hidden_states
              attention_mask context_embedded in
  (forall b h s t,
     (b < B)%nat -> (h < ContextBERTSelfAttention.num_attention_heads self)%nat ->
     (s < L)%nat -> (t < L)%nat ->
     get4 (ContextBERTSelfAttention.attention_scores tr) b h s t
     = dot (row4 (ContextBERTSelfAttention.contextualized_query_layer tr) b h s)
           (row4 (ContextBERTSelfAttention.contextualized_key_layer tr) b h t)
       / sqrt (INR (ContextBERTSelfAttention.attention_head_size self))
       + bget4 attention_mask b h s t /\
     inr4 (ContextBERTSelfAttention.attention_probs_softmax tr) b h s /\
     row4 (ContextBERTSelfAttention.attention_probs_softmax tr) b h s
     = softmax (row4 (ContextBERTSelfAttention.attention_scores tr) b h s) /\
     length (row4 (ContextBERTSelfAttention.attention_probs_softmax tr) b h s) = L) /\
  Forall_rows4 (fun row => sum row = 1 /\ Forall (fun p => 0 <= p) row)
    (ContextBERTSelfAttention.attention_probs_softmax tr).
Proof.
  intros Hwf Hhs Hctx tr.
  split; [|apply softmax_rows; eapply rectangular_shape3; exact Hhs].
  intros b h s t Hb Hh Hs Ht.
  set (dh := ContextBERTSelfAttention.attention_head_size self).
  destruct Hwf as (Wq & Wk & _ & Wcq & Wck & Wlqc & Wlqq & Wlkc & Wlkk & _).
  pose proof (gated_row self Hhs Hctx Hb Hh Hs Wq Wcq Wlqc Wlqq) as Gq.
  pose proof (gated_row self Hhs Hctx Hb Hh Ht Wk Wck Wlkc Wlkk) as Gk.
  cbv zeta in Gq, Gk.
  destruct Gq as (_ & _ & Qin & _ & _). destruct Gk as (_ & _ & Kin & _ & Klen).
  change (inr4 (ContextBERTSelfAttention.contextualized_query_layer tr) b h s) in Qin.
  change (inr4 (ContextBERTSelfAttention.contextualized_key_layer tr) b h t) in Kin.
  change (length (row4 (ContextBERTSelfAttention.contextualized_key_layer tr) b h t) = dh)
    in Klen.
  assert (En : size1 hidden_states = L) by (apply (size1_shape3 Hhs); lia).
  set (CQ := ContextBERTSelfAttention.contextualized_query_layer tr) in *.
  set (CK := ContextBERTSelfAttention.contextualized_key_layer tr) in *.
  set (scale := fun x : R => x / sqrt (INR dh)).
  set (raw := map2 (map2 (fun q k => matmul L q (transpose 0 dh k))) CQ CK).
  assert (Esc : ContextBERTSelfAttention.attention_scores tr
                = badd4 (map4 (map scale) raw) attention_mask).
  { unfold raw. rewrite <- En. reflexivity. }
  destruct Kin as (Kb & Kh & Kt).
  destruct (@scores_row L dh CQ CK b h s Qin Kb Kh) as [Rin Rrow].
  fold raw in Rin, Rrow.
  destruct (row4_map4 (map scale) Rin) as [Sin Srow].
  assert (Slen : length (row4 (map4 (map scale) raw) b h s) = L).
  { rewrite Srow, Rrow, !length_map. unfold transpose at 1.
    rewrite length_map, length_seq. reflexivity. }
  destruct (@get4_badd4 (map4 (map scale) raw) attention_mask b h s t Sin
              ltac:(rewrite Slen; exact Ht)) as (Ain & Alen & Aget).
  rewrite <- Esc in Ain, Alen, Aget.
  split.
  { rewrite Aget. f_equal. unfold get4. fold (row4 (map4 (map scale) raw) b h s).
    rewrite Srow, Rrow.
    rewrite (nth_map_in scale _ 0 0)
      by (rewrite length_map; unfold transpose at 1;
          rewrite length_map, length_seq; exact Ht).
    rewrite (nth_map_in _ _ 0 [])
      by (unfold transpose at 1; rewrite length_map, length_seq; exact Ht).
    rewrite (transpose_transpose_row _ Ht Kt Klen). reflexivity. }
  destruct (row4_map4 softmax Ain) as [Pin Prow].
  change (map4 softmax (ContextBERTSelfAttention.attention_scores tr))
    with (ContextBERTSelfAttention.attention_probs_softmax tr) in Pin, Prow.
  split; [exact Pin|]. split; [exact Prow|].
  rewrite Prow. unfold softmax. rewrite !length_map. rewrite Alen. exact Slen.
Qed.

(** ** The value path *)

Lemma nth_concat_uniform (dh : nat) (l : tensor2) :
  Forall (fun r => length r = dh) l ->
  length (concat l) = (length l * dh)%nat /\
  forall h d, (h < length l)%nat -> (d < dh)%nat ->
    nth (h * dh + d) (concat l) 0 = nth d (nth h l []) 0.
Proof.
  induction 1 as [|a l Ha _ [IHl IHn]].
  - split; [reflexivity|]. intros h d Hh. cbn in Hh. lia.
  - split.
    + cbn [concat length]. rewrite length_app, IHl, Ha. lia.
    + intros [|h] d Hh Hd; cbn [concat nth].
      * cbn [Nat.mul Nat.add]. apply app_nth1. lia.
      * rewrite app_nth2 by lia.
        replace (S h * dh + d - length a)%nat with (h * dh + d)%nat by (rewrite Ha; lia).
        apply IHn; [cbn [length] in Hh; lia | exact Hd].
Qed.

Lemma length_transpose_for_scores (self : ContextBERTSelfAttention.t)
    (x : tensor3) (b : nat) :
  (b < length x)%nat ->
  length (nth b (ContextBERTSelfAttention.transpose_for_scores self x) [])
  = ContextBERTSelfAttention.num_attention_heads self.
Proof.
  intros Hb. unfold ContextBERTSelfAttention.transpose_for_scores, transpose.
  rewrite (nth_map_in _ x [] [] Hb). rewrite length_map, length_seq. reflexivity.
Qed.

Lemma merged_row (dh n : nat) (P V : tensor4) (B nh b h s d : nat) :
  shape4 B nh n n P ->
  (b < length V)%nat -> length (nth b V []) = nh ->
  (b < B)%nat -> (h < nh)%nat -> (s < n)%nat -> (d < dh)%nat ->
  let out := map (fun cb => map (@concat R) (transpose [] n cb))
                 (map2 (map2 (matmul dh)) P V) in
  length out = Nat.min B (length V) /\
  length (nth b out []) = n /\
  length (row3 out b s) = (nh * dh)%nat /\
  nth (h * dh + d) (row3 out b s) 0
  = dot (row4 P b h s) (column d (nth h (nth b V []) [])).
Proof.
  intros [HB HP] HbV HV Hb Hh Hs Hd out.
  rewrite Forall_forall in HP.
  assert (HPb : shape3 nh n n (nth b P [])) by (apply HP; apply nth_In; lia).
  destruct HPb as [Hnh HPb].
  set (cb := map2 (matmul dh) (nth b P []) (nth b V [])).
  assert (Eb : nth b out [] = map (@concat R) (transpose [] n cb)).
  { unfold out. rewrite (nth_map_in _ _ [] []) by (rewrite length_map2; lia).
    rewrite (nth_map2 _ P V [] [] []) by lia. reflexivity. }
  assert (Erow : row3 out b s = concat (map (fun hm => nth s hm []) cb)).
  { unfold row3. rewrite Eb. unfold transpose.
    rewrite (nth_map_in _ _ [] []) by (rewrite length_map, length_seq; exact Hs).
    rewrite (nth_map_seq _ [] Hs). reflexivity. }
  assert (Hcb : length cb = nh) by (unfold cb; rewrite length_map2; lia).
  assert (Hrows : Forall (fun r => length r = dh) (map (fun hm => nth s hm []) cb)).
  { apply Forall_map. unfold cb. apply Forall_map2_l.
    eapply Forall_impl; [|exact HPb]. intros p [Hp _] v. cbv beta.
    unfold matmul. rewrite (nth_map_in _ p [] []) by lia.
    unfold transpose. rewrite !length_map, length_seq. reflexivity. }
  destruct (nth_concat_uniform Hrows) as [Hlen Hnth].
  rewrite length_map, Hcb in Hlen, Hnth.
  split; [unfold out; rewrite length_map, length_map2, HB; reflexivity|].
  split.
  { rewrite Eb. unfold transpose. rewrite !length_map, length_seq. reflexivity. }
  split; [rewrite Erow; exact Hlen|].
  rewrite Erow, (Hnth h d Hh Hd).
  rewrite (nth_map_in _ cb [] []) by lia.
  unfold cb. rewrite (nth_map2 _ _ _ [] [] []) by lia.
  assert (Hph : (s < length (nth h (nth b P []) []))%nat).
  { rewrite Forall_forall in HPb.
    destruct (HPb (nth h (nth b P []) []) ltac:(apply nth_In; lia)) as [E _]. lia. }
  unfold matmul. rewrite (nth_map_in _ _ [] [] Hph).
  rewrite (nth_map_in _ _ 0 [])
    by (unfold transpose; rewrite length_map, length_seq; exact Hd).
  unfold transpose. rewrite (nth_map_seq _ [] Hd). reflexivity.
Qed.


(** ** Zero gate weights *)

Ltac list_eq :=
  repeat match goal with
  | |- (_ :: _) = (_ :: _) => apply (f_equal2 cons)
  | |- @eq (list _) [] [] => reflexivity
  end.

Lemma dot_zero (x w : vec) : Forall (eq 0) w -> dot x w = 0.
Proof.
  intros Hw. revert x. unfold dot, sum.
  induction Hw as [|w0 w <- _ IH]; intros [|x0 x]; cbn [map2 fold_right]; try reflexivity.
  rewrite IH. ring.
Qed.

Lemma Linear_forward1_zero (n_in n_out : nat) (l : Linear) (x : vec) :
  Linear_shape n_in n_out l -> zero_linear l ->
  Linear_forward1 l x = repeat 0 n_out.
Proof.
  unfold Linear_shape, zero_linear, Linear_forward1, shape2, shape1.
  intros [[Hlen _] Hb] [Hw Hz].
  assert (E : map (fun w => dot x w) (weight l) = repeat 0 n_out).
  { rewrite <- Hlen. clear Hlen Hb Hz.
    induction Hw as [|w ws Hw0 _ IH]; [reflexivity|].
    cbn [map length repeat]. rewrite (dot_zero x Hw0), IH. reflexivity. }
  rewrite E. destruct (bias l) as [b|]; [|reflexivity].
  rewrite <- Hb. clear E Hw Hlen Hb. unfold add1.
  induction Hz as [|b0 b <- _ IH]; [reflexivity|].
  cbn [length repeat map2]. rewrite IH. f_equal. ring.
Qed.

(** With all gate layers and both context projections at zero, every gate
    is 1/2 and every contextualized query and key row is half of the
    query, resp. key, row. *)
Lemma zero_weights_halve (self : ContextBERTSelfAttention.t)
    (hidden_states context_embedded : tensor3) (attention_mask : tensor4)
    (B L H b h s : nat) :
  ContextBERTSelfAttention.wf H self ->
  shape3 B L H hidden_states ->
  shape3 B L (ContextBERTSelfAttention.num_attention_heads self
              * ContextBERTSelfAttention.attention_head_size self) context_embedded ->
  (b < B)%nat ->
  (h < ContextBERTSelfAttention.num_attention_heads self)%nat ->
  (s < L)%nat ->
  zero_linear (ContextBERTSelfAttention.context_for_q self) ->
  zero_linear (ContextBERTSelfAttention.context_for_k self) ->
  zero_linear (ContextBERTSelfAttention.lambda_q_context_layer self) ->
  zero_linear (ContextBERTSelfAttention.lambda_q_query_layer self) ->
  zero_linear (ContextBERTSelfAttention.lambda_k_context_layer self) ->
  zero_linear (ContextBERTSelfAttention.lambda_k_key_layer self) ->
  let tr := ContextBERTSelfAttention.forward_locals self hidden_states
              attention_mask context_embedded in
  row4 (ContextBERTSelfAttention.lambda_q tr) b h s = [1 / 2] /\
  row4 (ContextBERTSelfAttention.lambda_k tr) b h s = [1 / 2] /\
  row4 (ContextBERTSelfAttention.contextualized_query_layer tr) b h s
  = map (fun q => q / 2) (row4 (ContextBERTSelfAttention.mixed_query_layer tr) b h s) /\
  row4 (ContextBERTSelfAttention.contextualized_key_layer tr) b h s
  = map (fun k => k / 2) (row4 (ContextBERTSelfAttention.mixed_key_layer tr) b h s).
Proof.
  intros Hwf Hhs Hctx Hb Hh Hs Zcq Zck Zqc Zqq Zkc Zkk tr.
  destruct Hwf as (Wq & Wk & _ & Wcq & Wck & Wlqc & Wlqq & Wlkc & Wlkk & _).
  assert (Hhalf : forall (q : vec) (dh : nat), length q = dh ->
            map2 (fun x c => (1 - sigmoid (0 + 0)) * x + sigmoid (0 + 0) * c) q (repeat 0 dh)
            = map (fun x => x / 2) q).
  { replace (0 + 0) with 0 by ring. rewrite sigmoid_0.
    induction q as [|x q IH]; intros [|dh] Hlen; cbn in Hlen; try lia; [reflexivity|].
    cbn [repeat map2 map]. rewrite IH by lia. f_equal. lra. }
  pose proof (gated_row self Hhs Hctx Hb Hh Hs Wq Wcq Wlqc Wlqq) as Gq.
  pose proof (gated_row self Hhs Hctx Hb Hh Hs Wk Wck Wlkc Wlkk) as Gk.
  pose proof (projected_row self Hhs Hb Hh Hs Wq) as Pq.
  pose proof (projected_row self Hhs Hb Hh Hs Wk) as Pk.
  cbv zeta in Gq, Gk, Pq, Pk.
  destruct Gq as (Gq1 & Gq2 & _ & Gq4 & _). destruct Gk as (Gk1 & Gk2 & _ & Gk4 & _).
  destruct Pq as (_ & _ & Pq3). destruct Pk as (_ & _ & Pk3).
  rewrite (Linear_forward1_zero _ Wlqc Zqc), (Linear_forward1_zero _ Wlqq Zqq) in Gq2, Gq4.
  rewrite (Linear_forward1_zero _ Wlkc Zkc), (Linear_forward1_zero _ Wlkk Zkk) in Gk2, Gk4.
  rewrite Gq1, (Linear_forward1_zero _ Wcq Zcq) in Gq4.
  rewrite Gk1, (Linear_forward1_zero _ Wck Zck) in Gk4.
  cbn [repeat hd] in Gq2, Gq4, Gk2, Gk4.
  rewrite (Hhalf _ _ Pq3) in Gq4. rewrite (Hhalf _ _ Pk3) in Gk4.
  replace (0 + 0) with 0 in Gq2, Gk2 by ring. rewrite sigmoid_0 in Gq2, Gk2.
  cbv zeta. repeat split; assumption.
Qed.

(** C3: at the input with all gate layers and both context projections
    fixed at zero, the gates are 1/2, and the contextualized query and key
    are half of the query and key, not the query and key themselves. *)
Theorem C3_zero_weights_halve_query_and_key :
  let tr := ContextBERTSelfAttention.forward_locals zero_gated_attention
              hidden_1x2x2 mask_1x1x1x2 context_1x2x2 in
  zero_linear (ContextBERTSelfAttention.context_for_q zero_gated_attention) /\
  zero_linear (ContextBERTSelfAttention.context_for_k zero_gated_attention) /\
  zero_linear (ContextBERTSelfAttention.lambda_q_context_layer zero_gated_attention) /\
  zero_linear (ContextBERTSelfAttention.lambda_q_query_layer zero_gated_attention) /\
  zero_linear (ContextBERTSelfAttention.lambda_k_context_layer zero_gated_attention) /\
  zero_linear (ContextBERTSelfAttention.lambda_k_key_layer zero_gated_attention) /\
  ContextBERTSelfAttention.mixed_query_layer tr = [[[[1]; [3]]; [[2]; [4]]]] /\
  ContextBERTSelfAttention.mixed_key_layer tr = [[[[1]; [3]]; [[2]; [4]]]] /\
  ContextBERTSelfAttention.lambda_q tr = [[[[1 / 2]; [1 / 2]]; [[1 / 2]; [1 / 2]]]] /\
  ContextBERTSelfAttention.lambda_k tr = [[[[1 / 2]; [1 / 2]]; [[1 / 2]; [1 / 2]]]] /\
  ContextBERTSelfAttention.contextualized_query_layer tr
  = [[[[1 / 2]; [3 / 2]]; [[1]; [2]]]] /\
  ContextBERTSelfAttention.contextualized_key_layer tr
  = [[[[1 / 2]; [3 / 2]]; [[1]; [2]]]] /\
  ContextBERTSelfAttention.contextualized_query_layer tr
  <> ContextBERTSelfAttention.mixed_query_layer tr /\
  ContextBERTSelfAttention.contextualized_key_layer tr
  <> ContextBERTSelfAttention.mixed_key_layer tr.
Proof.
  cbv zeta.
  assert (Z1 : zero_linear zero_projection)
    by (split; cbn; repeat constructor).
  assert (Z2 : zero_linear zero_gate)
    by (split; cbn; repeat constructor).
  do 6 (split; [first [exact Z1 | exact Z2]|]).
  assert (Eq : ContextBERTSelfAttention.mixed_query_layer
                 (ContextBERTSelfAttention.forward_locals zero_gated_attention
                    hidden_1x2x2 mask_1x1x1x2 context_1x2x2)
               = [[[[1]; [3]]; [[2]; [4]]]]).
  { tensor_eval. list_eq; lra. }
  assert (Ek : ContextBERTSelfAttention.mixed_key_layer
                 (ContextBERTSelfAttention.forward_locals zero_gated_attention
                    hidden_1x2x2 mask_1x1x1x2 context_1x2x2)
               = [[[[1]; [3]]; [[2]; [4]]]]).
  { tensor_eval. list_eq; lra. }
  assert (Ecq : ContextBERTSelfAttention.contextualized_query_layer
                  (ContextBERTSelfAttention.forward_locals zero_gated_attention
                     hidden_1x2x2 mask_1x1x1x2 context_1x2x2)
                = [[[[1 / 2]; [3 / 2]]; [[1]; [2]]]]).
  { tensor_eval. sigmoid_at_zero. list_eq; lra. }
  assert (Eck : ContextBERTSelfAttention.contextualized_key_layer
                  (ContextBERTSelfAttention.forward_locals zero_gated_attention
                     hidden_1x2x2 mask_1x1x1x2 context_1x2x2)
                = [[[[1 / 2]; [3 / 2]]; [[1]; [2]]]]).
  { tensor_eval. sigmoid_at_zero. list_eq; lra. }
  split; [exact Eq|]. split; [exact Ek|].
  split; [tensor_eval; sigmoid_at_zero; reflexivity|].
  split; [tensor_eval; sigmoid_at_zero; reflexivity|].
  split; [exact Ecq|]. split; [exact Eck|].
  split.
  - rewrite Ecq, Eq. intros E. injection E. intros. lra.
  - rewrite Eck, Ek. intros E. injection E. intros. lra.
Qed.

(** ** Instances *)

Lemma C2_witness_two_heads :
  ContextBERTSelfAttention.wf 2 zero_gated_attention /\
  shape3 1 2 2 hidden_1x2x2 /\
  shape3 1 2 (2 * 1) context_1x2x2 /\
  let tr := ContextBERTSelfAttention.forward_locals zero_gated_attention
              hidden_1x2x2 mask_1x1x1x2 context_1x2x2 in
  row4 (ContextBERTSelfAttention.lambda_q tr) 0 1 1
  = [sigmoid
       (hd 0 (Linear_forward1 zero_gate
                (row4 (ContextBERTSelfAttention.context_embedded_q tr) 0 1 1))
        + hd 0 (Linear_forward1 zero_gate
                  (row4 (ContextBERTSelfAttention.mixed_query_layer tr) 0 1 1)))].
Proof.
  assert (W : ContextBERTSelfAttention.wf 2 zero_gated_attention) by shape_solve.
  assert (S1 : shape3 1 2 2 hidden_1x2x2) by shape_solve.
  assert (S2 : shape3 1 2 (2 * 1) context_1x2x2) by shape_solve.
  split; [exact W|]. split; [exact S1|]. split; [exact S2|].
  pose proof (@C2_gated_interpolation zero_gated_attention hidden_1x2x2 context_1x2x2
                mask_1x1x1x2 1 2 2 0 1 1 W S1 S2
                ltac:(lia) ltac:(cbn; lia) ltac:(lia)) as T.
  cbv zeta in T. destruct T as (_ & _ & T & _). exact T.
Defined.




Lemma C5_witness_two_heads :
  ContextBERTSelfAttention.wf 2 zero_gated_attention /\
  shape3 1 2 2 hidden_1x2x2 /\
  shape3 1 2 (2 * 1) context_1x2x2 /\
  Forall_rows4 (fun row => sum row = 1 /\ Forall (fun p => 0 <= p) row)
    (ContextBERTSelfAttention.attention_probs_softmax
       (ContextBERTSelfAttention.forward_locals zero_gated_attention
          hidden_1x2x2 mask_1x1x1x2 context_1x2x2)).
Proof.
  assert (W : ContextBERTSelfAttention.wf 2 zero_gated_attention) by shape_solve.
  assert (S1 : shape3 1 2 2 hidden_1x2x2) by shape_solve.
  assert (S2 : shape3 1 2 (2 * 1) context_1x2x2) by shape_solve.
  split; [exact W|]. split; [exact S1|]. split; [exact S2|].
  pose proof (@C5_scores_and_softmax zero_gated_attention hidden_1x2x2 context_1x2x2
                mask_1x1x1x2 1 2 2 W S1 S2) as T.
  cbv zeta in T. destruct T as (_ & T). exact T.
Defined.

Lemma C7_witness_two_positions :
  Forall (fun xb : tensor2 => xb <> []) hidden_1x2x2 /\
  Linear_shape 2 2 (ContextBERTPooler.dense pooler2) /\
  ContextBERTPooler.forward pooler2 hidden_1x2x2 [[1; 1]]
  = Ok [map tanh (Linear_forward1 identity2 [1; 2])] /\
  ContextBERTPooler.forward pooler2 hidden_1x2x2 [[1; 1]]
  = ContextBERTPooler.forward pooler2 hidden_1x2x2 [[0; 1]].
Proof.
  assert (N : Forall (fun xb : tensor2 => xb <> []) hidden_1x2x2)
    by (repeat constructor; discriminate).
  assert (D : Linear_shape 2 2 (ContextBERTPooler.dense pooler2)) by shape_solve.
  split; [exact N|]. split; [exact D|].
  destruct (@C7_pooler_first_token pooler2 2 hidden_1x2x2 [[1; 1]] [[0; 1]] N D)
    as (T1 & T2 & _).
  split; [exact T1 | exact T2].
Defined.

Lemma C9_witness_ids_9_and_3 :
  ContextBertModel.wf model1 /\
  ContextBertModel.context_lookup model1 [9%Z] = Raise IndexError /\
  ContextBertModel.forward model1 [[0%Z]] None None [9%Z] = Raise IndexError /\
  ContextBertModel.context_lookup model1 [3%Z] = Ok [[3]].
Proof.
  assert (W : ContextBertModel.wf model1) by reflexivity.
  split; [exact W|].
  destruct (@C9_context_id_range model1 [[0%Z]] None None [9%Z] W) as (T1 & _ & _).
  destruct (@C9_context_id_range model1 [[0%Z]] None None [3%Z] W) as (_ & T2 & _).
  destruct (T1 ltac:(constructor; lia)) as [T1a T1b].
  split; [exact T1a|]. split; [exact T1b|].
  exact (T2 ltac:(repeat constructor; lia)).
Defined.

(** * Further properties of the code *)

(** ** mask *)

Lemma fold_left_max_ge (l : list Z) (a : Z) :
  (a <= fold_left Z.max l a)%Z /\ Forall (fun x => (x <= fold_left Z.max l a)%Z) l.
Proof.
  revert a; induction l as [|x l IH]; intros a; cbn [fold_left].
  - split; [lia | constructor].
  - destruct (IH (Z.max a x)) as [H1 H2]. split; [lia|].
    constructor; [lia | exact H2].
Qed.

Lemma fold_left_max_neg (l : list Z) (a : Z) :
  (fold_left Z.max l a < 0)%Z <-> (a < 0)%Z /\ Forall (fun x => (x < 0)%Z) l.
Proof.
  revert a; induction l as [|x l IH]; intros a; cbn [fold_left].
  - split; [intros H; split; [exact H | constructor] | intros [H _]; exact H].
  - rewrite IH. split.
    + intros [H1 H2]. split; [lia|]. constructor; [lia | exact H2].
    + intros [H1 H2]. inversion H2; subst. split; [lia | assumption].
Qed.

Lemma set_rows_fold (f : nat -> vec -> vec) (m : tensor2) (k : nat) :
  fold_left (fun m i => set_row i (f i) m) (seq 0 k) m
  = mapi (fun i row => if (i <? k)%nat then f i row else row) m.
Proof.
  induction k as [|k IH].
  - cbn [seq fold_left]. apply nth_ext with (d := []) (d' := []).
    + rewrite length_mapi. reflexivity.
    + intros i Hi. rewrite (nth_mapi _ m [] [] Hi). reflexivity.
  - rewrite seq_S, fold_left_app, IH. cbn [fold_left Nat.add].
    unfold set_row. apply nth_ext with (d := []) (d' := []).
    + rewrite !length_mapi. reflexivity.
    + intros i Hi. rewrite !length_mapi in Hi.
      rewrite (nth_mapi _ _ [] []) by (rewrite length_mapi; exact Hi).
      rewrite !(nth_mapi _ m [] [] Hi).
      destruct (Nat.eqb_spec i k) as [->|Hne].
      * destruct (Nat.ltb_spec k k); [lia|].
        destruct (Nat.ltb_spec k (S k)); [reflexivity | lia].
      * destruct (Nat.ltb_spec i k), (Nat.ltb_spec i (S k)); try lia; reflexivity.
Qed.

(** X1: [mask] raises [ValueError] exactly on the empty list of lengths
    and [RuntimeError] exactly when the list is not empty and every length
    is negative; otherwise it returns a tensor. *)
Theorem mask_errors (seq_len : list Z) :
  (mask seq_len = Raise ValueError <-> seq_len = []) /\
  (mask seq_len = Raise RuntimeError <->
   seq_len <> [] /\ Forall (fun n => (n < 0)%Z) seq_len) /\
  (seq_len <> [] -> Exists (fun n => (0 <= n)%Z) seq_len ->
   exists m, mask seq_len = Ok m).
Proof.
  unfold mask. destruct seq_len as [|n0 rest].
  - split; [split; reflexivity|]. split.
    + split; [discriminate | intros [H _]; congruence].
    + intros H; congruence.
  - destruct (Z.ltb_spec (fold_left Z.max rest n0) 0) as [Hneg|Hpos].
    + apply fold_left_max_neg in Hneg. destruct Hneg as [H0 Hrest].
      split; [split; discriminate|]. split.
      * split; [|reflexivity]. intros _. split; [discriminate|].
        constructor; assumption.
      * intros _ Hex. exfalso. apply Exists_exists in Hex.
        destruct Hex as [n [Hin Hn]].
        assert (Hall : Forall (fun n => (n < 0)%Z) (n0 :: rest)) by (constructor; assumption).
        rewrite Forall_forall in Hall. specialize (Hall n Hin). lia.
    + split; [split; discriminate|]. split.
      * split; [discriminate|]. intros [_ Hall]. exfalso.
        inversion Hall; subst.
        assert (fold_left Z.max rest n0 < 0)%Z by (apply fold_left_max_neg; split; assumption).
        lia.
      * intros _ _. eexists. reflexivity.
Qed.

Lemma nth_repeat_in {A : Type} (a d : A) (n i : nat) :
  (i < n)%nat -> nth i (repeat a n) d = a.
Proof.
  revert i; induction n as [|n IH]; intros [|i] Hi; cbn; try lia; auto.
  apply IH; lia.
Qed.

Lemma sum_app (a b : vec) : sum (a ++ b) = sum a + sum b.
Proof.
  unfold sum. induction a as [|x a IH]; cbn [app fold_right]; [ring|].
  rewrite IH. ring.
Qed.

Lemma sum_prefix_min (k n : nat) :
  sum (map (fun j => if (j <? k)%nat then 1 else 0) (seq 0 n)) = INR (Nat.min k n).
Proof.
  induction n as [|n IH].
  - rewrite Nat.min_0_r. reflexivity.
  - rewrite seq_S, map_app, sum_app, IH. cbn [map Nat.add].
    unfold sum at 1; cbn [fold_right].
    destruct (Nat.ltb_spec n k).
    + replace (Nat.min k (S n)) with (S (Nat.min k n)) by lia.
      rewrite S_INR. ring.
    + replace (Nat.min k (S n)) with (Nat.min k n) by lia. ring.
Qed.

Lemma sum_prefix_ones (k n : nat) :
  (k <= n)%nat ->
  sum (map (fun j => if (j <? k)%nat then 1 else 0) (seq 0 n)) = INR k.
Proof.
  intros Hk. rewrite sum_prefix_min. f_equal. lia.
Qed.

Lemma mask_rows (seq_len : list Z) (m : tensor2) :
  mask seq_len = Ok m ->
  let max_len := Z.to_nat (fold_left Z.max (tl seq_len) (hd 0%Z seq_len)) in
  shape2 (length seq_len) max_len m /\
  forall i j, (i < length seq_len)%nat -> (j < max_len)%nat ->
    nth j (nth i m []) 0
    = if (j <? slice_stop max_len (nth i seq_len 0%Z))%nat then 1 else 0.
Proof.
  unfold mask. destruct seq_len as [|n0 rest]; [discriminate|].
  destruct (Z.ltb_spec (fold_left Z.max rest n0) 0) as [Hneg|Hpos]; [discriminate|].
  cbn [tl hd]. cbv zeta.
  set (L := Z.to_nat (fold_left Z.max rest n0)).
  set (sl := n0 :: rest).
  set (r := fold_left _ (seq 0 (length sl)) _).
  intros E. assert (Em : m = r) by congruence. subst m. unfold r. clear r E.
  rewrite (set_rows_fold (fun i => fill_prefix (nth i sl 0%Z))).
  assert (Hrow : forall i, (i < length sl)%nat ->
            nth i (mapi (fun i row => if (i <? length sl)%nat
                                      then fill_prefix (nth i sl 0%Z) row else row)
                     (repeat (repeat 0 L) (length sl))) []
            = fill_prefix (nth i sl 0%Z) (repeat 0 L)).
  { intros i Hi.
    rewrite (nth_mapi _ _ [] []) by (rewrite repeat_length; exact Hi).
    destruct (Nat.ltb_spec i (length sl)); [|lia].
    rewrite nth_repeat_in by exact Hi. reflexivity. }
  split.
  - split.
    + rewrite length_mapi, repeat_length. reflexivity.
    + apply Forall_forall. intros row Hin.
      apply (In_nth _ _ []) in Hin. destruct Hin as [i [Hi <-]].
      rewrite length_mapi, repeat_length in Hi.
      rewrite (Hrow i Hi). unfold shape1, fill_prefix.
      rewrite length_mapi, repeat_length. reflexivity.
  - intros i j Hi Hj. rewrite (Hrow i Hi). unfold fill_prefix.
    rewrite (nth_mapi _ _ 0 0) by (rewrite repeat_length; exact Hj).
    rewrite repeat_length, nth_repeat_in by exact Hj. reflexivity.
Qed.

(** X3: when no length is negative, row [i] of the mask has ones exactly
    at the positions below [seq_len[i]], and its entries add up to
    [seq_len[i]]. *)
Theorem mask_nonnegative_lengths (seq_len : list Z) (m : tensor2) (i : nat) :
  mask seq_len = Ok m ->
  Forall (fun n => (0 <= n)%Z) seq_len ->
  (i < length seq_len)%nat ->
  (forall j, (j < length (nth i m []))%nat ->
     nth j (nth i m []) 0 = if (Z.of_nat j <? nth i seq_len 0%Z)%Z then 1 else 0) /\
  sum (nth i m []) = IZR (nth i seq_len 0%Z).
Proof.
  intros Hm Hall Hi.
  destruct (mask_rows seq_len Hm) as [[Hlen Hrows] Hent]. cbv zeta in Hent, Hrows.
  set (L := Z.to_nat (fold_left Z.max (tl seq_len) (hd 0%Z seq_len))) in *.
  set (n := nth i seq_len 0%Z).
  assert (Hn0 : (0 <= n)%Z).
  { rewrite Forall_forall in Hall. apply Hall. apply nth_In. exact Hi. }
  assert (HnL : (Z.to_nat n <= L)%nat).
  { unfold L, n. destruct seq_len as [|n0 rest]; [cbn in Hi; lia|]. cbn [tl hd].
    destruct (fold_left_max_ge rest n0) as [H0 Hr].
    destruct i as [|i]; cbn [nth].
    - lia.
    - rewrite Forall_forall in Hr. cbn [length] in Hi.
      specialize (Hr (nth i rest 0%Z) ltac:(apply nth_In; lia)). lia. }
  assert (Hstop : slice_stop L n = Z.to_nat n).
  { unfold slice_stop. destruct (Z.ltb_spec n 0); [lia|]. lia. }
  assert (HlenRow : length (nth i m []) = L).
  { rewrite Forall_forall in Hrows. apply Hrows. apply nth_In. lia. }
  split.
  - intros j Hj. rewrite HlenRow in Hj. rewrite (Hent i j Hi Hj). fold n. rewrite Hstop.
    destruct (Nat.ltb_spec j (Z.to_nat n)), (Z.ltb_spec (Z.of_nat j) n); try lia; reflexivity.
  - assert (E : nth i m [] = map (fun j => if (j <? Z.to_nat n)%nat then 1 else 0) (seq 0 L)).
    { apply nth_ext with (d := 0) (d' := 0).
      - rewrite length_map, length_seq. exact HlenRow.
      - intros j Hj. rewrite HlenRow in Hj. rewrite (Hent i j Hi Hj). fold n.
        rewrite Hstop. rewrite (nth_map_seq _ 0 Hj). reflexivity. }
    rewrite E, (sum_prefix_ones HnL). rewrite INR_IZR_INZ. f_equal. lia.
Qed.

(** ** BERTLayerNorm *)

Lemma sum_map_plus (c : R) (l : vec) :
  sum (map (fun x => x + c) l) = sum l + INR (length l) * c.
Proof.
  unfold sum. induction l as [|a l IH]; [cbn; ring|].
  cbn [map fold_right]. rewrite IH. change (length (a :: l)) with (S (length l)).
  rewrite S_INR. ring.
Qed.

Lemma sum_map_affine (u k : R) (l : vec) :
  sum (map (fun x => (x - u) / k) l) = (sum l - INR (length l) * u) / k.
Proof.
  unfold sum. induction l as [|a l IH]; [cbn; unfold Rdiv; ring|].
  cbn [map fold_right]. rewrite IH. change (length (a :: l)) with (S (length l)).
  rewrite S_INR. unfold Rdiv. ring.
Qed.

Lemma INR_length_pos {A : Type} (l : list A) : l <> [] -> 0 < INR (length l).
Proof.
  destruct l as [|a l]; [congruence|]. intros _. apply lt_0_INR. cbn. lia.
Qed.

Lemma mean_map_plus (c : R) (l : vec) :
  l <> [] -> mean (map (fun x => x + c) l) = mean l + c.
Proof.
  intros Hl. unfold mean. rewrite sum_map_plus, length_map.
  pose proof (INR_length_pos Hl). field. lra.
Qed.

Lemma forward1_unfold (self : BERTLayerNorm.t) (x : vec) :
  BERTLayerNorm.forward1 self x
  = add1 (map2 Rmult (BERTLayerNorm.gamma self)
            (normalized (BERTLayerNorm.variance_epsilon self) x))
         (BERTLayerNorm.beta self).
Proof. reflexivity. Qed.


Lemma sum_sq_nonneg (u : R) (l : vec) :
  0 <= sum (map (fun xi => (xi - u) ^ 2) l).
Proof.
  unfold sum. induction l as [|a l IH]; cbn [map fold_right]; [lra|].
  pose proof (pow2_ge_0 (a - u)). lra.
Qed.

Lemma variance_nonneg (x : vec) : 0 <= variance x.
Proof.
  unfold variance, mean. set (u := sum x / INR (length x)). rewrite length_map.
  pose proof (sum_sq_nonneg u x) as Hs.
  destruct x as [|a x].
  - cbn. unfold Rdiv. rewrite Rinv_0. lra.
  - apply Rmult_le_pos; [exact Hs|].
    apply Rlt_le, Rinv_0_lt_compat, INR_length_pos. congruence.
Qed.

Lemma sum_normalized (eps : R) (x : vec) : sum (normalized eps x) = 0.
Proof.
  unfold normalized. cbv zeta. rewrite sum_map_affine.
  destruct x as [|x0 x]; [cbn; unfold Rdiv; ring|].
  assert (H : 0 < INR (length (x0 :: x))) by (apply INR_length_pos; congruence).
  unfold mean.
  replace (sum (x0 :: x) - INR (length (x0 :: x)) * (sum (x0 :: x) / INR (length (x0 :: x))))
    with 0 by (field; lra).
  unfold Rdiv; ring.
Qed.

Lemma sum_sq_normalized (eps : R) (x : vec) :
  0 < eps ->
  sum (map (fun y => y ^ 2) (normalized eps x))
  = sum (map (fun xi => (xi - mean x) ^ 2) x) / (variance x + eps).
Proof.
  intros Heps. unfold normalized. cbv zeta. fold (variance x).
  pose proof (variance_nonneg x) as Hv.
  rewrite map_map.
  assert (E : forall xi, ((xi - mean x) / sqrt (variance x + eps)) ^ 2
                         = (xi - mean x) ^ 2 / (variance x + eps)).
  { intros xi. unfold Rdiv. rewrite Rpow_mult_distr.
    rewrite pow_inv. rewrite pow2_sqrt by lra. reflexivity. }
  rewrite (map_ext _ _ E).
  rewrite <- (map_map (fun xi => (xi - mean x) ^ 2) (fun y => y / (variance x + eps))).
  apply sum_map_div.
Qed.

Lemma init_scale_shift (n : nat) (y : vec) :
  length y = n -> add1 (map2 Rmult (repeat 1 n) y) (repeat 0 n) = y.
Proof.
  revert n; induction y as [|a y IH]; intros [|n] Hn; cbn in Hn; try lia; [reflexivity|].
  cbn [repeat map2 add1]. unfold add1 in IH. cbn [map2]. rewrite IH by lia.
  f_equal. ring.
Qed.


Lemma normalized_constant (eps c : R) (n : nat) :
  normalized eps (repeat c n) = repeat 0 n.
Proof.
  destruct n as [|n]; [reflexivity|].
  unfold normalized. cbv zeta.
  assert (Hm : mean (repeat c (S n)) = c).
  { unfold mean. rewrite repeat_length.
    assert (Hs : forall k, sum (repeat c k) = INR k * c).
    { induction k as [|k IH]; [cbn; ring|].
      cbn [repeat]. unfold sum in *. cbn [fold_right]. rewrite IH, S_INR. ring. }
    rewrite Hs. field. apply not_0_INR. lia. }
  rewrite Hm. set (d := sqrt _).
  assert (H : forall k, map (fun xi => (xi - c) / d) (repeat c k) = repeat 0 k).
  { induction k as [|k IH]; [reflexivity|]. cbn [repeat map]. rewrite IH.
    f_equal. unfold Rdiv. ring. }
  apply H.
Qed.

(** X6: with a positive epsilon, on a row whose entries are all equal, in
    particular on every row when the hidden size is 1, layer normalization
    returns [beta].  (With an epsilon of zero the code divides zero by
    zero on such a row; the statement does not cover it.) *)
Theorem layernorm_constant_row (self : BERTLayerNorm.t) (c : R) (n : nat) :
  0 < BERTLayerNorm.variance_epsilon self ->
  length (BERTLayerNorm.gamma self) = n ->
  length (BERTLayerNorm.beta self) = n ->
  BERTLayerNorm.forward1 self (repeat c n) = BERTLayerNorm.beta self.
Proof.
  intros _ Hg Hb. rewrite forward1_unfold, normalized_constant.
  revert Hg Hb. generalize (BERTLayerNorm.gamma self), (BERTLayerNorm.beta self).
  induction n as [|n IH]; intros [|g gs] [|b bs] Hg Hb; cbn in Hg, Hb; try lia;
    [reflexivity|].
  cbn [repeat map2 add1]. unfold add1 in IH. cbn [map2]. rewrite IH by lia.
  f_equal. ring.
Qed.

(** ** Shapes *)

Lemma Forall_map2 {A B C : Type} (P : A -> Prop) (Q : B -> Prop) (T : C -> Prop)
    (f : A -> B -> C) (l : list A) (l' : list B) :
  (forall a b, P a -> Q b -> T (f a b)) ->
  Forall P l -> Forall Q l' -> Forall T (map2 f l l').
Proof.
  intros Hf Hl. revert l'. induction Hl as [|a l Ha _ IH]; intros l' Hl'.
  - constructor.
  - destruct Hl' as [|b l' Hb Hl']; cbn [map2]; constructor; auto.
Qed.

Lemma shape2_map2 (f : vec -> vec -> vec) (n m1 m2 m3 : nat) (a b : tensor2) :
  (forall x y, shape1 m1 x -> shape1 m2 y -> shape1 m3 (f x y)) ->
  shape2 n m1 a -> shape2 n m2 b -> shape2 n m3 (map2 f a b).
Proof.
  intros Hf [Ha Hra] [Hb Hrb]. split.
  - rewrite length_map2. lia.
  - eapply Forall_map2; eauto.
Qed.

Lemma shape3_map2 (f : vec -> vec -> vec) (n m k1 k2 k3 : nat) (a b : tensor3) :
  (forall x y, shape1 k1 x -> shape1 k2 y -> shape1 k3 (f x y)) ->
  shape3 n m k1 a -> shape3 n m k2 b -> shape3 n m k3 (map2 (map2 f) a b).
Proof.
  intros Hf [Ha Hra] [Hb Hrb]. split.
  - rewrite length_map2. lia.
  - eapply Forall_map2; [|exact Hra|exact Hrb].
    intros x y Hx Hy. eapply shape2_map2; eauto.
Qed.

Lemma shape4_map2 (f : vec -> vec -> vec) (n m k l1 l2 l3 : nat) (a b : tensor4) :
  (forall x y, shape1 l1 x -> shape1 l2 y -> shape1 l3 (f x y)) ->
  shape4 n m k l1 a -> shape4 n m k l2 b ->
  shape4 n m k l3 (map2 (map2 (map2 f)) a b).
Proof.
  intros Hf [Ha Hra] [Hb Hrb]. split.
  - rewrite length_map2. lia.
  - eapply Forall_map2; [|exact Hra|exact Hrb].
    intros x y Hx Hy. eapply shape3_map2; eauto.
Qed.

Lemma shape2_map (f : vec -> vec) (n m m' : nat) (a : tensor2) :
  (forall x, shape1 m x -> shape1 m' (f x)) ->
  shape2 n m a -> shape2 n m' (map f a).
Proof.
  intros Hf [Ha Hra]. split; [rewrite length_map; exact Ha|].
  apply Forall_map. eapply Forall_impl; [|exact Hra]. exact Hf.
Qed.

Lemma shape3_map3 (f : vec -> vec) (n m k k' : nat) (a : tensor3) :
  (forall x, shape1 k x -> shape1 k' (f x)) ->
  shape3 n m k a -> shape3 n m k' (map3 f a).
Proof.
  intros Hf [Ha Hra]. split; [unfold map3; rewrite length_map; exact Ha|].
  unfold map3. apply Forall_map. eapply Forall_impl; [|exact Hra].
  intros x Hx. eapply shape2_map; eauto.
Qed.

Lemma shape4_map4 (f : vec -> vec) (n m k l l' : nat) (a : tensor4) :
  (forall x, shape1 l x -> shape1 l' (f x)) ->
  shape4 n m k l a -> shape4 n m k l' (map4 f a).
Proof.
  intros Hf [Ha Hra]. split; [unfold map4; rewrite length_map; exact Ha|].
  unfold map4. apply Forall_map. eapply Forall_impl; [|exact Hra].
  intros x Hx. eapply shape3_map3; eassumption.
Qed.

Lemma shape1_add1 (n : nat) (x y : vec) :
  shape1 n x -> shape1 n y -> shape1 n (add1 x y).
Proof. unfold shape1, add1. intros Hx Hy. rewrite length_map2. lia. Qed.

Lemma shape3_add3 (B L H : nat) (a b : tensor3) :
  shape3 B L H a -> shape3 B L H b -> shape3 B L H (add3 a b).
Proof. apply shape3_map2. apply shape1_add1. Qed.

Lemma shape3_cat_last (B L H1 H2 : nat) (a b : tensor3) :
  shape3 B L H1 a -> shape3 B L H2 b -> shape3 B L (H1 + H2) (cat_last a b).
Proof.
  apply shape3_map2. unfold shape1. intros x y Hx Hy. rewrite length_app. lia.
Qed.

Lemma shape3_Linear_forward3 (B L n_in n_out : nat) (l : Linear) (x : tensor3) :
  Linear_shape n_in n_out l -> shape3 B L n_in x ->
  shape3 B L n_out (Linear_forward3 l x).
Proof.
  intros Hl. apply shape3_map3. intros r _. unfold shape1.
  eapply length_Linear_forward1. exact Hl.
Qed.

Lemma shape4_Linear_forward4 (B N L n_in n_out : nat) (l : Linear) (x : tensor4) :
  Linear_shape n_in n_out l -> shape4 B N L n_in x ->
  shape4 B N L n_out (Linear_forward4 l x).
Proof.
  intros Hl. apply shape4_map4. intros r _. unfold shape1.
  eapply length_Linear_forward1. exact Hl.
Qed.

Lemma shape4_transpose_for_scores (self : ContextBERTSelfAttention.t)
    (B L : nat) (x : tensor3) :
  shape3 B L (ContextBERTSelfAttention.num_attention_heads self
              * ContextBERTSelfAttention.attention_head_size self) x ->
  shape4 B (ContextBERTSelfAttention.num_attention_heads self) L
    (ContextBERTSelfAttention.attention_head_size self)
    (ContextBERTSelfAttention.transpose_for_scores self x).
Proof.
  set (nh := ContextBERTSelfAttention.num_attention_heads self).
  set (dh := ContextBERTSelfAttention.attention_head_size self).
  intros [HB Hx]. unfold ContextBERTSelfAttention.transpose_for_scores. fold nh dh.
  split; [rewrite length_map; exact HB|].
  apply Forall_map. eapply Forall_impl; [|exact Hx]. intros xb [HL Hrows].
  unfold transpose. split; [rewrite length_map, length_seq; reflexivity|].
  apply Forall_forall. intros hm Hhm. apply in_map_iff in Hhm.
  destruct Hhm as [j [<- Hj]]. apply in_seq in Hj.
  split; [rewrite !length_map; exact HL|].
  apply Forall_map. apply Forall_map. eapply Forall_impl; [|exact Hrows].
  intros row Hrow. unfold shape1, ContextBERTSelfAttention.view_heads.
  assert (Hj' : (j < nh)%nat) by lia.
  rewrite (nth_map_seq _ [] Hj').
  apply (@length_head_slice nh dh j row Hrow Hj').
Qed.

Lemma shape4_raw_scores (B N L D D' : nat) (x y : tensor4) :
  shape4 B N L D x -> shape4 B N L D' y ->
  shape4 B N L L (map2 (map2 (fun q k => matmul L q (transpose 0 D k))) x y).
Proof.
  intros [Hx Hrx] [Hy Hry]. split; [rewrite length_map2; lia|].
  eapply Forall_map2; [|exact Hrx|exact Hry].
  intros xb yb [Hxb Hrxb] [Hyb Hryb]. split; [rewrite length_map2; lia|].
  eapply Forall_map2; [|exact Hrxb|exact Hryb].
  intros q k [Hq _] _. unfold matmul. split; [rewrite length_map; exact Hq|].
  apply Forall_map. apply Forall_forall. intros a _. unfold shape1.
  unfold transpose at 1. rewrite !length_map, length_seq. reflexivity.
Qed.

Lemma shape4_badd4 (B N L D : nat) (a m : tensor4) :
  shape4 B N L D a -> shape4 B N L D (badd4 a m).
Proof.
  intros [Ha Hra]. unfold badd4, mapi.
  split; [rewrite length_mapi_from; exact Ha|].
  eapply Forall_mapi_from_impl; [|exact Hra]. intros b ab [Hab Hrab]. cbv beta.
  split; [rewrite length_mapi_from; exact Hab|].
  eapply Forall_mapi_from_impl; [|exact Hrab]. intros h abh [Habh Hrabh]. cbv beta.
  split; [rewrite length_mapi_from; exact Habh|].
  eapply Forall_mapi_from_impl; [|exact Hrabh]. intros s row Hrow. cbv beta.
  unfold shape1 in *. rewrite length_mapi_from. exact Hrow.
Qed.

Lemma shape3_merge (B N L D : nat) (P V : tensor4) :
  shape4 B N L L P -> shape4 B N L D V ->
  shape3 B L (N * D)
    (map (fun cb => map (@concat R) (transpose [] L cb))
         (map2 (map2 (matmul D)) P V)).
Proof.
  intros [HP HrP] [HV HrV].
  split; [rewrite length_map, length_map2; lia|].
  apply Forall_map. eapply Forall_map2; [|exact HrP|exact HrV].
  intros pb vb [Hpb Hrpb] [Hvb Hrvb]. cbv beta.
  set (cb := map2 (matmul D) pb vb).
  assert (Hcb : length cb = N) by (unfold cb; rewrite length_map2; lia).
  assert (Hheads : Forall (shape2 L D) cb).
  { unfold cb. eapply Forall_map2; [|exact Hrpb|exact Hrvb].
    intros p v [Hp _] _. unfold matmul. split; [rewrite length_map; exact Hp|].
    apply Forall_map. apply Forall_forall. intros a _. unfold shape1, transpose.
    rewrite !length_map, length_seq. reflexivity. }
  unfold transpose. split; [rewrite !length_map, length_seq; reflexivity|].
  apply Forall_map. apply Forall_forall. intros rows Hrows.
  apply in_map_iff in Hrows. destruct Hrows as [s [<- Hs]]. apply in_seq in Hs.
  assert (Hall : Forall (fun r : vec => length r = D) (map (fun hm : tensor2 => nth s hm []) cb)).
  { apply Forall_map. eapply Forall_impl; [|exact Hheads].
    intros hm [Hl Hr]. rewrite Forall_forall in Hr. apply Hr. apply nth_In. lia. }
  destruct (nth_concat_uniform Hall) as [Hlen _].
  unfold shape1. rewrite Hlen, length_map, Hcb. reflexivity.
Qed.

Section AttentionShapes.

Variable self : ContextBERTSelfAttention.t.
Variables hidden_states context_embedded : tensor3.
Variable attention_mask : tensor4.
Variables B L H : nat.

Let nh := ContextBERTSelfAttention.num_attention_heads self.
Let dh := ContextBERTSelfAttention.attention_head_size self.
Let tr := ContextBERTSelfAttention.forward_locals self hidden_states
            attention_mask context_embedded.

Hypothesis Hwf : ContextBERTSelfAttention.wf H self.
Hypothesis Hhs : shape3 B L H hidden_states.
Hypothesis Hctx : shape3 B L (nh * dh) context_embedded.
Hypothesis Hpos : (0 < B)%nat.

Lemma shape4_projection (l : Linear) :
  Linear_shape H (nh * dh) l ->
  shape4 B nh L dh
    (ContextBERTSelfAttention.transpose_for_scores self (Linear_forward3 l hidden_states)).
Proof.
  intros Hl. apply shape4_transpose_for_scores.
  eapply shape3_Linear_forward3; eassumption.
Qed.

Lemma shape4_gated (proj ctx_proj gate_ctx gate_own : Linear) :
  Linear_shape H (nh * dh) proj ->
  Linear_shape dh dh ctx_proj ->
  Linear_shape dh 1 gate_ctx ->
  Linear_shape dh 1 gate_own ->
  let tfs := ContextBERTSelfAttention.transpose_for_scores self in
  let mixed := tfs (Linear_forward3 proj hidden_states) in
  let ctx := Linear_forward4 ctx_proj (tfs context_embedded) in
  let lam := map4 (map sigmoid)
               (add4 (Linear_forward4 gate_ctx ctx) (Linear_forward4 gate_own mixed)) in
  shape4 B nh L dh (add4 (bmul4 (one_minus4 lam) mixed) (bmul4 lam ctx)).
Proof.
  intros Hproj Hcp Hgc Hgo tfs mixed ctx lam.
  assert (Hm : shape4 B nh L dh mixed) by (apply shape4_projection; exact Hproj).
  assert (Hc : shape4 B nh L dh ctx).
  { eapply shape4_Linear_forward4; [exact Hcp|].
    apply shape4_transpose_for_scores. exact Hctx. }
  assert (Hl : shape4 B nh L 1 lam).
  { unfold lam. eapply shape4_map4 with (l := 1%nat).
    - intros x Hx. unfold shape1 in *. rewrite length_map. exact Hx.
    - apply shape4_map2 with (l1 := 1%nat) (l2 := 1%nat); [apply shape1_add1| |].
      + eapply shape4_Linear_forward4; eassumption.
      + eapply shape4_Linear_forward4; eassumption. }
  assert (Hb : forall x y, shape1 1 x -> shape1 dh y -> shape1 dh (bmul1 x y)).
  { intros x y _ Hy. unfold shape1, bmul1 in *. rewrite length_map. exact Hy. }
  apply shape4_map2 with (l1 := dh) (l2 := dh); [apply shape1_add1| |].
  - apply shape4_map2 with (l1 := 1%nat) (l2 := dh); [exact Hb| |exact Hm].
    unfold one_minus4. eapply shape4_map4; [|exact Hl].
    intros x Hx. unfold shape1 in *. rewrite length_map. exact Hx.
  - apply shape4_map2 with (l1 := 1%nat) (l2 := dh); [exact Hb|exact Hl|exact Hc].
Qed.

Lemma shape4_softmax_probs :
  shape4 B nh L L (ContextBERTSelfAttention.attention_probs_softmax tr).
Proof.
  destruct Hwf as (Wq & Wk & _ & Wcq & Wck & Wlqc & Wlqq & Wlkc & Wlkk & _).
  pose proof (shape4_gated Wq Wcq Wlqc Wlqq) as HQ.
  pose proof (shape4_gated Wk Wck Wlkc Wlkk) as HK.
  cbv zeta in HQ, HK.
  assert (En : size1 hidden_states = L) by (apply (size1_shape3 Hhs); exact Hpos).
  change (ContextBERTSelfAttention.attention_probs_softmax tr)
    with (map4 softmax (ContextBERTSelfAttention.attention_scores tr)).
  eapply shape4_map4 with (l := L).
  { intros x Hx. unfold shape1, softmax in *. rewrite !length_map. exact Hx. }
  pose proof (shape4_raw_scores (D := dh) HQ HK) as Hraw.
  assert (Hscaled : shape4 B nh L L
                      (map4 (map (fun x => x / sqrt (INR dh)))
                         (map2 (map2 (fun q k => matmul L q (transpose 0 dh k)))
                            (ContextBERTSelfAttention.contextualized_query_layer tr)
                            (ContextBERTSelfAttention.contextualized_key_layer tr)))).
  { eapply shape4_map4; [|exact Hraw].
    intros x Hx. unfold shape1 in *. rewrite length_map. exact Hx. }
  pose proof (shape4_badd4 attention_mask Hscaled) as Hmasked.
  rewrite <- En in Hmasked |- *. exact Hmasked.
Qed.

Lemma shape3_attention_output :
  keeps_shape4 (ContextBERTSelfAttention.dropout self) ->
  shape3 B L (nh * dh)
    (ContextBERTSelfAttention.forward self hidden_states attention_mask context_embedded).
Proof.
  intros Hdrop.
  pose proof (Hdrop _ _ _ _ _ shape4_softmax_probs) as HP.
  change (ContextBERTSelfAttention.dropout self
            (ContextBERTSelfAttention.attention_probs_softmax tr))
    with (ContextBERTSelfAttention.attention_probs tr) in HP.
  destruct Hwf as (_ & _ & Wv & _).
  pose proof (shape4_projection Wv) as HV.
  pose proof (shape3_merge HP HV) as Hout.
  assert (En : size1 hidden_states = L) by (apply (size1_shape3 Hhs); exact Hpos).
  unfold ContextBERTSelfAttention.forward.
  rewrite <- En in Hout |- *. exact Hout.
Qed.

End AttentionShapes.

(** ** Shapes through a layer and the encoder *)

Lemma shape1_layernorm (H : nat) (ln : BERTLayerNorm.t) (x : vec) :
  BERTLayerNorm_wf H ln -> shape1 H x -> shape1 H (BERTLayerNorm.forward1 ln x).
Proof.
  unfold BERTLayerNorm_wf, shape1, BERTLayerNorm.forward1, add1. intros [Hg Hb] Hx.
  rewrite !length_map2, length_map. lia.
Qed.

Lemma shape3_layernorm (B L H : nat) (ln : BERTLayerNorm.t) (x : tensor3) :
  BERTLayerNorm_wf H ln -> shape3 B L H x -> shape3 B L H (BERTLayerNorm.forward ln x).
Proof.
  intros Hln. unfold BERTLayerNorm.forward. apply shape3_map3.
  intros r Hr. apply shape1_layernorm; assumption.
Qed.

Lemma map2_nil_r {A B C : Type} (f : A -> B -> C) (l : list A) : map2 f l [] = [].
Proof. destruct l; reflexivity. Qed.

Lemma shape3_empty (L H : nat) (x : tensor3) : shape3 0 L H x -> x = [].
Proof. intros [Hx _]. destruct x; [reflexivity | discriminate]. Qed.

Lemma shape3_self_attention (self : ContextBERTSelfAttention.t)
    (hidden_states context_embedded : tensor3) (attention_mask : tensor4)
    (B L H : nat) :
  ContextBERTSelfAttention.wf H self ->
  keeps_shape4 (ContextBERTSelfAttention.dropout self) ->
  shape3 B L H hidden_states ->
  shape3 B L (ContextBERTSelfAttention.num_attention_heads self
              * ContextBERTSelfAttention.attention_head_size self) context_embedded ->
  shape3 B L (ContextBERTSelfAttention.num_attention_heads self
              * ContextBERTSelfAttention.attention_head_size self)
    (ContextBERTSelfAttention.forward self hidden_states attention_mask context_embedded).
Proof.
  intros Hwf Hdrop Hhs Hctx. destruct B as [|B].
  - rewrite (shape3_empty Hhs).
    change (ContextBERTSelfAttention.forward self [] attention_mask context_embedded)
      with (map (fun cb => map (@concat R) (transpose [] 0 cb))
              (map2 (map2 (matmul (ContextBERTSelfAttention.attention_head_size self)))
                 (ContextBERTSelfAttention.attention_probs
                    (ContextBERTSelfAttention.forward_locals self [] attention_mask
                       context_embedded))
                 [])).
    rewrite map2_nil_r. split; [reflexivity | constructor].
  - apply (shape3_attention_output attention_mask Hwf Hhs Hctx); [lia | exact Hdrop].
Qed.

Lemma shape3_layer (layer : ContextBERTLayer.t) (hidden_states : tensor3)
    (attention_mask : tensor4) (context_embedded : tensor3) (B L H I : nat) :
  ContextBERTLayer_wf H I layer ->
  shape3 B L H hidden_states ->
  shape3 B L H context_embedded ->
  shape3 B L H
    (ContextBERTLayer.forward layer hidden_states attention_mask context_embedded).
Proof.
  intros (Wsa & Hheads & Dsa & Wso & Lso & Dso & Wim & Wout & Lout & Dout) Hhs Hctx.
  cbv zeta in *.
  assert (Hctx' : shape3 B L
            (ContextBERTSelfAttention.num_attention_heads
               (ContextBERTAttention.self (ContextBERTLayer.attention layer))
             * ContextBERTSelfAttention.attention_head_size
                 (ContextBERTAttention.self (ContextBERTLayer.attention layer)))
            context_embedded) by (rewrite Hheads; exact Hctx).
  pose proof (shape3_self_attention attention_mask Wsa Dsa Hhs Hctx') as Hself.
  rewrite Hheads in Hself.
  assert (Hatt : shape3 B L H
            (ContextBERTAttention.forward (ContextBERTLayer.attention layer)
               hidden_states attention_mask context_embedded)).
  { unfold ContextBERTAttention.forward, BERTSelfOutput.forward.
    apply shape3_layernorm; [exact Lso|]. apply shape3_add3; [|exact Hhs].
    apply Dso. eapply shape3_Linear_forward3; eassumption. }
  unfold ContextBERTLayer.forward, BERTOutput.forward, BERTIntermediate.forward.
  apply shape3_layernorm; [exact Lout|]. apply shape3_add3; [|exact Hatt].
  apply Dout. eapply shape3_Linear_forward3; [exact Wout|].
  eapply shape3_map3 with (k := I).
  - intros x Hx. unfold shape1 in *. rewrite length_map. exact Hx.
  - eapply shape3_Linear_forward3; eassumption.
Qed.

Lemma shape3_context_update (B L H : nat) (cl : Linear) (ctx hs : tensor3) :
  Linear_shape (2 * H) H cl -> shape3 B L H ctx -> shape3 B L H hs ->
  shape3 B L H (context_update cl ctx hs).
Proof.
  intros Hcl Hc Hh. unfold context_update. apply shape3_add3; [|exact Hc].
  eapply shape3_Linear_forward3; [exact Hcl|].
  replace (2 * H)%nat with (H + H)%nat by lia. apply shape3_cat_last; assumption.
Qed.

Lemma loop_shapes (self : ContextBERTEncoder.t) (attention_mask : tensor4)
    (context_embeddings : tensor3) (B L H I : nat) (layers : list ContextBERTLayer.t) :
  Forall (Linear_shape (2 * H) H) (ContextBERTEncoder.context_layer self) ->
  Forall (ContextBERTLayer_wf H I) layers ->
  shape3 B L H context_embeddings ->
  forall (layer_index : nat) (hidden_states : tensor3),
  (layer_index + length layers <= length (ContextBERTEncoder.context_layer self))%nat ->
  shape3 B L H hidden_states ->
  exists steps,
    ContextBERTEncoder.loop self attention_mask context_embeddings layers
      layer_index hidden_states = Ok steps /\
    length steps = length layers /\
    Forall (fun st => shape3 B L H (fst st) /\ shape3 B L H (snd st)) steps.
Proof.
  intros Hcl Hlayers Hctx.
  induction Hlayers as [|layer_module rest Hlm _ IH]; intros layer_index hidden_states Hlen Hhs.
  - exists []. repeat split; constructor.
  - cbn [length] in Hlen. cbn [ContextBERTEncoder.loop].
    destruct (nth_error (ContextBERTEncoder.context_layer self) layer_index)
      as [context_linear|] eqn:E.
    2:{ apply nth_error_None in E. lia. }
    assert (Hlin : Linear_shape (2 * H) H context_linear).
    { rewrite Forall_forall in Hcl. apply Hcl. eapply nth_error_In. exact E. }
    pose proof (shape3_context_update Hlin Hctx Hhs) as Hc. unfold context_update in Hc.
    pose proof (shape3_layer attention_mask Hlm Hhs Hc) as Hh.
    destruct (IH (S layer_index) _ ltac:(lia) Hh) as [steps [Hsteps [Hl Hall]]].
    rewrite Hsteps. cbn [bind]. eexists. split; [reflexivity|].
    split; [cbn [length]; lia|]. constructor; [split; assumption | exact Hall].
Qed.

Lemma encoder_forward_shapes (self : ContextBERTEncoder.t)
    (hidden_states : tensor3) (attention_mask : tensor4)
    (context_embeddings : tensor3) (B L H I : nat) :
  ContextBERTEncoder_wf H I self ->
  shape3 B L H hidden_states ->
  shape3 B L H context_embeddings ->
  exists all_encoder_layers,
    ContextBERTEncoder.forward self hidden_states attention_mask context_embeddings
    = Ok all_encoder_layers /\
    length all_encoder_layers = length (ContextBERTEncoder.layer self) /\
    Forall (shape3 B L H) all_encoder_layers.
Proof.
  intros (Hlen & Hcl & Hlayers) Hhs Hctx.
  destruct (loop_shapes self attention_mask Hcl Hlayers Hctx 0 ltac:(lia) Hhs)
    as [steps [Hsteps [Hl Hall]]].
  exists (map snd steps).
  unfold ContextBERTEncoder.forward, ContextBERTEncoder.forward_steps.
  rewrite Hsteps. cbn [bind]. split; [reflexivity|].
  split; [rewrite length_map; exact Hl|].
  apply Forall_map. eapply Forall_impl; [|exact Hall]. intros st [_ H2]. exact H2.
Qed.

(** ** Embeddings *)

Lemma mapM_ok_map {A B : Type} (f : A -> result B) (g : A -> B) (l : list A) :
  Forall (fun a => f a = Ok (g a)) l -> mapM f l = Ok (map g l).
Proof.
  induction 1 as [|a l Ha _ IH]; [reflexivity|].
  cbn [mapM map]. rewrite Ha. cbn [bind]. rewrite IH. reflexivity.
Qed.

Lemma mapM_is_ok {A B : Type} (f : A -> result B) (l : list A) :
  is_ok (mapM f l) = true <-> Forall (fun a => is_ok (f a) = true) l.
Proof.
  induction l as [|a l IH]; cbn [mapM].
  - split; [constructor | reflexivity].
  - destruct (f a) as [b|e] eqn:E; cbn [bind].
    + destruct (mapM f l) as [bs|e] eqn:E'; cbn [bind is_ok] in *.
      * split; [intros _; constructor; [rewrite E; reflexivity | apply IH; reflexivity]
               | reflexivity].
      * split; [discriminate|]. intros H. inversion H; subst. apply IH. assumption.
    + cbn [is_ok]. split; [discriminate|]. intros H. inversion H as [|? ? Ha _]; subst.
      rewrite E in Ha. exact Ha.
Qed.

Lemma Embedding_is_ok (table : tensor2) (i : Z) :
  is_ok (Embedding_forward1 table i) = true <-> in_range i (length table).
Proof.
  split.
  - intros H. destruct (Z_lt_dec i 0) as [Hn|Hn].
    + rewrite Embedding_forward1_out in H; [discriminate | unfold in_range; lia].
    + destruct (Z_lt_dec i (Z.of_nat (length table))) as [Hl|Hl].
      * unfold in_range; lia.
      * rewrite Embedding_forward1_out in H; [discriminate | unfold in_range; lia].
  - intros H. rewrite (Embedding_forward1_in _ H). reflexivity.
Qed.

Lemma lookup_is_ok (table : tensor2) (ids : list (list Z)) :
  is_ok (BERTEmbeddings.lookup table ids) = true <-> ids_in_range (length table) ids.
Proof.
  unfold BERTEmbeddings.lookup, ids_in_range. rewrite mapM_is_ok.
  split; intros H; (eapply Forall_impl; [|exact H]); intros row Hrow; cbv beta in *.
  - apply mapM_is_ok in Hrow. eapply Forall_impl; [|exact Hrow].
    intros i. apply Embedding_is_ok.
  - apply mapM_is_ok. eapply Forall_impl; [|exact Hrow].
    intros i. apply Embedding_is_ok.
Qed.

Lemma lookup_in_range (table : tensor2) (ids : list (list Z)) :
  ids_in_range (length table) ids ->
  BERTEmbeddings.lookup table ids
  = Ok (map (map (fun i => nth (Z.to_nat i) table [])) ids).
Proof.
  intros H. unfold BERTEmbeddings.lookup. apply mapM_ok_map.
  eapply Forall_impl; [|exact H]. intros row Hrow. apply lookup_all_in. exact Hrow.
Qed.

Lemma position_ids_in_range (n : nat) (input_ids : list (list Z)) :
  ids_in_range n (map (fun _ => map Z.of_nat (seq 0 (size1 input_ids))) input_ids)
  <-> input_ids = [] \/ (size1 input_ids <= n)%nat.
Proof.
  unfold ids_in_range. split.
  - intros H. destruct input_ids as [|row rest]; [left; reflexivity|]. right.
    cbn [map] in H. apply Forall_inv in H.
    destruct (Nat.le_gt_cases (size1 (row :: rest)) n) as [Hle|Hgt]; [exact Hle|].
    exfalso. rewrite Forall_forall in H.
    specialize (H (Z.of_nat n)). unfold in_range in H.
    assert (Hin : In (Z.of_nat n) (map Z.of_nat (seq 0 (size1 (row :: rest))))).
    { apply in_map. apply in_seq. lia. }
    specialize (H Hin). lia.
  - intros [->|Hle]; [constructor|].
    apply Forall_map. apply Forall_forall. intros _ _.
    apply Forall_map. apply Forall_forall. intros j Hj. apply in_seq in Hj.
    unfold in_range. lia.
Qed.

(** X10: for segment ids of the shape of the token ids,
    [BERTEmbeddings.forward] returns a tensor exactly when every token id
    is inside the word table, the sequence is not longer than the position
    table (for a batch with at least one example) and every segment id is
    inside the segment table; otherwise it raises [IndexError]. *)
Theorem embeddings_succeed_iff_ids_in_range (self : BERTEmbeddings.t)
    (input_ids : list (list Z)) (token_type_ids : option (list (list Z))) :
  let segments := match token_type_ids with
                  | None => zeros_like input_ids
                  | Some ids => ids
                  end in
  map (@length Z) segments = map (@length Z) input_ids ->
  let valid :=
    ids_in_range (length (BERTEmbeddings.word_embeddings self)) input_ids /\
    (input_ids = [] \/
     (size1 input_ids <= length (BERTEmbeddings.position_embeddings self))%nat) /\
    ids_in_range (length (BERTEmbeddings.token_type_embeddings self)) segments in
  (valid -> exists embeddings,
     BERTEmbeddings.forward self input_ids token_type_ids = Ok embeddings) /\
  (~ valid -> BERTEmbeddings.forward self input_ids token_type_ids = Raise IndexError).
Proof.
  intros segments _ valid. unfold BERTEmbeddings.forward. fold segments.
  set (pos := map (fun _ => map Z.of_nat (seq 0 (size1 input_ids))) input_ids).
  pose proof (lookup_is_ok (BERTEmbeddings.word_embeddings self) input_ids) as Hw.
  pose proof (lookup_is_ok (BERTEmbeddings.position_embeddings self) pos) as Hp.
  pose proof (lookup_is_ok (BERTEmbeddings.token_type_embeddings self) segments) as Ht.
  unfold pos in Hp. rewrite position_ids_in_range in Hp. fold pos in Hp.
  assert (Herr : forall table ids e,
            BERTEmbeddings.lookup table ids = Raise e -> e = IndexError).
  { intros table ids e. unfold BERTEmbeddings.lookup. apply mapM_error.
    intros row e'. apply mapM_error. apply Embedding_forward1_error. }
  split.
  - intros (V1 & V2 & V3).
    apply Hw in V1. apply Hp in V2. apply Ht in V3.
    destruct (BERTEmbeddings.lookup _ input_ids); [|discriminate].
    destruct (BERTEmbeddings.lookup _ pos); [|discriminate].
    destruct (BERTEmbeddings.lookup _ segments); [|discriminate].
    cbn [bind]. eexists. reflexivity.
  - intros Hnv.
    destruct (BERTEmbeddings.lookup _ input_ids) as [w|e] eqn:Ew; cbn [bind];
      [|apply Herr in Ew; subst; reflexivity].
    destruct (BERTEmbeddings.lookup _ pos) as [p|e] eqn:Ep; cbn [bind];
      [|apply Herr in Ep; subst; reflexivity].
    destruct (BERTEmbeddings.lookup _ segments) as [t|e] eqn:Et; cbn [bind];
      [|apply Herr in Et; subst; reflexivity].
    exfalso. apply Hnv. unfold valid.
    split; [apply Hw; reflexivity|]. split; [apply Hp; reflexivity | apply Ht; reflexivity].
Qed.

Lemma shape3_lookup (B L H : nat) (table : tensor2) (ids : list (list Z)) :
  Forall (shape1 H) table -> ids_shape B L ids ->
  ids_in_range (length table) ids ->
  shape3 B L H (map (map (fun i => nth (Z.to_nat i) table [])) ids).
Proof.
  intros Ht [HB Hrows] Hr. split; [rewrite length_map; exact HB|].
  apply Forall_map. unfold ids_in_range in Hr.
  rewrite Forall_forall in *. intros row Hin.
  split; [rewrite length_map; apply Hrows; exact Hin|].
  apply Forall_map. specialize (Hr row Hin). rewrite Forall_forall in Hr.
  apply Forall_forall. intros i Hi. specialize (Hr i Hi). unfold in_range in Hr.
  apply Ht. apply nth_In. lia.
Qed.

Lemma shape3_embeddings (self : BERTEmbeddings.t)
    (input_ids token_type_ids : list (list Z)) (B L H : nat) :
  BERTEmbeddings_wf H self ->
  ids_shape B L input_ids ->
  ids_shape B L token_type_ids ->
  ids_in_range (length (BERTEmbeddings.word_embeddings self)) input_ids ->
  (L <= length (BERTEmbeddings.position_embeddings self))%nat ->
  ids_in_range (length (BERTEmbeddings.token_type_embeddings self)) token_type_ids ->
  exists embeddings,
    BERTEmbeddings.forward self input_ids (Some token_type_ids) = Ok embeddings /\
    shape3 B L H embeddings.
Proof.
  intros (Tw & Tp & Tt & Hln & Hdrop) Hids Htt Rw Rp Rt.
  unfold BERTEmbeddings.forward.
  set (pos := map (fun _ => map Z.of_nat (seq 0 (size1 input_ids))) input_ids).
  assert (Hsize : input_ids <> [] -> size1 input_ids = L).
  { destruct Hids as [_ Hrows]. destruct input_ids as [|row rest]; [congruence|].
    intros _. apply Forall_inv in Hrows. exact Hrows. }
  assert (Hpos_shape : ids_shape B L pos).
  { destruct Hids as [HB Hrows]. split; [unfold pos; rewrite length_map; exact HB|].
    unfold pos. apply Forall_map. apply Forall_forall. intros row Hin.
    rewrite length_map, length_seq. apply Hsize. intros ->. contradiction. }
  assert (Hpos_range : ids_in_range (length (BERTEmbeddings.position_embeddings self)) pos).
  { apply position_ids_in_range. destruct input_ids as [|row rest]; [left; reflexivity|].
    right. rewrite Hsize by congruence. exact Rp. }
  rewrite (lookup_in_range _ Rw), (lookup_in_range _ Hpos_range), (lookup_in_range _ Rt).
  cbn [bind]. eexists. split; [reflexivity|].
  apply Hdrop. apply shape3_layernorm; [exact Hln|].
  apply shape3_add3; [apply shape3_add3|]; apply shape3_lookup; assumption.
Qed.

(** ** The whole model *)

Lemma last_item_in {A : Type} (l : list A) :
  l <> [] -> exists x, last_item l = Ok x /\ In x l.
Proof.
  intros Hl. unfold last_item. destruct (rev l) as [|x r] eqn:E.
  - exfalso. apply Hl. apply (f_equal (@rev A)) in E. rewrite rev_involutive in E. exact E.
  - exists x. split; [reflexivity|]. apply in_rev. rewrite E. left. reflexivity.
Qed.

Lemma context_broadcast (m : ContextBertModel.t) (context_ids : list Z) (B L H : nat) :
  ContextBertModel.wf m ->
  Forall (shape1 H) (ContextBertModel.context_embeddings m) ->
  length context_ids = B ->
  Forall (fun i => (0 <= i < 8)%Z) context_ids ->
  (0 < L)%nat ->
  exists t,
    (context_embedded <- ContextBertModel.context_lookup m context_ids ;;
     ContextBertModel.stack_seq L context_embedded) = Ok t /\
    shape3 B L H t /\
    forall b s, (b < B)%nat -> (s < L)%nat ->
      row3 t b s
      = nth (Z.to_nat (nth b context_ids 0%Z)) (ContextBertModel.context_embeddings m) [].
Proof.
  unfold ContextBertModel.wf, ContextBertModel.context_vocab.
  intros Hwf Htab HB Hids HL.
  assert (Hr : Forall (fun i => in_range i (length (ContextBertModel.context_embeddings m)))
                 context_ids).
  { eapply Forall_impl; [|exact Hids]. intros i Hi. cbv beta in Hi.
    unfold in_range. rewrite Hwf. cbn. lia. }
  unfold ContextBertModel.context_lookup. rewrite (lookup_all_in _ Hr). cbn [bind].
  unfold ContextBertModel.stack_seq. destruct L as [|L']; [lia|].
  set (L := S L') in *. eexists. split; [reflexivity|].
  split.
  - split; [rewrite !length_map; exact HB|].
    apply Forall_map. apply Forall_map. rewrite Forall_forall in *. intros i Hi.
    split; [apply repeat_length|].
    apply Forall_forall. intros r Hr'. apply repeat_spec in Hr'. subst r.
    apply Htab. apply nth_In. specialize (Hr i Hi). cbv beta in Hr.
    unfold in_range in Hr. lia.
  - intros b s Hb Hs. unfold row3. rewrite map_map.
    rewrite (nth_map_in _ context_ids [] 0%Z) by lia.
    apply nth_repeat_in. exact Hs.
Qed.

Lemma model_forward_ok (m : ContextBertModel.t) (input_ids : list (list Z))
    (token_type_ids : option (list (list Z))) (attention_mask : option tensor2)
    (context_ids : list Z) (B L H I : nat) :
  let segments := match token_type_ids with
                  | None => zeros_like input_ids
                  | Some ids => ids
                  end in
  ContextBertModel_wf H I m ->
  (0 < B)%nat -> (0 < L)%nat ->
  ids_shape B L input_ids ->
  ids_shape B L segments ->
  match attention_mask with Some a => shape2 B L a | None => True end ->
  ids_in_range (length (BERTEmbeddings.word_embeddings (ContextBertModel.embeddings m)))
    input_ids ->
  (L <= length (BERTEmbeddings.position_embeddings (ContextBertModel.embeddings m)))%nat ->
  ids_in_range (length (BERTEmbeddings.token_type_embeddings (ContextBertModel.embeddings m)))
    segments ->
  length context_ids = B ->
  Forall (fun i => (0 <= i < 8)%Z) context_ids ->
  ContextBERTEncoder.layer (ContextBertModel.encoder m) <> [] ->
  exists pooled_output,
    ContextBertModel.forward m input_ids token_type_ids attention_mask context_ids
    = Ok pooled_output /\
    shape2 B H pooled_output.
Proof.
  intros segments (We & Wenc & Wp & Wctx & Wtab) HB HL Hids Hseg _ Rw Rp Rt Hc Hcr Hlayers.
  unfold ContextBertModel.forward. fold segments.
  destruct (shape3_embeddings We Hids Hseg Rw Rp Rt) as [emb [Eemb Semb]].
  rewrite Eemb. cbn [bind].
  rewrite (size1_shape3 Semb HB).
  destruct (context_broadcast Wctx Wtab Hc Hcr HL) as [ctx [Ectx [Sctx _]]].
  destruct (ContextBertModel.context_lookup m context_ids) as [rows|e]; cbn [bind] in Ectx |- *;
    [|discriminate].
  rewrite Ectx. cbn [bind].
  destruct (encoder_forward_shapes
              (ContextBertModel.extend_mask
                 match attention_mask with
                 | Some a => a
                 | None => ones_like input_ids
                 end) Wenc Semb Sctx) as [all [Eall [Lall Sall]]].
  rewrite Eall. cbn [bind].
  destruct (@last_item_in _ all) as [x [Ex Hx]].
  { intros ->. cbn in Lall. destruct (ContextBERTEncoder.layer (ContextBertModel.encoder m));
      [congruence | discriminate]. }
  rewrite Ex. cbn [bind].
  rewrite Forall_forall in Sall. destruct (Sall x Hx) as [HxB Hxrows].
  assert (Hne : Forall (fun xb : tensor2 => xb <> []) x).
  { eapply Forall_impl; [|exact Hxrows]. intros xb [Hl _] ->. cbn in Hl. lia. }
  unfold ContextBERTPooler.forward. rewrite (first_token_nonempty Hne). cbn [bind].
  eexists. split; [reflexivity|].
  split; [rewrite !length_map; exact HxB|].
  apply Forall_map. apply Forall_map. apply Forall_forall. intros xb _. unfold shape1.
  rewrite length_map. eapply length_Linear_forward1. exact Wp.
Qed.

(** X14: a model whose encoder has no layers never returns a pooled
    output: indexing the empty list of layer outputs raises. *)
Theorem model_without_layers_raises (m : ContextBertModel.t)
    (input_ids : list (list Z)) (token_type_ids : option (list (list Z)))
    (attention_mask : option tensor2) (context_ids : list Z) :
  ContextBERTEncoder.layer (ContextBertModel.encoder m) = [] ->
  exists e,
    ContextBertModel.forward m input_ids token_type_ids attention_mask context_ids
    = Raise e.
Proof.
  intros Hl. unfold ContextBertModel.forward.
  destruct (BERTEmbeddings.forward _ _ _) as [emb|e]; cbn [bind]; [|eexists; reflexivity].
  destruct (ContextBertModel.context_lookup _ _) as [rows|e]; cbn [bind];
    [|eexists; reflexivity].
  destruct (ContextBertModel.stack_seq _ _) as [ctx|e]; cbn [bind]; [|eexists; reflexivity].
  unfold ContextBERTEncoder.forward, ContextBERTEncoder.forward_steps. rewrite Hl.
  cbn. eexists. reflexivity.
Qed.

(** X15: on a batch of empty sequences with otherwise valid arguments,
    [ContextBertModel.forward] raises [RuntimeError]: the context
    embedding is stacked zero times. *)
Theorem model_empty_sequence_raises (m : ContextBertModel.t)
    (input_ids : list (list Z)) (attention_mask : option tensor2)
    (context_ids : list Z) (B H I : nat) :
  ContextBertModel_wf H I m ->
  (0 < B)%nat ->
  ids_shape B 0 input_ids ->
  Forall (fun i => (0 <= i < 8)%Z) context_ids ->
  ContextBertModel.forward m input_ids None attention_mask context_ids
  = Raise RuntimeError.
Proof.
  intros (We & _ & _ & Wctx & _) HB Hids Hcr.
  unfold ContextBertModel.forward.
  assert (Hempty : forall n ids, ids_shape B 0 ids -> ids_in_range n ids).
  { intros n ids [_ Hrows]. unfold ids_in_range. eapply Forall_impl; [|exact Hrows].
    intros row Hrow. destruct row; [constructor | discriminate]. }
  assert (Hz : ids_shape B 0 (zeros_like input_ids)).
  { destruct Hids as [Hl Hrows]. unfold zeros_like. split; [rewrite length_map; exact Hl|].
    apply Forall_map. eapply Forall_impl; [|exact Hrows]. intros row Hrow.
    rewrite length_map. exact Hrow. }
  destruct (shape3_embeddings We Hids Hz (Hempty _ _ Hids) ltac:(lia) (Hempty _ _ Hz))
    as [emb [Eemb Semb]].
  rewrite Eemb. cbn [bind]. rewrite (size1_shape3 Semb HB).
  unfold ContextBertModel.wf, ContextBertModel.context_vocab in Wctx.
  assert (Hr : Forall (fun i => in_range i (length (ContextBertModel.context_embeddings m)))
                 context_ids).
  { eapply Forall_impl; [|exact Hcr]. intros i Hi. cbv beta in Hi.
    unfold in_range. rewrite Wctx. cbn. lia. }
  unfold ContextBertModel.context_lookup. rewrite (lookup_all_in _ Hr). reflexivity.
Qed.

(** ** Statements of the shape results, with instances *)

Ltac wf_solve :=
  tensor_eval;
  repeat match goal with
  | H : ?G |- ?G => exact H
  | |- _ /\ _ => split
  | |- Forall _ _ => constructor
  | |- True => exact I
  | |- _ = _ => reflexivity
  | |- forall _, _ => intros
  | H : _ = _ |- False => discriminate H
  | |- (_ <= _)%nat => lia
  | |- (_ < _)%nat => lia
  | |- _ \/ _ => first [left; reflexivity | right; lia]
  end.

Lemma model1_wf : ContextBertModel_wf 1 1 model1.
Proof. wf_solve. Qed.

(** X2: for a non-empty list of lengths that are not all negative, [mask]
    returns one row per length, each as long as the largest length; the
    entry at position [j] of row [i] is 1 before the stop index of the
    slice [:seq_len[i]] and 0 from it on. *)
Theorem mask_entries (seq_len : list Z) (m : tensor2) :
  mask seq_len = Ok m ->
  let max_len := Z.to_nat (fold_left Z.max (tl seq_len) (hd 0%Z seq_len)) in
  shape2 (length seq_len) max_len m /\
  forall i j, (i < length seq_len)%nat -> (j < max_len)%nat ->
    nth j (nth i m []) 0
    = if (j <? slice_stop max_len (nth i seq_len 0%Z))%nat then 1 else 0.
Proof. exact (@mask_rows seq_len m). Qed.

Lemma mask_entries_witness :
  mask [2%Z; 3%Z; (-1)%Z] = Ok [[1; 1; 0]; [1; 1; 1]; [1; 1; 0]] /\
  shape2 3 3 [[1; 1; 0]; [1; 1; 1]; [1; 1; 0]].
Proof.
  assert (E : mask [2%Z; 3%Z; (-1)%Z] = Ok [[1; 1; 0]; [1; 1; 1]; [1; 1; 0]])
    by reflexivity.
  split; [exact E|].
  exact (proj1 (mask_entries [2%Z; 3%Z; (-1)%Z] E)).
Defined.

Lemma mask_nonnegative_lengths_witness :
  mask [2%Z; 3%Z] = Ok [[1; 1; 0]; [1; 1; 1]] /\
  Forall (fun n => (0 <= n)%Z) [2%Z; 3%Z] /\
  sum [1; 1; 0] = 2.
Proof.
  assert (E : mask [2%Z; 3%Z] = Ok [[1; 1; 0]; [1; 1; 1]]) by reflexivity.
  assert (F : Forall (fun n => (0 <= n)%Z) [2%Z; 3%Z]) by (repeat constructor; lia).
  split; [exact E|]. split; [exact F|].
  exact (proj2 (@mask_nonnegative_lengths [2%Z; 3%Z] _ 0 E F ltac:(cbn; lia))).
Defined.


Lemma layernorm_constant_row_witness :
  BERTLayerNorm.forward1 layernorm1 [7] = [0].
Proof.
  apply (@layernorm_constant_row layernorm1 7 1); [cbn; lra | reflexivity | reflexivity].
Defined.







Lemma embeddings_succeed_witness :
  exists embeddings,
    BERTEmbeddings.forward (ContextBertModel.embeddings model1) [[0%Z; 1%Z]] None
    = Ok embeddings.
Proof.
  apply (proj1 (@embeddings_succeed_iff_ids_in_range (ContextBertModel.embeddings model1)
                  [[0%Z; 1%Z]] None eq_refl)).
  wf_solve.
Defined.

(** X11: for tables with rows of the hidden size and a batch of [B]
    examples of [L] ids with valid token, position and segment ids,
    [BERTEmbeddings.forward] returns a tensor of shape (B, L, hidden
    size). *)
Theorem embeddings_output_shape (self : BERTEmbeddings.t)
    (input_ids token_type_ids : list (list Z)) (B L H : nat) :
  BERTEmbeddings_wf H self ->
  ids_shape B L input_ids ->
  ids_shape B L token_type_ids ->
  ids_in_range (length (BERTEmbeddings.word_embeddings self)) input_ids ->
  (L <= length (BERTEmbeddings.position_embeddings self))%nat ->
  ids_in_range (length (BERTEmbeddings.token_type_embeddings self)) token_type_ids ->
  exists embeddings,
    BERTEmbeddings.forward self input_ids (Some token_type_ids) = Ok embeddings /\
    shape3 B L H embeddings.
Proof. intros. eapply shape3_embeddings; eassumption. Qed.

Lemma embeddings_output_shape_witness :
  exists embeddings,
    BERTEmbeddings.forward (ContextBertModel.embeddings model1) [[0%Z; 1%Z]]
      (Some [[0%Z; 0%Z]]) = Ok embeddings /\
    shape3 1 2 1 embeddings.
Proof.
  apply (@embeddings_output_shape (ContextBertModel.embeddings model1) [[0%Z; 1%Z]]
           [[0%Z; 0%Z]] 1 2 1); wf_solve.
Defined.

(** X12: for context ids inside the table and a sequence length of at least
    one, the context lookup followed by the stacking gives a tensor of
    shape (batch, sequence length, hidden size) that holds, at every
    position of an example, the table row of that example's context id. *)
Theorem context_embedding_is_broadcast (m : ContextBertModel.t)
    (context_ids : list Z) (B L H : nat) :
  ContextBertModel.wf m ->
  Forall (shape1 H) (ContextBertModel.context_embeddings m) ->
  length context_ids = B ->
  Forall (fun i => (0 <= i < 8)%Z) context_ids ->
  (0 < L)%nat ->
  exists t,
    (context_embedded <- ContextBertModel.context_lookup m context_ids ;;
     ContextBertModel.stack_seq L context_embedded) = Ok t /\
    shape3 B L H t /\
    forall b s, (b < B)%nat -> (s < L)%nat ->
      row3 t b s
      = nth (Z.to_nat (nth b context_ids 0%Z)) (ContextBertModel.context_embeddings m) [].
Proof. intros. eapply context_broadcast; eassumption. Qed.

Lemma context_embedding_is_broadcast_witness :
  exists t,
    (context_embedded <- ContextBertModel.context_lookup model1 [3%Z] ;;
     ContextBertModel.stack_seq 2 context_embedded) = Ok t /\
    shape3 1 2 1 t.
Proof.
  destruct (@context_embedding_is_broadcast model1 [3%Z] 1 2 1) as [t [E [S _]]];
    [wf_solve ..|].
  exists t. split; assumption.
Defined.

(** X13: for a well-formed model with at least one layer, a batch of at
    least one example of at least one token, valid token, position,
    segment and context ids and a padding mask of the shape of the ids,
    [ContextBertModel.forward] does not raise and returns a pooled tensor
    of shape (batch, hidden size). *)
Theorem model_forward_succeeds (m : ContextBertModel.t) (input_ids : list (list Z))
    (token_type_ids : option (list (list Z))) (attention_mask : option tensor2)
    (context_ids : list Z) (B L H I : nat) :
  let segments := match token_type_ids with
                  | None => zeros_like input_ids
                  | Some ids => ids
                  end in
  ContextBertModel_wf H I m ->
  (0 < B)%nat -> (0 < L)%nat ->
  ids_shape B L input_ids ->
  ids_shape B L segments ->
  match attention_mask with Some a => shape2 B L a | None => True end ->
  ids_in_range (length (BERTEmbeddings.word_embeddings (ContextBertModel.embeddings m)))
    input_ids ->
  (L <= length (BERTEmbeddings.position_embeddings (ContextBertModel.embeddings m)))%nat ->
  ids_in_range (length (BERTEmbeddings.token_type_embeddings (ContextBertModel.embeddings m)))
    segments ->
  length context_ids = B ->
  Forall (fun i => (0 <= i < 8)%Z) context_ids ->
  ContextBERTEncoder.layer (ContextBertModel.encoder m) <> [] ->
  exists pooled_output,
    ContextBertModel.forward m input_ids token_type_ids attention_mask context_ids
    = Ok pooled_output /\
    shape2 B H pooled_output.
Proof. intros. eapply model_forward_ok; eassumption. Qed.

Lemma model_forward_succeeds_witness :
  exists pooled_output,
    ContextBertModel.forward model1 [[0%Z; 1%Z]] None (Some [[1; 0]]) [3%Z]
    = Ok pooled_output /\
    shape2 1 1 pooled_output.
Proof.
  apply (@model_forward_succeeds model1 [[0%Z; 1%Z]] None (Some [[1; 0]]) [3%Z] 1 2 1 1);
    try exact model1_wf; try lia; try discriminate; wf_solve.
Defined.

Lemma model_without_layers_raises_witness :
  exists e,
    ContextBertModel.forward
      {| ContextBertModel.embeddings := ContextBertModel.embeddings model1;
         ContextBertModel.encoder :=
           {| ContextBERTEncoder.context_layer := [];
              ContextBERTEncoder.layer := [] |};
         ContextBertModel.pooler := ContextBertModel.pooler model1;
         ContextBertModel.context_embeddings := ContextBertModel.context_embeddings model1 |}
      [[0%Z; 1%Z]] None None [3%Z]
    = Raise e.
Proof.
  apply model_without_layers_raises. reflexivity.
Defined.

Lemma model_empty_sequence_raises_witness :
  ContextBertModel.forward model1 [[]] None None [3%Z] = Raise RuntimeError.
Proof.
  apply (@model_empty_sequence_raises model1 [[]] None [3%Z] 1 1 1);
    try exact model1_wf; try lia; wf_solve.
Defined.

(** ** Splitting into heads and merging back *)

Lemma concat_head_slices (dh nh : nat) :
  forall row : vec, length row = (nh * dh)%nat ->
  concat (map (fun h => head_slice dh h row) (seq 0 nh)) = row.
Proof.
  induction nh as [|nh IH]; intros row Hlen.
  - destruct row; [reflexivity | discriminate].
  - cbn [seq map concat]. rewrite <- seq_shift, map_map.
    assert (E : map (fun h => head_slice dh (S h) row) (seq 0 nh)
                = map (fun h => head_slice dh h (skipn dh row)) (seq 0 nh)).
    { apply map_ext. intros h. unfold head_slice. rewrite skipn_skipn.
      do 2 f_equal. lia. }
    cbn [Nat.mul] in Hlen.
    rewrite E.
    assert (Hsk : length (skipn dh row) = (nh * dh)%nat).
    { rewrite length_skipn, Hlen, Nat.add_comm. apply Nat.add_sub. }
    rewrite (IH _ Hsk).
    unfold head_slice. cbn [Nat.mul skipn]. apply firstn_skipn.
Qed.

Lemma merge_transpose_roundtrip (self : ContextBERTSelfAttention.t)
    (x : tensor3) (B L : nat) :
  shape3 B L (ContextBERTSelfAttention.num_attention_heads self
              * ContextBERTSelfAttention.attention_head_size self) x ->
  map (merge_heads L) (ContextBERTSelfAttention.transpose_for_scores self x) = x.
Proof.
  set (nh := ContextBERTSelfAttention.num_attention_heads self).
  set (dh := ContextBERTSelfAttention.attention_head_size self).
  intros [HB Hx].
  unfold ContextBERTSelfAttention.transpose_for_scores. fold nh dh. rewrite map_map.
  rewrite <- (map_id x) at 2. apply map_ext_in. intros xb Hxb.
  rewrite Forall_forall in Hx. destruct (Hx xb Hxb) as [HL Hrows].
  unfold merge_heads, transpose.
  apply nth_ext with (d := []) (d' := []).
  - rewrite !length_map, length_seq. lia.
  - intros s Hs. rewrite !length_map, length_seq in Hs.
    rewrite (nth_map_in _ _ [] []) by (rewrite length_map, length_seq; exact Hs).
    rewrite (nth_map_seq _ [] Hs). rewrite map_map.
    transitivity (concat (map (fun h => head_slice dh h (nth s xb [])) (seq 0 nh))).
    + f_equal. apply map_ext_in. intros h Hh. apply in_seq in Hh.
      rewrite (nth_map_in _ _ [] []) by (rewrite length_map; lia).
      rewrite (nth_map_in _ xb [] []) by lia.
      unfold ContextBERTSelfAttention.view_heads.
      assert (Hh' : (h < nh)%nat) by lia.
      rewrite (nth_map_seq _ [] Hh'). reflexivity.
    + apply concat_head_slices. rewrite Forall_forall in Hrows.
      apply Hrows. apply nth_In. lia.
Qed.

(** X16: the tensor returned by [forward] is the head-wise product of the
    probabilities with the value, merged; and merging the per-head view of
    a tensor of shape (batch, sequence length, heads * head size) gives the
    tensor back. *)
Theorem merge_heads_transpose_for_scores (self : ContextBERTSelfAttention.t)
    (x : tensor3) (B L : nat) :
  shape3 B L (ContextBERTSelfAttention.num_attention_heads self
              * ContextBERTSelfAttention.attention_head_size self) x ->
  (forall hidden_states attention_mask context_embedded,
     let tr := ContextBERTSelfAttention.forward_locals self hidden_states
                 attention_mask context_embedded in
     ContextBERTSelfAttention.context_layer tr
     = map (merge_heads (size1 hidden_states))
         (map2 (map2 (matmul (ContextBERTSelfAttention.attention_head_size self)))
            (ContextBERTSelfAttention.attention_probs tr)
            (ContextBERTSelfAttention.value_layer tr))) /\
  map (merge_heads L) (ContextBERTSelfAttention.transpose_for_scores self x) = x.
Proof.
  intros Hx. split; [intros; reflexivity|].
  eapply merge_transpose_roundtrip. exact Hx.
Qed.

Lemma merge_heads_witness :
  map (merge_heads 2)
    (ContextBERTSelfAttention.transpose_for_scores zero_gated_attention hidden_1x2x2)
  = hidden_1x2x2.
Proof.
  apply (@merge_heads_transpose_for_scores zero_gated_attention hidden_1x2x2 1 2).
  wf_solve.
Defined.

(** ** The interpolation stays between its two operands *)

Lemma interpolation_between (g q c : R) :
  0 < g < 1 -> Rmin q c <= (1 - g) * q + g * c <= Rmax q c.
Proof.
  intros [H0 H1]. unfold Rmin, Rmax. destruct (Rle_dec q c); split; nra.
Qed.



(** ** Masks that are constant along an example; one-token sequences *)

Lemma softmax_shift (k : R) (v : vec) :
  softmax (map (fun x => x + k) v) = softmax v.
Proof.
  destruct v as [|a v]; [reflexivity|].
  unfold softmax. rewrite !map_map.
  assert (Hs : sum (map (fun x => exp (x + k)) (a :: v))
               = sum (map exp (a :: v)) * exp k).
  { generalize (a :: v). intros l. unfold sum.
    induction l as [|x l IH]; cbn [map fold_right]; [ring|].
    rewrite IH, exp_plus. ring. }
  rewrite Hs.
  pose proof (@sum_exp_pos (a :: v) ltac:(congruence)) as Hpos.
  pose proof (exp_pos k) as Hk.
  apply map_ext. intros x. rewrite exp_plus. field. split; lra.
Qed.

Lemma bnth_nth {A : Type} (d : A) (l : list A) (i : nat) :
  (i < length l)%nat -> bnth d l i = nth i l d.
Proof.
  destruct l as [|x [|y l]]; cbn; intros Hi; try lia; [|reflexivity].
  destruct i; [reflexivity | lia].
Qed.

Lemma shape4_row (B N L D : nat) (a : tensor4) (b h s : nat) :
  shape4 B N L D a -> inr4 a b h s ->
  (b < B)%nat /\ (h < N)%nat /\ (s < L)%nat /\ length (row4 a b h s) = D.
Proof.
  intros [HB Ha] (Hb & Hh & Hs). rewrite Forall_forall in Ha.
  destruct (Ha (nth b a []) ltac:(apply nth_In; exact Hb)) as [HN Hab].
  rewrite Forall_forall in Hab.
  destruct (Hab (nth h (nth b a []) []) ltac:(apply nth_In; exact Hh)) as [HL Habh].
  rewrite Forall_forall in Habh.
  repeat split; try lia. unfold row4. apply Habh. apply nth_In. exact Hs.
Qed.

Lemma softmax_badd4_constant_rows (a m : tensor4) (K : nat -> R) :
  (forall b h s t, inr4 a b h s -> (t < length (row4 a b h s))%nat ->
     bget4 m b h s t = K b) ->
  map4 softmax (badd4 a m) = map4 softmax a.
Proof.
  intros HK. unfold map4, badd4.
  apply nth_ext with (d := []) (d' := []); [rewrite !length_map, length_mapi; reflexivity|].
  intros b Hb. rewrite length_map, length_mapi in Hb.
  rewrite (nth_map_in _ _ [] []) by (rewrite length_mapi; exact Hb).
  rewrite (nth_map_in _ a [] [] Hb), (nth_mapi _ a [] [] Hb).
  apply nth_ext with (d := []) (d' := []); [rewrite !length_map, length_mapi; reflexivity|].
  intros h Hh. rewrite length_map, length_mapi in Hh.
  rewrite (nth_map_in _ _ [] []) by (rewrite length_mapi; exact Hh).
  rewrite (nth_map_in _ (nth b a []) [] [] Hh), (nth_mapi _ (nth b a []) [] [] Hh).
  apply nth_ext with (d := []) (d' := []); [rewrite !length_map, length_mapi; reflexivity|].
  intros s Hs. rewrite length_map, length_mapi in Hs.
  rewrite (nth_map_in _ _ [] []) by (rewrite length_mapi; exact Hs).
  rewrite (nth_map_in _ (nth h (nth b a []) []) [] [] Hs).
  rewrite (nth_mapi _ (nth h (nth b a []) []) [] [] Hs).
  fold (row4 a b h s).
  assert (Hin : inr4 a b h s) by (repeat split; assumption).
  assert (E : mapi (fun t x => x + bnth 0 (bnth [] (bnth [] (bnth [] m b) h) s) t)
                (row4 a b h s)
              = map (fun x => x + K b) (row4 a b h s)).
  { apply nth_ext with (d := 0) (d' := 0); [rewrite length_mapi, length_map; reflexivity|].
    intros t Ht. rewrite length_mapi in Ht.
    rewrite (nth_mapi _ _ 0 0 Ht), (nth_map_in _ _ 0 0 Ht).
    f_equal. apply (HK b h s t Hin Ht). }
  rewrite E. apply softmax_shift.
Qed.

Lemma bget4_extend_mask (am : tensor2) (B L b h s t : nat) (c : R) :
  shape2 B L am -> (b < B)%nat -> (t < L)%nat ->
  Forall (eq c) (nth b am []) ->
  bget4 (ContextBertModel.extend_mask am) b h s t = (1 - c) * - 10000.
Proof.
  intros [HB Hrows] Hb Ht Hc. unfold bget4, ContextBertModel.extend_mask, map4.
  rewrite map_map. cbn [map].
  rewrite (@bnth_nth _ []
             (map (fun x : vec => [[map (fun m : R => (1 - m) * - 10000) x]]) am) b)
    by (rewrite length_map; lia).
  rewrite (nth_map_in _ am [] []) by lia.
  cbn [bnth].
  assert (Hlen : length (nth b am []) = L).
  { rewrite Forall_forall in Hrows. apply Hrows. apply nth_In. lia. }
  rewrite bnth_nth by (rewrite length_map; lia).
  rewrite (nth_map_in _ _ 0 0) by lia.
  rewrite Forall_forall in Hc. rewrite <- (Hc (nth t (nth b am []) 0)); [reflexivity|].
  apply nth_In. lia.
Qed.

Section ScaledScores.

Variable self : ContextBERTSelfAttention.t.
Variables hidden_states context_embedded : tensor3.
Variables B L H : nat.

Let nh := ContextBERTSelfAttention.num_attention_heads self.
Let dh := ContextBERTSelfAttention.attention_head_size self.

Hypothesis Hwf : ContextBERTSelfAttention.wf H self.
Hypothesis Hhs : shape3 B L H hidden_states.
Hypothesis Hctx : shape3 B L (nh * dh) context_embedded.

(** The scores before the mask is added do not depend on the mask. *)
Lemma scores_before_mask :
  exists X,
    shape4 B nh L L X /\
    forall attention_mask,
      ContextBERTSelfAttention.attention_probs_softmax
        (ContextBERTSelfAttention.forward_locals self hidden_states attention_mask
           context_embedded)
      = map4 softmax (badd4 X attention_mask).
Proof.
  destruct Hwf as (Wq & Wk & _ & Wcq & Wck & Wlqc & Wlqq & Wlkc & Wlkk & _).
  pose proof (shape4_gated self Hhs Hctx Wq Wcq Wlqc Wlqq) as HQ.
  pose proof (shape4_gated self Hhs Hctx Wk Wck Wlkc Wlkk) as HK.
  cbv zeta in HQ, HK. fold nh dh in HQ, HK.
  set (tr0 := ContextBERTSelfAttention.forward_locals self hidden_states []
                context_embedded).
  exists (map4 (map (fun x => x / sqrt (INR dh)))
            (map2 (map2 (fun q k => matmul (size1 hidden_states) q (transpose 0 dh k)))
               (ContextBERTSelfAttention.contextualized_query_layer tr0)
               (ContextBERTSelfAttention.contextualized_key_layer tr0))).
  split; [|intros attention_mask; reflexivity].
  eapply shape4_map4 with (l := L).
  { intros x Hx. unfold shape1 in *. rewrite length_map. exact Hx. }
  destruct B as [|B'].
  - assert (E0 : length (ContextBERTSelfAttention.contextualized_query_layer tr0) = 0%nat)
      by exact (proj1 HQ).
    assert (E1 : forall t : tensor4, length t = 0%nat -> shape4 0 nh L L t).
    { intros t Ht. destruct t; [|discriminate]. split; [reflexivity | constructor]. }
    apply E1. rewrite length_map2, E0. reflexivity.
  - assert (En : size1 hidden_states = L) by (apply (size1_shape3 Hhs); lia).
    rewrite En. exact (shape4_raw_scores (D := dh) HQ HK).
Qed.

End ScaledScores.



(** ** One-token sequences *)

Lemma softmax_singleton (x : R) : softmax [x] = [1].
Proof.
  unfold softmax, sum. cbn [map fold_right]. f_equal.
  pose proof (exp_pos x). field. lra.
Qed.

Lemma matmul_one (D : nat) (v : tensor2) :
  shape2 1 D v -> matmul D [[1]] v = v.
Proof.
  intros [Hl Hr]. destruct v as [|r [|r' v]]; try discriminate Hl.
  apply Forall_inv in Hr. unfold shape1 in Hr.
  unfold matmul, transpose. cbn [map]. f_equal. rewrite map_map.
  transitivity (map (fun j => nth j r 0) (seq 0 D)); [|apply map_nth_seq; exact Hr].
  apply map_ext. intros j.
  unfold dot, sum. cbn [map2 fold_right]. ring.
Qed.

Lemma map2_snd {A B : Type} (P : A -> Prop) (Q : B -> Prop) (f : A -> B -> B)
    (l : list A) (l' : list B) :
  (forall a b, P a -> Q b -> f a b = b) ->
  length l = length l' -> Forall P l -> Forall Q l' -> map2 f l l' = l'.
Proof.
  intros Hf. revert l'. induction l as [|a l IH]; intros [|b l'] Hlen Hl Hl';
    try discriminate Hlen; [reflexivity|].
  cbn [map2]. inversion Hl; subst. inversion Hl'; subst.
  rewrite (Hf a b) by assumption. rewrite IH; auto.
Qed.

Lemma single_key_probs (B N : nat) (scores : tensor4) :
  shape4 B N 1 1 scores ->
  length (map4 softmax scores) = B /\
  Forall (fun pb : tensor3 => length pb = N /\ Forall (eq [[1]]) pb)
    (map4 softmax scores).
Proof.
  intros [HB Hs]. unfold map4. split; [rewrite length_map; exact HB|].
  apply Forall_map. eapply Forall_impl; [|exact Hs]. intros sb [HN Hsb].
  split; [rewrite length_map; exact HN|].
  apply Forall_map. eapply Forall_impl; [|exact Hsb]. intros m [Hm Hrows].
  destruct m as [|r [|r' m]]; try discriminate Hm.
  apply Forall_inv in Hrows. unfold shape1 in Hrows.
  destruct r as [|x [|x' r]]; try discriminate Hrows.
  cbn [map]. rewrite softmax_singleton. reflexivity.
Qed.



(** ** gelu *)

Lemma gauss_integral_eq (a b : R) (Ha : 0 <= a) (Hb : 0 <= b) :
  a = b -> gauss_integral Ha = gauss_integral Hb.
Proof.
  intros E. subst b. unfold gauss_integral. apply RiemannInt_P5.
Qed.

Lemma gauss_integral_0 (H : 0 <= 0) : gauss_integral H = 0.
Proof. unfold gauss_integral. apply RiemannInt_P9. Qed.

Lemma erf_odd (x : R) : erf (- x) = - erf x.
Proof.
  unfold erf.
  destruct (Rle_dec 0 (- x)) as [Hn|Hn], (Rle_dec 0 x) as [Hp|Hp].
  - assert (Hx : x = 0) by lra.
    rewrite (@gauss_integral_eq (- x) 0 Hn (Rle_refl 0)) by lra.
    rewrite (@gauss_integral_eq x 0 Hp (Rle_refl 0)) by lra.
    rewrite gauss_integral_0. ring.
  - match goal with
    | |- _ = - - (_ * @gauss_integral _ ?pf) =>
        rewrite (@gauss_integral_eq (- x) (- x) pf Hn eq_refl)
    end.
    ring.
  - match goal with
    | |- - (_ * @gauss_integral _ ?pf) = _ =>
        rewrite (@gauss_integral_eq (- - x) x pf Hp) by ring
    end.
    ring.
  - exfalso. lra.
Qed.

(** X20: [gelu(x) - gelu(-x) = x] for every [x], the error function being
    odd; in particular [gelu(0) = 0]. *)
Theorem gelu_minus_gelu_of_opposite (x : R) :
  gelu x - gelu (- x) = x /\ gelu 0 = 0.
Proof.
  split.
  - unfold gelu. replace (- x / sqrt 2) with (- (x / sqrt 2)) by (unfold Rdiv; ring).
    rewrite erf_odd. field.
  - unfold gelu. ring.
Qed.

(** ** The pooled output is bounded *)

Lemma tanh_range (x : R) : -1 < tanh x < 1.
Proof.
  unfold tanh, sinh, cosh.
  pose proof (exp_pos x) as Ha. pose proof (exp_pos (- x)) as Hb.
  set (a := exp x) in *. set (b := exp (- x)) in *.
  replace ((a - b) / 2 / ((a + b) / 2)) with ((a - b) / (a + b)) by (field; lra).
  split.
  - apply Rmult_lt_reg_r with (a + b); [lra|].
    unfold Rdiv. rewrite Rmult_assoc, Rinv_l by lra. lra.
  - apply Rmult_lt_reg_r with (a + b); [lra|].
    unfold Rdiv. rewrite Rmult_assoc, Rinv_l by lra. lra.
Qed.

(** X21: every entry of a pooled output lies in the closed interval from
    -1 to 1, the range of the final [tanh]. *)
Theorem pooled_output_bounded (self : ContextBERTPooler.t) (hidden_states : tensor3)
    (attention_mask pooled_output : tensor2) :
  ContextBERTPooler.forward self hidden_states attention_mask = Ok pooled_output ->
  Forall (Forall (fun y => -1 <= y <= 1)) pooled_output.
Proof.
  unfold ContextBERTPooler.forward.
  destruct (ContextBERTPooler.first_token hidden_states) as [hs_pooled|e]; cbn [bind];
    [|discriminate].
  intros E. inversion E; subst; clear E.
  apply Forall_map. apply Forall_map. apply Forall_forall. intros row _.
  apply Forall_map. apply Forall_forall. intros y _.
  pose proof (tanh_range y). lra.
Qed.

Lemma pooled_output_bounded_witness :
  Forall (Forall (fun y => -1 <= y <= 1))
    [map tanh (Linear_forward1 identity2 [1; 2])].
Proof.
  apply (@pooled_output_bounded pooler2 hidden_1x2x2 [[1; 1]]). reflexivity.
Defined.

(** ** The attribute dictionary of BertConfig *)

Lemma getitem_setitem (d : BertConfigObject.dict) (k k' : String.string) (v : PyValue) :
  BertConfigObject.getitem (BertConfigObject.setitem d k v) k'
  = if String.eqb k k' then Some v else BertConfigObject.getitem d k'.
Proof.
  induction d as [|[k0 v0] d IH]; cbn [BertConfigObject.setitem BertConfigObject.getitem].
  - reflexivity.
  - destruct (String.eqb_spec k0 k) as [->|Hne]; cbn [BertConfigObject.getitem].
    + destruct (String.eqb_spec k k'); reflexivity.
    + destruct (String.eqb_spec k0 k') as [->|Hne'].
      * destruct (String.eqb_spec k k'); [congruence | reflexivity].
      * exact IH.
Qed.

Lemma getitem_notin (d : BertConfigObject.dict) (k : String.string) :
  ~ In k (BertConfigObject.keys d) -> BertConfigObject.getitem d k = None.
Proof.
  induction d as [|[k0 v0] d IH]; cbn; intros Hn; [reflexivity|].
  destruct (String.eqb_spec k0 k) as [->|Hne]; [exfalso; apply Hn; left; reflexivity|].
  apply IH. intros Hin. apply Hn. right. exact Hin.
Qed.

Lemma getitem_fold (json_object config : BertConfigObject.dict) (k : String.string) :
  NoDup (BertConfigObject.keys json_object) ->
  BertConfigObject.getitem
    (fold_left (fun c kv => BertConfigObject.setitem c (fst kv) (snd kv)) json_object config)
    k
  = match BertConfigObject.getitem json_object k with
    | Some v => Some v
    | None => BertConfigObject.getitem config k
    end.
Proof.
  revert config. induction json_object as [|[k1 v1] d IH]; intros config Hnd.
  - reflexivity.
  - cbn [fold_left fst snd]. cbn [BertConfigObject.keys map fst] in Hnd.
    inversion Hnd as [|? ? Hnotin Hnd']; subst.
    rewrite (IH _ Hnd'). cbn [BertConfigObject.getitem].
    rewrite getitem_setitem.
    destruct (String.eqb_spec k1 k) as [->|Hne]; [|reflexivity].
    rewrite getitem_notin by exact Hnotin. reflexivity.
Qed.

(** X22: after [from_dict], an attribute named in the dictionary has the
    value given there; every other attribute has the constructor's default,
    and [vocab_size] is [None]. *)
Theorem from_dict_attributes (json_object : BertConfigObject.dict) (k : String.string) :
  NoDup (BertConfigObject.keys json_object) ->
  BertConfigObject.getitem (BertConfigObject.from_dict json_object) k
  = match BertConfigObject.getitem json_object k with
    | Some v => Some v
    | None => BertConfigObject.getitem (BertConfigObject.with_defaults PyNone) k
    end.
Proof. intros Hnd. unfold BertConfigObject.from_dict. apply getitem_fold. exact Hnd. Qed.

Lemma from_dict_attributes_witness :
  BertConfigObject.getitem
    (BertConfigObject.from_dict [("hidden_size"%string, PyInt 8)]) "hidden_size"%string
  = Some (PyInt 8) /\
  BertConfigObject.getitem
    (BertConfigObject.from_dict [("hidden_size"%string, PyInt 8)]) "vocab_size"%string
  = Some PyNone.
Proof.
  assert (Hnd : NoDup (BertConfigObject.keys [("hidden_size"%string, PyInt 8)]))
    by (repeat constructor; intros []).
  split.
  - exact (@from_dict_attributes _ "hidden_size"%string Hnd).
  - exact (@from_dict_attributes _ "vocab_size"%string Hnd).
Defined.

Lemma setitem_app_notin (done d : BertConfigObject.dict) (k : String.string) (v : PyValue) :
  ~ In k (BertConfigObject.keys done) ->
  BertConfigObject.setitem (done ++ d) k v = done ++ BertConfigObject.setitem d k v.
Proof.
  induction done as [|[k0 v0] done IH]; cbn; intros Hn; [reflexivity|].
  destruct (String.eqb_spec k0 k) as [->|Hne]; [exfalso; apply Hn; left; reflexivity|].
  f_equal. apply IH. intros Hin. apply Hn. right. exact Hin.
Qed.

Lemma fold_setitem_same_keys (p : BertConfigObject.dict) :
  forall done d : BertConfigObject.dict,
  BertConfigObject.keys d = BertConfigObject.keys p ->
  NoDup (BertConfigObject.keys done ++ BertConfigObject.keys p) ->
  fold_left (fun c kv => BertConfigObject.setitem c (fst kv) (snd kv)) p (done ++ d)
  = done ++ p.
Proof.
  induction p as [|[k v] p IH]; intros done d Hk Hnd.
  - destruct d; [reflexivity | discriminate].
  - destruct d as [|[k' v0] d]; [discriminate|].
    cbn [BertConfigObject.keys map fst] in Hk. inversion Hk; subst k'.
    cbn [fold_left fst snd].
    assert (Hnotin : ~ In k (BertConfigObject.keys done)).
    { apply NoDup_remove_2 in Hnd. intros Hin. apply Hnd. apply in_or_app. left. exact Hin. }
    rewrite setitem_app_notin by exact Hnotin. cbn [BertConfigObject.setitem].
    rewrite String.eqb_refl.
    change (done ++ (k, v) :: d) with (done ++ [(k, v)] ++ d). rewrite app_assoc.
    rewrite IH.
    + rewrite <- app_assoc. reflexivity.
    + assumption.
    + unfold BertConfigObject.keys in *. rewrite map_app. cbn [map fst].
      rewrite <- app_assoc. exact Hnd.
Qed.

Lemma fold_setitem_new_keys (q : BertConfigObject.dict) :
  forall d : BertConfigObject.dict,
  NoDup (BertConfigObject.keys d ++ BertConfigObject.keys q) ->
  fold_left (fun c kv => BertConfigObject.setitem c (fst kv) (snd kv)) q d = d ++ q.
Proof.
  induction q as [|[k v] q IH]; intros d Hnd.
  - rewrite app_nil_r. reflexivity.
  - cbn [fold_left fst snd].
    assert (Hnotin : ~ In k (BertConfigObject.keys d)).
    { apply NoDup_remove_2 in Hnd. intros Hin. apply Hnd. apply in_or_app. left. exact Hin. }
    pose proof (@setitem_app_notin d [] k v Hnotin) as E. rewrite app_nil_r in E.
    rewrite E. cbn [BertConfigObject.setitem]. rewrite IH.
    + rewrite <- app_assoc. reflexivity.
    + unfold BertConfigObject.keys in *. rewrite map_app. cbn [map fst].
      rewrite <- app_assoc. exact Hnd.
Qed.

Lemma from_dict_roundtrip (config : BertConfigObject.dict) :
  BertConfigObject.is_config config ->
  BertConfigObject.from_dict (BertConfigObject.to_dict config) = config.
Proof.
  intros [Hnd Hfirst]. unfold BertConfigObject.from_dict, BertConfigObject.to_dict.
  assert (Hk1 : BertConfigObject.keys (BertConfigObject.with_defaults PyNone)
                = BertConfigObject.keys (firstn 12 config)).
  { unfold BertConfigObject.keys in *. rewrite <- firstn_map. symmetry. exact Hfirst. }
  assert (Hsplit : NoDup (BertConfigObject.keys (firstn 12 config)
                          ++ BertConfigObject.keys (skipn 12 config))).
  { unfold BertConfigObject.keys in *. rewrite <- map_app, firstn_skipn. exact Hnd. }
  set (c1 := firstn 12 config) in *. set (c2 := skipn 12 config) in *.
  assert (E : config = c1 ++ c2) by (symmetry; apply firstn_skipn).
  rewrite E. rewrite fold_left_app.
  pose proof (@fold_setitem_same_keys c1 [] (BertConfigObject.with_defaults PyNone) Hk1)
    as E1.
  cbn [app] in E1. rewrite E1.
  - apply fold_setitem_new_keys. exact Hsplit.
  - cbn [BertConfigObject.keys map app]. apply NoDup_app_remove_r in Hsplit. exact Hsplit.
Qed.

Lemma setitem_keys (d : BertConfigObject.dict) (k : String.string) (v : PyValue) :
  BertConfigObject.keys (BertConfigObject.setitem d k v)
  = if in_dec String.string_dec k (BertConfigObject.keys d)
    then BertConfigObject.keys d else BertConfigObject.keys d ++ [k].
Proof.
  induction d as [|[k0 v0] d IH]; cbn [BertConfigObject.setitem BertConfigObject.keys map fst].
  - destruct (in_dec String.string_dec k []) as [[]|_]. reflexivity.
  - destruct (String.eqb_spec k0 k) as [->|Hne].
    + cbn [map fst]. destruct (in_dec String.string_dec k (k :: map fst d)) as [_|Hn];
        [reflexivity | exfalso; apply Hn; left; reflexivity].
    + cbn [map fst]. fold (BertConfigObject.keys (BertConfigObject.setitem d k v)).
      rewrite IH. fold (BertConfigObject.keys d).
      destruct (in_dec String.string_dec k (BertConfigObject.keys d)) as [Hin|Hn];
        destruct (in_dec String.string_dec k (k0 :: BertConfigObject.keys d)) as [Hin'|Hn'];
        try reflexivity.
      * exfalso. apply Hn'. right. exact Hin.
      * exfalso. destruct Hin' as [E|Hin']; [congruence | contradiction].
Qed.

Lemma is_config_setitem (d : BertConfigObject.dict) (k : String.string) (v : PyValue) :
  BertConfigObject.is_config d -> BertConfigObject.is_config (BertConfigObject.setitem d k v).
Proof.
  intros [Hnd Hfirst]. unfold BertConfigObject.is_config. rewrite setitem_keys.
  destruct (in_dec String.string_dec k (BertConfigObject.keys d)) as [Hin|Hn];
    [split; assumption|].
  split.
  - apply NoDup_app; [exact Hnd | repeat constructor; intros [] | ].
    intros x Hx [<-|[]]. contradiction.
  - assert (Hlen : (12 <= length (BertConfigObject.keys d))%nat).
    { rewrite <- (firstn_skipn 12 (BertConfigObject.keys d)), Hfirst, length_app. cbn. lia. }
    rewrite firstn_app.
    replace (12 - length (BertConfigObject.keys d))%nat with 0%nat by lia.
    cbn [firstn]. rewrite app_nil_r. exact Hfirst.
Qed.

(** X23: what [__init__] builds and what [from_dict] returns are attribute
    dictionaries of a configuration object (no name twice, the twelve
    constructor attributes first), and on such a dictionary [from_dict]
    after [to_dict] gives the dictionary back. *)
Theorem config_to_dict_from_dict_roundtrip (json_object config : BertConfigObject.dict) :
  (forall v1 v2 v3 v4 v5 v6 v7 v8 v9 v10 v11 v12,
     BertConfigObject.is_config
       (BertConfigObject.init v1 v2 v3 v4 v5 v6 v7 v8 v9 v10 v11 v12)) /\
  BertConfigObject.is_config (BertConfigObject.from_dict json_object) /\
  BertConfigObject.from_dict
    (BertConfigObject.to_dict (BertConfigObject.from_dict json_object))
  = BertConfigObject.from_dict json_object /\
  (BertConfigObject.is_config config ->
   BertConfigObject.from_dict (BertConfigObject.to_dict config) = config).
Proof.
  assert (Hinit : forall v1 v2 v3 v4 v5 v6 v7 v8 v9 v10 v11 v12,
            BertConfigObject.is_config
              (BertConfigObject.init v1 v2 v3 v4 v5 v6 v7 v8 v9 v10 v11 v12)).
  { intros. split; [|reflexivity]. cbn.
    repeat (constructor; [cbn; intuition discriminate|]). constructor. }
  assert (H : BertConfigObject.is_config (BertConfigObject.from_dict json_object)).
  { unfold BertConfigObject.from_dict.
    assert (H0 : BertConfigObject.is_config (BertConfigObject.with_defaults PyNone))
      by apply Hinit.
    revert H0. generalize (BertConfigObject.with_defaults PyNone).
    induction json_object as [|[k v] d IH]; intros c Hc; [exact Hc|].
    cbn [fold_left fst snd]. apply IH. apply is_config_setitem. exact Hc. }
  split; [exact Hinit|].
  split; [exact H|]. split; [apply from_dict_roundtrip; exact H|].
  apply from_dict_roundtrip.
Qed.

(** ** The classification head *)

Lemma softmax_entry_range (row : vec) (i : nat) :
  (i < length row)%nat -> 0 < nth i (softmax row) 0 <= 1.
Proof.
  intros Hi. unfold softmax.
  rewrite (nth_map_in _ _ 0 0) by (rewrite length_map; exact Hi).
  rewrite (nth_map_in _ row 0 0 Hi).
  assert (Hne : row <> []) by (destruct row; [cbn in Hi; lia | congruence]).
  pose proof (sum_exp_pos Hne) as Hpos.
  pose proof (exp_pos (nth i row 0)) as He.
  assert (Hle : exp (nth i row 0) <= sum (map exp row)).
  { clear Hne Hpos He. revert i Hi. unfold sum.
    induction row as [|a row IH]; intros [|i] Hi; cbn in Hi; try lia;
      cbn [map fold_right nth].
    - assert (0 <= fold_right Rplus 0 (map exp row)).
      { clear. induction row as [|b row IH]; cbn [map fold_right]; [lra|].
        pose proof (exp_pos b). lra. }
      lra.
    - specialize (IH i ltac:(lia)). pose proof (exp_pos a). lra. }
  split.
  - apply Rdiv_lt_0_compat; assumption.
  - apply Rmult_le_reg_r with (sum (map exp row)); [exact Hpos|].
    unfold Rdiv. rewrite Rmult_assoc, Rinv_l by lra. lra.
Qed.

Lemma nll_valid (C : nat) (row : vec) (t : Z) :
  length row = C -> valid_label C t ->
  exists term, nll row t = Ok term /\
    match term with Some x => 0 <= x | None => t = ignore_index end.
Proof.
  intros Hrow Hv. unfold nll.
  destruct (Z.eqb_spec t ignore_index) as [->|Hne].
  - exists None. split; reflexivity.
  - destruct Hv as [Hv|Hv]; [contradiction|].
    destruct (Z.ltb_spec t 0) as [H0|H0]; [lia|].
    destruct (Z.leb_spec (Z.of_nat (length row)) t) as [H1|H1]; [lia|].
    cbn [orb]. eexists. split; [reflexivity|]. cbv beta iota.
    destruct (@softmax_entry_range row (Z.to_nat t) ltac:(lia)) as [Hp Hq].
    assert (ln (nth (Z.to_nat t) (softmax row) 0) <= 0).
    { destruct (Req_dec (nth (Z.to_nat t) (softmax row) 0) 1) as [->|Hn1].
      - rewrite ln_1. lra.
      - assert (Hlt : nth (Z.to_nat t) (softmax row) 0 < 1)
          by (destruct Hq as [Hlt|Heq]; [exact Hlt | contradiction]).
        pose proof (ln_increasing _ _ Hp Hlt) as Hln. rewrite ln_1 in Hln. lra. }
    lra.
Qed.

Lemma sum_nonneg (v : vec) : Forall (fun x => 0 <= x) v -> 0 <= sum v.
Proof.
  unfold sum. induction 1 as [|x v Hx _ IH]; cbn [fold_right]; lra.
Qed.

Lemma nll_terms (C : nat) (logits : tensor2) :
  Forall (shape1 C) logits ->
  forall labels : list Z,
  length labels = length logits ->
  Forall (valid_label C) labels ->
  exists terms,
    mapM (fun p => nll (fst p) (snd p)) (combine logits labels) = Ok terms /\
    Forall (fun x => 0 <= x) (kept terms) /\
    (Exists (fun t => t <> ignore_index) labels -> kept terms <> []).
Proof.
  induction 1 as [|row logits Hrow _ IH]; intros [|t labels] Hl Hv; try discriminate Hl.
  - exists []. split; [reflexivity|]. split; [constructor|]. intros Hex. inversion Hex.
  - inversion Hv as [|? ? Hvt Hv']; subst. cbn [combine mapM fst snd].
    destruct (@nll_valid _ _ _ Hrow Hvt) as [term [Et Hterm]]. rewrite Et. cbn [bind].
    assert (Hl' : length labels = length logits) by (cbn in Hl; lia).
    destruct (IH labels Hl' Hv') as [terms [E [Hnn Hne]]].
    rewrite E. cbn [bind]. eexists. split; [reflexivity|].
    destruct term as [x|]; cbn [kept].
    + split; [constructor; assumption | intros _; discriminate].
    + split; [exact Hnn|]. intros Hex. apply Hne.
      inversion Hex as [? ? Ht|? ? Hex']; subst; [contradiction | exact Hex'].
Qed.

Lemma cross_entropy_nonneg (logits : tensor2) (labels : list Z) (B C : nat) :
  shape2 B C logits ->
  length labels = B ->
  Forall (valid_label C) labels ->
  Exists (fun t => t <> ignore_index) labels ->
  exists loss, CrossEntropyLoss logits labels = Ok loss /\ 0 <= loss.
Proof.
  intros [HB Hrows] Hl Hv Hex. unfold CrossEntropyLoss.
  rewrite HB, Hl, Nat.eqb_refl. cbn [negb].
  assert (Hl' : length labels = length logits) by lia.
  destruct (nll_terms Hrows Hl' Hv) as [terms [E [Hnn Hne]]].
  rewrite E. cbn [bind].
  eexists. split; [reflexivity|]. unfold mean.
  apply Rmult_le_pos; [apply sum_nonneg; exact Hnn|].
  apply Rlt_le, Rinv_0_lt_compat, INR_length_pos. exact (Hne Hex).
Qed.

Lemma shape2_logits (self : CGBertForSequenceClassification.t) (pooled : tensor2)
    (B H C : nat) :
  Linear_shape H C (CGBertForSequenceClassification.classifier self) ->
  (forall x, length (CGBertForSequenceClassification.dropout self x) = length x) ->
  length pooled = B ->
  shape2 B C
    (map (Linear_forward1 (CGBertForSequenceClassification.classifier self))
       (CGBertForSequenceClassification.dropout self pooled)).
Proof.
  intros Wc Hdrop Hpl.
  split; [rewrite length_map, Hdrop; exact Hpl|].
  apply Forall_map. apply Forall_forall. intros row _. unfold shape1.
  eapply length_Linear_forward1. exact Wc.
Qed.

(** X24: under the conditions for [ContextBertModel.forward] to succeed,
    with a classifier from the hidden size to [C] labels, a dropout that
    keeps the number of rows and one label per example, each a class below
    [C] or the ignored index -100 and not all of them ignored, the
    classification model returns a loss together with the logits, and the
    loss is not negative. *)
Theorem classification_loss_nonnegative (self : CGBertForSequenceClassification.t)
    (input_ids : list (list Z)) (token_type_ids : option (list (list Z)))
    (attention_mask : option tensor2) (seq_lens : list Z) (labels : list Z)
    (context_ids : list Z) (B L H I C : nat) :
  let m := CGBertForSequenceClassification.bert self in
  let segments := match token_type_ids with
                  | None => zeros_like input_ids
                  | Some ids => ids
                  end in
  ContextBertModel_wf H I m ->
  Linear_shape H C (CGBertForSequenceClassification.classifier self) ->
  (forall x, length (CGBertForSequenceClassification.dropout self x) = length x) ->
  (0 < B)%nat -> (0 < L)%nat ->
  ids_shape B L input_ids ->
  ids_shape B L segments ->
  match attention_mask with Some a => shape2 B L a | None => True end ->
  ids_in_range (length (BERTEmbeddings.word_embeddings (ContextBertModel.embeddings m)))
    input_ids ->
  (L <= length (BERTEmbeddings.position_embeddings (ContextBertModel.embeddings m)))%nat ->
  ids_in_range (length (BERTEmbeddings.token_type_embeddings (ContextBertModel.embeddings m)))
    segments ->
  length context_ids = B ->
  Forall (fun i => (0 <= i < 8)%Z) context_ids ->
  ContextBERTEncoder.layer (ContextBertModel.encoder m) <> [] ->
  length labels = B ->
  Forall (valid_label C) labels ->
  Exists (fun t => t <> ignore_index) labels ->
  exists loss logits,
    CGBertForSequenceClassification.forward self input_ids token_type_ids attention_mask
      seq_lens (Some labels) context_ids = Ok (Some loss, logits) /\
    CGBertForSequenceClassification.forward self input_ids token_type_ids attention_mask
      seq_lens None context_ids = Ok (None, logits) /\
    shape2 B C logits /\
    0 <= loss.
Proof.
  intros m segments Wm Wc Hdrop HB HL Hids Hseg Hmask Rw Rp Rt Hc Hcr Hlayers
    Hlab Hvalid Hkept.
  destruct (@model_forward_ok m input_ids token_type_ids attention_mask context_ids
              B L H I Wm HB HL Hids Hseg Hmask Rw Rp Rt Hc Hcr Hlayers)
    as [pooled [Ep [Hpl _]]].
  pose proof (@shape2_logits self pooled B H C Wc Hdrop Hpl) as Hlogits.
  destruct (@cross_entropy_nonneg _ labels B C Hlogits Hlab Hvalid Hkept)
    as [loss [El Hloss]].
  unfold CGBertForSequenceClassification.forward. fold m. rewrite Ep. cbn [bind].
  rewrite El. cbn [bind].
  eexists. eexists. split; [reflexivity|]. split; [reflexivity|].
  split; [exact Hlogits | exact Hloss].
Qed.

Lemma classification_loss_witness :
  exists loss logits,
    CGBertForSequenceClassification.forward classification1 [[0%Z; 1%Z]] None
      (Some [[1; 0]]) [2%Z] (Some [1%Z]) [3%Z] = Ok (Some loss, logits) /\
    0 <= loss.
Proof.
  destruct (@classification_loss_nonnegative classification1 [[0%Z; 1%Z]] None
              (Some [[1; 0]]) [2%Z] [1%Z] [3%Z] 1 2 1 1 2)
    as [loss [logits [E [_ [_ Hl]]]]];
    try exact model1_wf; try lia; try discriminate; try (intros; reflexivity);
    try (constructor; [right; cbn; lia | constructor]);
    try (left; discriminate);
    [wf_solve ..|].
  exists loss, logits. split; assumption.
Defined.

(** X25: [seq_lens] is never read: on every input, with or without
    labels, the classification model returns the same result for any two
    values of it.  Under the conditions for [ContextBertModel.forward] to
    succeed, with a classifier from the hidden size to [C] labels and a
    dropout that keeps the number of rows, the model called without labels
    returns logits of shape (batch, C), the same for every [seq_lens];
    called with labels it either raises or returns a loss with those same
    logits. *)
Theorem classification_logits (self : CGBertForSequenceClassification.t)
    (input_ids : list (list Z)) (token_type_ids : option (list (list Z)))
    (attention_mask : option tensor2) (context_ids : list Z)
    (B L H I C : nat) :
  let m := CGBertForSequenceClassification.bert self in
  let segments := match token_type_ids with
                  | None => zeros_like input_ids
                  | Some ids => ids
                  end in
  ContextBertModel_wf H I m ->
  Linear_shape H C (CGBertForSequenceClassification.classifier self) ->
  (forall x, length (CGBertForSequenceClassification.dropout self x) = length x) ->
  (0 < B)%nat -> (0 < L)%nat ->
  ids_shape B L input_ids ->
  ids_shape B L segments ->
  match attention_mask with Some a => shape2 B L a | None => True end ->
  ids_in_range (length (BERTEmbeddings.word_embeddings (ContextBertModel.embeddings m)))
    input_ids ->
  (L <= length (BERTEmbeddings.position_embeddings (ContextBertModel.embeddings m)))%nat ->
  ids_in_range (length (BERTEmbeddings.token_type_embeddings (ContextBertModel.embeddings m)))
    segments ->
  length context_ids = B ->
  Forall (fun i => (0 <= i < 8)%Z) context_ids ->
  ContextBERTEncoder.layer (ContextBertModel.encoder m) <> [] ->
  (forall ids types amask labels cids seq_lens seq_lens',
     CGBertForSequenceClassification.forward self ids types amask seq_lens labels cids
     = CGBertForSequenceClassification.forward self ids types amask seq_lens' labels cids) /\
  exists logits,
    (forall seq_lens,
       CGBertForSequenceClassification.forward self input_ids token_type_ids
         attention_mask seq_lens None context_ids = Ok (None, logits)) /\
    shape2 B C logits /\
    forall seq_lens labels,
      (exists e,
         CGBertForSequenceClassification.forward self input_ids token_type_ids
           attention_mask seq_lens (Some labels) context_ids = Raise e) \/
      (exists loss,
         CGBertForSequenceClassification.forward self input_ids token_type_ids
           attention_mask seq_lens (Some labels) context_ids = Ok (Some loss, logits)).
Proof.
  intros m segments Wm Wc Hdrop HB HL Hids Hseg Hmask Rw Rp Rt Hc Hcr Hlayers.
  split; [intros; reflexivity|].
  destruct (@model_forward_ok m input_ids token_type_ids attention_mask context_ids
              B L H I Wm HB HL Hids Hseg Hmask Rw Rp Rt Hc Hcr Hlayers)
    as [pooled [Ep [Hpl _]]].
  unfold CGBertForSequenceClassification.forward. fold m. rewrite Ep. cbn [bind].
  eexists. split; [intros; reflexivity|]. split.
  - exact (@shape2_logits self pooled B H C Wc Hdrop Hpl).
  - intros _ labels.
    destruct (CrossEntropyLoss _ labels) as [loss|e]; cbn [bind].
    + right. eexists. reflexivity.
    + left. eexists. reflexivity.
Qed.

Lemma classification_logits_witness :
  exists logits,
    (forall seq_lens,
       CGBertForSequenceClassification.forward classification1 [[0%Z; 1%Z]] None
         (Some [[1; 0]]) seq_lens None [3%Z] = Ok (None, logits)) /\
    shape2 1 2 logits.
Proof.
  destruct (@classification_logits classification1 [[0%Z; 1%Z]] None (Some [[1; 0]])
              [3%Z] 1 2 1 1 2) as [_ [logits [E [S _]]]];
    try exact model1_wf; try lia; try discriminate; try (intros; reflexivity);
    [wf_solve ..|].
  exists logits. split; assumption.
Defined.

Lemma config_roundtrip_witness :
  BertConfigObject.from_dict
    (BertConfigObject.to_dict
       (BertConfigObject.from_dict [("hidden_size"%string, PyInt 8);
                                    ("num_labels"%string, PyInt 3)]))
  = BertConfigObject.from_dict [("hidden_size"%string, PyInt 8);
                                ("num_labels"%string, PyInt 3)].
Proof.
  exact (proj1 (proj2 (proj2 (config_to_dict_from_dict_roundtrip
                         [("hidden_size"%string, PyInt 8); ("num_labels"%string, PyInt 3)]
                         [])))).
Defined.

Lemma mask_errors_witness :
  exists m, mask [2%Z; 3%Z] = Ok m.
Proof.
  apply (proj2 (proj2 (mask_errors [2%Z; 3%Z]))).
  - discriminate.
  - left. lia.
Defined.
